(** * Code review assistant: diff parser, focused review, complexity checker,
      configuration merge and rule engine.

    Shallow embedding of
      - [git/diff_parser.py]       (module [DiffParser])
      - [git/focused_review.py]    (module [FocusedReview])
      - [analyzers/checkers/complexity_checker.py] (module [Complexity])
      - [config/config_parser.py]  (module [ConfigMerge])
      - [config/rule_engine.py]    (module [RuleEngine])

    Python [str] values are modelled as [string], the bytes of their UTF-8
    encoding; a character is read off its bytes, and the character classes
    of the patterns and of [strip] are those of Unicode.  Python [int] line
    numbers are [N], [Optional[T]] is [option T], sets of line numbers are
    [gset N], dictionaries with string keys are [gmap string _] (or
    association lists where the value type is recursive or the order of
    insertion matters), exceptions are the [Raise] outcome of the [result]
    monad. *)

From Stdlib Require Import String Ascii NArith List Bool Lia DecimalString.
From stdpp Require Import gmap strings list fin_maps sorting.

Set Warnings "-clear-no-such-hyp".

Local Open Scope string_scope.
Local Open Scope list_scope.

(** ** Outcomes of fallible code *)

Inductive exn : Type :=
| IndexError      (* subscript out of range *)
| ValueError      (* int() on a numeral it does not convert *)
| Timeout.        (* loop bound of the model exhausted; never a Python outcome *)

Inductive result (A : Type) : Type :=
| Ok (a : A)
| Raise (e : exn).
Arguments Ok {A} a.
Arguments Raise {A} e.

#[global] Instance result_ret : MRet result := fun A a => Ok a.
#[global] Instance result_bind : MBind result := fun A B k m =>
  match m with
  | Ok a => k a
  | Raise e => Raise e
  end.

Ltac unbind := unfold mbind, result_bind, mret, result_ret in *.

(** ** Python string primitives *)

Module Py.

(** [s.startswith(p)] *)
Definition startswith (s p : string) : bool := String.prefix p s.

(** [p in s] *)
Definition contains (s p : string) : bool :=
  match String.index 0 p s with
  | Some _ => true
  | None => false
  end.

(** [s[n:]] behind [n] characters of one byte each: what is left behind a
    prefix of the patterns. *)
Fixpoint drop (n : nat) (s : string) : string :=
  match n, s with
  | O, _ => s
  | S n', String _ s' => drop n' s'
  | S _, EmptyString => EmptyString
  end.

(** [s.split('\n')]: always at least one piece. *)
Fixpoint split_newline (s : string) : list string :=
  match s with
  | EmptyString => [EmptyString]
  | String c s' =>
      if Ascii.eqb c "010"%char then EmptyString :: split_newline s'
      else match split_newline s' with
           | [] => [String c EmptyString]
           | l :: ls => String c l :: ls
           end
  end.

(** [lines[i]] *)
Definition getitem {A} (l : list A) (i : nat) : result A :=
  match nth_error l i with
  | Some x => Ok x
  | None => Raise IndexError
  end.

(** [s[0]], by its first byte: the code compares it with ['+'] and ['-']
    only, which are their own encodings and start no other character. *)
Definition first_char (s : string) : result ascii :=
  match s with
  | String c _ => Ok c
  | EmptyString => Raise IndexError
  end.

(** *** Characters

    A character of a [str] is the byte that starts it in UTF-8 together
    with the continuation bytes behind it. *)

(** A continuation byte, [10xxxxxx]. *)
Definition is_continuation (b : ascii) : bool :=
  let n := N_of_ascii b in ((128 <=? n) && (n <? 192))%N.

(** The characters of [s] in order, each as its bytes. *)
Fixpoint chars (s : string) : list string :=
  match s with
  | EmptyString => []
  | String b s' =>
      match s' with
      | EmptyString => [String b ""]
      | String b' _ =>
          if is_continuation b' then
            match chars s' with
            | ch :: chs => String b ch :: chs
            | [] => [String b ""]
            end
          else String b "" :: chars s'
      end
  end.

(** [''.join(parts)] *)
Definition join (parts : list string) : string := String.concat "" parts.

(** [len(s)] *)
Definition len (s : string) : nat := length (chars s).

(** [s[1:]] *)
Definition tail (s : string) : string := join (List.tail (chars s)).

(** The code point of a character, from its one to four bytes. *)
Definition code_point (ch : string) : option N :=
  let low (b : ascii) := (N_of_ascii b mod 64)%N in
  match ch with
  | String b0 "" =>
      let n := N_of_ascii b0 in if (n <? 128)%N then Some n else None
  | String b0 (String b1 "") =>
      let n := N_of_ascii b0 in
      if ((194 <=? n) && (n <? 224))%N then Some ((n mod 32) * 64 + low b1)%N
      else None
  | String b0 (String b1 (String b2 "")) =>
      let n := N_of_ascii b0 in
      if ((224 <=? n) && (n <? 240))%N
      then Some ((n mod 16) * 4096 + low b1 * 64 + low b2)%N
      else None
  | String b0 (String b1 (String b2 (String b3 ""))) =>
      let n := N_of_ascii b0 in
      if ((240 <=? n) && (n <? 245))%N
      then Some ((n mod 8) * 262144 + low b1 * 4096 + low b2 * 64 + low b3)%N
      else None
  | _ => None
  end.

(** The whitespace characters: those [str.isspace] holds of, which
    [str.strip] removes and the pattern [\s] matches. *)
Definition whitespace : list N :=
  [9; 10; 11; 12; 13; 28; 29; 30; 31; 32; 133; 160; 5760;
   8192; 8193; 8194; 8195; 8196; 8197; 8198; 8199; 8200; 8201; 8202;
   8232; 8233; 8239; 8287; 12288]%N.

Definition is_space (ch : string) : bool :=
  match code_point ch with
  | Some cp => bool_decide (cp ∈ whitespace)
  | None => false
  end.

(** The decimal digits, which the pattern [\d] matches and [int] reads:
    the characters of general category Nd (Unicode 14.0, the tables of
    CPython 3.11).  They come in runs of consecutive code points, given
    by first code point and length; a run starts at a digit zero and
    counts up to nine, again and again. *)
Definition decimal_runs : list (N * N) :=
  [(48, 10); (1632, 10); (1776, 10); (1984, 10); (2406, 10); (2534, 10);
   (2662, 10); (2790, 10); (2918, 10); (3046, 10); (3174, 10); (3302, 10);
   (3430, 10); (3558, 10); (3664, 10); (3792, 10); (3872, 10); (4160, 10);
   (4240, 10); (6112, 10); (6160, 10); (6470, 10); (6608, 10); (6784, 10);
   (6800, 10); (6992, 10); (7088, 10); (7232, 10); (7248, 10); (42528, 10);
   (43216, 10); (43264, 10); (43472, 10); (43504, 10); (43600, 10);
   (44016, 10); (65296, 10); (66720, 10); (68912, 10); (69734, 10);
   (69872, 10); (69942, 10); (70096, 10); (70384, 10); (70736, 10);
   (70864, 10); (71248, 10); (71360, 10); (71472, 10); (71904, 10);
   (72016, 10); (72784, 10); (73040, 10); (73120, 10); (92768, 10);
   (92864, 10); (93008, 10); (120782, 50); (123200, 10); (123632, 10);
   (125264, 10); (130032, 10)]%N.

(** The value of a decimal digit. *)
Definition digit_value (ch : string) : option N :=
  match code_point ch with
  | Some cp =>
      match List.find (fun run => (fst run <=? cp) && (cp <? fst run + snd run))%N
                      decimal_runs with
      | Some run => Some ((cp - fst run) mod 10)%N
      | None => None
      end
  | None => None
  end.

Definition is_digit (ch : string) : bool :=
  match digit_value ch with Some _ => true | None => false end.

(** Longest prefix of elements satisfying [p], and the remainder. *)
Fixpoint span_list {A} (p : A -> bool) (l : list A) : list A * list A :=
  match l with
  | [] => ([], [])
  | x :: l' =>
      if p x then let '(a, b) := span_list p l' in (x :: a, b)
      else ([], l)
  end.

(** Longest prefix of characters satisfying [p], and the remainder: what
    a greedy [p*] takes at the head of [s]. *)
Definition span (p : string -> bool) (s : string) : string * string :=
  let '(a, b) := span_list p (chars s) in (join a, join b).

(** The default of [sys.get_int_max_str_digits()]. *)
Definition int_max_str_digits : nat := 4300.

Fixpoint int_acc (acc : N) (digits : list string) : result N :=
  match digits with
  | [] => Ok acc
  | ch :: digits' =>
      match digit_value ch with
      | Some d => int_acc (10 * acc + d)%N digits'
      | None => Raise ValueError
      end
  end.

(** [int(s)] for a string of decimal digits, which is all the parser
    passes: the number, or [ValueError] when [s] has more digits than the
    interpreter converts, is empty or holds another character.  (Sign,
    blanks and underscores, which [int] accepts as well, never reach
    it.) *)
Definition int (s : string) : result N :=
  match chars s with
  | [] => Raise ValueError
  | digits =>
      if (int_max_str_digits <? length digits)%nat then Raise ValueError
      else int_acc 0%N digits
  end.

(** [d.get(k)] and [d[k] = v] on an insertion-ordered dictionary with
    string keys, kept as an association list without repeated keys. *)
Fixpoint dict_get {V} (d : list (string * V)) (k : string) : option V :=
  match d with
  | [] => None
  | (k', v') :: d' => if String.eqb k' k then Some v' else dict_get d' k
  end.

Fixpoint dict_set {V} (d : list (string * V)) (k : string) (v : V)
  : list (string * V) :=
  match d with
  | [] => [(k, v)]
  | (k', v') :: d' =>
      if String.eqb k' k then (k', v) :: d' else (k', v') :: dict_set d' k v
  end.

(** [sum(...)] over naturals *)
Definition sum (l : list N) : N := foldr N.add 0%N l.

End Py.

(** ** Regular expressions of the diff parser

    Each function is [re.search] for one fixed pattern of [diff_parser.py];
    the result is the tuple of groups ([None] for a group that did not
    take part in the match). *)

Module Re.

(** Remainder of [s] after the leftmost occurrence of [p]. *)
Fixpoint after_first (p s : string) : option string :=
  if String.prefix p s then Some (Py.drop (String.length p) s)
  else match s with
       | EmptyString => None
       | String _ s' => after_first p s'
       end.

(** Split of [s] around the rightmost occurrence of [sep] that is followed
    by at least one character. *)
Fixpoint last_sep (sep s : string) : option (string * string) :=
  match s with
  | EmptyString => None
  | String c s' =>
      match last_sep sep s' with
      | Some (x, y) => Some (String c x, y)
      | None =>
          if String.prefix sep s then
            match Py.drop (String.length sep) s with
            | EmptyString => None
            | y => Some (EmptyString, y)
            end
          else None
      end
  end.

(** [re.search(r'diff --git a/(.+) b/(.+)', s)]: the first group is greedy,
    so it extends to the last [" b/"] that still leaves a character for
    the second group. *)
Definition search_git_paths (s : string) : option (string * string) :=
  match after_first "diff --git a/" s with
  | Some (String c r) =>
      match last_sep " b/" r with
      | Some (x, y) => Some (String c x, y)
      | None => None
      end
  | _ => None
  end.

(** [re.search(r'--- a/(.+)', s)] *)
Definition search_old_path (s : string) : option string :=
  match after_first "--- a/" s with
  | Some (String c r) => Some (String c r)
  | _ => None
  end.

(** [re.search(r'\+\+\+ b/(.+)', s)] *)
Definition search_new_path (s : string) : option string :=
  match after_first "+++ b/" s with
  | Some (String c r) => Some (String c r)
  | _ => None
  end.

(** [sign(\d+)(?:,(\d+))?] at the head of [s]: the two groups and the
    remainder. *)
Definition hunk_side (sign : ascii) (s : string)
  : option (string * option string * string) :=
  match s with
  | String c s1 =>
      if Ascii.eqb c sign then
        let '(d1, s2) := Py.span Py.is_digit s1 in
        match d1 with
        | EmptyString => None
        | _ =>
            match s2 with
            | String "," s3 =>
                let '(d2, s4) := Py.span Py.is_digit s3 in
                match d2 with
                | EmptyString => Some (d1, None, s2)
                | _ => Some (d1, Some d2, s4)
                end
            | _ => Some (d1, None, s2)
            end
        end
      else None
  | EmptyString => None
  end.

(** The hunk-header pattern anchored at the head of [s]. *)
Definition match_hunk_at (s : string)
  : option (string * option string * string * option string) :=
  if String.prefix "@@" s then
    let s1 := snd (Py.span Py.is_space (Py.drop 2 s)) in
    match hunk_side "-" s1 with
    | Some (g1, g2, s2) =>
        let '(sp, s3) := Py.span Py.is_space s2 in
        match sp with
        | EmptyString => None
        | _ =>
            match hunk_side "+" s3 with
            | Some (g3, g4, s4) =>
                let s5 := snd (Py.span Py.is_space s4) in
                if String.prefix "@@" s5 then Some (g1, g2, g3, g4) else None
            | None => None
            end
        end
    | None => None
    end
  else None.

(** [re.search(r'@@\s*-(\d+)(?:,(\d+))?\s+\+(\d+)(?:,(\d+))?\s*@@', s)]:
    the leftmost position at which the anchored pattern matches. *)
Fixpoint search_hunk_header (s : string)
  : option (string * option string * string * option string) :=
  match match_hunk_at s with
  | Some g => Some g
  | None =>
      match s with
      | EmptyString => None
      | String _ s' => search_hunk_header s'
      end
  end.

End Re.

(** ** git/diff_parser.py *)

Module DiffParser.

Inductive ChangeType : Type := ADDED | REMOVED | MODIFIED | RENAMED.

#[global] Instance ChangeType_eq_dec : EqDecision ChangeType.
Proof. solve_decision. Defined.

Record DiffLine : Type := mkDiffLine {
  line_number : N;
  old_line_number : option N;
  new_line_number : option N;
  content : string;
  change_type : ChangeType
}.

Record DiffHunk : Type := mkDiffHunk {
  old_start : N;
  old_count : N;
  new_start : N;
  new_count : N;
  lines : list DiffLine;
  context : string
}.

Record FileDiff : Type := mkFileDiff {
  old_path : string;
  new_path : string;
  fd_change_type : ChangeType;
  hunks : list DiffHunk;
  added_lines : N;
  removed_lines : N;
  is_binary : bool
}.

Record GitDiffResult : Type := mkGitDiffResult {
  files : list FileDiff;
  total_added : N;
  total_removed : N
}.

Definition is_empty (s : string) : bool :=
  match s with EmptyString => true | _ => false end.

(** The [while i < len(lines)] loop of [_parse_hunk]. *)
Fixpoint hunk_body_loop (fuel : nat) (lns : list string) (i : nat)
    (old_line new_line : N) (hunk_lines : list DiffLine)
  : result (list DiffLine * nat) :=
  match fuel with
  | O => Raise Timeout
  | S fuel' =>
      if (i <? length lns)%nat then
        line ← Py.getitem lns i;
        if Py.startswith line "@@" || Py.startswith line "diff --git" then
          Ok (hunk_lines, i)
        else if is_empty line then
          hunk_body_loop fuel' lns (i + 1) old_line new_line hunk_lines
        else
          change_indicator ←
            (if is_empty line then Ok " "%char else Py.first_char line);
          let content :=
            if (1 <? Py.len line)%nat then Py.tail line else "" in
          if Ascii.eqb change_indicator "+" then
            let diff_line := mkDiffLine new_line None (Some new_line)
                                        content ADDED in
            hunk_body_loop fuel' lns (i + 1) old_line (new_line + 1)%N
                           (hunk_lines ++ [diff_line])
          else if Ascii.eqb change_indicator "-" then
            let diff_line := mkDiffLine old_line (Some old_line) None
                                        content REMOVED in
            hunk_body_loop fuel' lns (i + 1) (old_line + 1)%N new_line
                           (hunk_lines ++ [diff_line])
          else
            let diff_line := mkDiffLine new_line (Some old_line)
                                        (Some new_line) content MODIFIED in
            hunk_body_loop fuel' lns (i + 1) (old_line + 1)%N
                           (new_line + 1)%N (hunk_lines ++ [diff_line])
      else Ok (hunk_lines, i)
  end.

(** [int(m.group(k)) if m.group(k) else 1] *)
Definition count_or_one (g : option string) : result N :=
  match g with
  | Some d => if is_empty d then Ok 1%N else Py.int d
  | None => Ok 1%N
  end.

Definition _parse_hunk (lns : list string) (start_idx : nat)
  : result (option DiffHunk * nat) :=
  let i := start_idx in
  if (length lns <=? i)%nat then Ok (None, i) else
  first ← Py.getitem lns i;
  if negb (Py.startswith first "@@") then Ok (None, i) else
  hunk_header ← Py.getitem lns i;
  match Re.search_hunk_header hunk_header with
  | None => Ok (None, i + 1)
  | Some (g1, g2, g3, g4) =>
      old_start ← Py.int g1;
      old_count ← count_or_one g2;
      new_start ← Py.int g3;
      new_count ← count_or_one g4;
      '(hunk_lines, i') ←
        hunk_body_loop (S (length lns)) lns (i + 1) old_start new_start [];
      Ok (Some (mkDiffHunk old_start old_count new_start new_count
                           hunk_lines hunk_header), i')
  end.

(** Local state of [_parse_file_diff] while it reads the file header. *)
Record header_state : Type := mkHeaderState {
  hs_old_path : option string;
  hs_new_path : option string;
  hs_change_type : ChangeType;
  hs_is_binary : bool
}.

(** Body of the "additional file info" loop: the [if]/[elif] chain. *)
Definition header_step (line : string) (st : header_state) : header_state :=
  let '(mkHeaderState old_path new_path change_type is_binary) := st in
  if Py.startswith line "new file mode" then
    mkHeaderState old_path new_path ADDED is_binary
  else if Py.startswith line "deleted file mode" then
    mkHeaderState old_path new_path REMOVED is_binary
  else if Py.startswith line "rename from" then
    mkHeaderState old_path new_path RENAMED is_binary
  else if Py.startswith line "--- " then
    match Re.search_old_path line with
    | Some g => mkHeaderState (Some g) new_path change_type is_binary
    | None =>
        if String.eqb line "--- /dev/null" then
          mkHeaderState old_path new_path ADDED is_binary
        else st
    end
  else if Py.startswith line "+++ " then
    match Re.search_new_path line with
    | Some g => mkHeaderState old_path (Some g) change_type is_binary
    | None =>
        if String.eqb line "+++ /dev/null" then
          mkHeaderState old_path new_path REMOVED is_binary
        else st
    end
  else if Py.contains line "Binary files" then
    mkHeaderState old_path new_path change_type true
  else st.

Fixpoint header_loop (fuel : nat) (lns : list string) (i : nat)
    (st : header_state) : result (header_state * nat) :=
  match fuel with
  | O => Raise Timeout
  | S fuel' =>
      if (i <? length lns)%nat then
        line ← Py.getitem lns i;
        if negb (Py.startswith line "@@")
           && negb (Py.startswith line "diff --git") then
          header_loop fuel' lns (i + 1) (header_step line st)
        else Ok (st, i)
      else Ok (st, i)
  end.

(** The [while ... lines[i].startswith('@@')] loop of [_parse_file_diff]. *)
Fixpoint hunks_loop (fuel : nat) (lns : list string) (i : nat)
    (hunks : list DiffHunk) : result (list DiffHunk * nat) :=
  match fuel with
  | O => Raise Timeout
  | S fuel' =>
      if (i <? length lns)%nat then
        line ← Py.getitem lns i;
        if Py.startswith line "@@" then
          '(hunk, next_i) ← _parse_hunk lns i;
          let hunks' := match hunk with
                        | Some h => hunks ++ [h]
                        | None => hunks
                        end in
          hunks_loop fuel' lns next_i hunks'
        else Ok (hunks, i)
      else Ok (hunks, i)
  end.

(** [not p] for an [Optional[str]]. *)
Definition falsy_path (p : option string) : bool :=
  match p with
  | None => true
  | Some s => is_empty s
  end.

Definition count_lines (k : ChangeType) (hs : list DiffHunk) : N :=
  Py.sum (map (fun hunk =>
                 N.of_nat (length (filter (fun line => change_type line = k)
                                          (lines hunk)))) hs).

(** The file-header part of [_parse_file_diff]: the [diff --git] line. *)
Definition git_header (lns : list string) (i : nat)
  : result (header_state * nat) :=
  let st0 := mkHeaderState None None MODIFIED false in
  if (i <? length lns)%nat then
    diff_line ← Py.getitem lns i;
    if Py.startswith diff_line "diff --git" then
      match Re.search_git_paths diff_line with
      | Some (a, b) => Ok (mkHeaderState (Some a) (Some b) MODIFIED false, i + 1)
      | None => Ok (st0, i + 1)
      end
    else Ok (st0, i)
  else Ok (st0, i).

Definition finish_file_diff (st : header_state) (hunks : list DiffHunk)
  : option FileDiff :=
  if falsy_path (hs_old_path st) || falsy_path (hs_new_path st) then None
  else
    Some (mkFileDiff (default "" (hs_old_path st))
                     (default "" (hs_new_path st))
                     (hs_change_type st)
                     hunks
                     (count_lines ADDED hunks)
                     (count_lines REMOVED hunks)
                     (hs_is_binary st)).

Definition _parse_file_diff (lns : list string) (start_idx : nat)
  : result (option FileDiff * nat) :=
  '(st0, i) ← git_header lns start_idx;
  '(st, i) ← header_loop (S (length lns)) lns i st0;
  '(hunks, i) ← hunks_loop (S (length lns)) lns i [];
  Ok (finish_file_diff st hunks, i).

(** The main loop of [parse_diff]. *)
Fixpoint files_loop (fuel : nat) (lns : list string) (i : nat)
    (files : list FileDiff) : result (list FileDiff) :=
  match fuel with
  | O => Raise Timeout
  | S fuel' =>
      if (i <? length lns)%nat then
        line ← Py.getitem lns i;
        if Py.startswith line "diff --git" then
          '(file_diff, next_i) ← _parse_file_diff lns i;
          let files' := match file_diff with
                        | Some f => files ++ [f]
                        | None => files
                        end in
          files_loop fuel' lns next_i files'
        else files_loop fuel' lns (i + 1) files
      else Ok files
  end.

Definition parse_diff (diff_text : string) : result GitDiffResult :=
  let lns := Py.split_newline diff_text in
  files ← files_loop (S (length lns)) lns 0 [];
  Ok (mkGitDiffResult files
                      (Py.sum (map added_lines files))
                      (Py.sum (map removed_lines files))).

(** Truth value of an [Optional[int]]: [None] and [0] are false. *)
Definition truthy (n : option N) : bool :=
  match n with
  | Some k => negb (k =? 0)%N
  | None => false
  end.

Record ChangedLines : Type := mkChangedLines {
  added : gset N;
  removed : gset N
}.

(** Body of the inner [for line in hunk.lines] loop. *)
Definition changed_step (acc : ChangedLines) (line : DiffLine) : ChangedLines :=
  if bool_decide (change_type line = ADDED) && truthy (new_line_number line) then
    mkChangedLines ({[default 0%N (new_line_number line)]} ∪ added acc)
                   (removed acc)
  else if bool_decide (change_type line = REMOVED)
          && truthy (old_line_number line) then
    mkChangedLines (added acc)
                   ({[default 0%N (old_line_number line)]} ∪ removed acc)
  else acc.

Definition get_changed_lines_for_file (file_diff : FileDiff) : ChangedLines :=
  foldl (fun acc hunk => foldl changed_step acc (lines hunk))
        (mkChangedLines ∅ ∅) (hunks file_diff).

(** The specification's account of a hunk body: every line is classified
    by its first character and numbered from the running counters. *)
Definition indicator (line : string) : ascii :=
  match line with
  | String c _ => c
  | EmptyString => " "%char
  end.

Fixpoint classify (old_line new_line : N) (body : list string)
  : list DiffLine :=
  match body with
  | [] => []
  | line :: body' =>
      if Ascii.eqb (indicator line) "+" then
        mkDiffLine new_line None (Some new_line) (Py.tail line) ADDED
        :: classify old_line (new_line + 1)%N body'
      else if Ascii.eqb (indicator line) "-" then
        mkDiffLine old_line (Some old_line) None (Py.tail line) REMOVED
        :: classify (old_line + 1)%N new_line body'
      else
        mkDiffLine new_line (Some old_line) (Some new_line) (Py.tail line)
                   MODIFIED
        :: classify (old_line + 1)%N (new_line + 1)%N body'
  end.

(** A line that ends the body of a hunk. *)
Definition is_terminator (line : string) : bool :=
  Py.startswith line "@@" || Py.startswith line "diff --git".



(** The four numbers of a hunk header, counts defaulting to 1. *)
Definition header_numbers (header : string) : option (N * N * N * N) :=
  match Re.search_hunk_header header with
  | Some (g1, g2, g3, g4) =>
      match Py.int g1, count_or_one g2, Py.int g3, count_or_one g4 with
      | Ok a, Ok b, Ok c, Ok d => Some (a, b, c, d)
      | _, _, _, _ => None
      end
  | None => None
  end.










(** The specification's account of the changed lines of a file. *)
Definition all_lines (file_diff : FileDiff) : list DiffLine :=
  concat (map lines (hunks file_diff)).

Definition spec_added (file_diff : FileDiff) (n : N) : Prop :=
  exists l, l ∈ all_lines file_diff
            /\ change_type l = ADDED /\ new_line_number l = Some n.

Definition spec_removed (file_diff : FileDiff) (n : N) : Prop :=
  exists l, l ∈ all_lines file_diff
            /\ change_type l = REMOVED /\ old_line_number l = Some n.

Definition nl : string := String "010" "".

(** [text.join(lines)] with a newline after every line *)
Definition unlines (ls : list string) : string :=
  foldr (fun l acc => String.append l (String.append nl acc)) "" ls.

(** A diff whose hunk header starts the new side at line 0. *)
Definition zero_diff_text : string :=
  unlines ["diff --git a/f.py b/f.py"; "@@ -0,0 +0,1 @@"; "+x = 1"].

(** A section without [a/] and [b/] paths, followed by a proper one. *)
Definition unresolved_then_good_text : string :=
  unlines ["diff --git old.txt new.txt"; "@@ -1 +1 @@"; "-a"; "+b";
           "diff --git a/g.py b/g.py"; "@@ broken header"; "@@ -3,0 +4 @@";
           "+y = 2"].


Definition zero_file_diff : FileDiff :=
  mkFileDiff "f.py" "f.py" MODIFIED
    [mkDiffHunk 0 0 0 1 [mkDiffLine 0 None (Some 0%N) "x = 1" ADDED]
                "@@ -0,0 +0,1 @@"]
    1 0 false.

(** [get_modified_files] *)
Definition get_modified_files (diff_result : GitDiffResult) : list string :=
  map new_path (filter (fun f => is_binary f = false) (files diff_result)).

(** [sorted(s)] for a set of line numbers *)
Definition sorted (s : gset N) : list N := merge_sort N.le (elements s).

(** The [for line_num in sorted(changed_lines)] loop of
    [filter_lines_by_changes]. *)
Fixpoint filter_lines_loop (lns : list string) (nums : list N)
    (filtered_lines : list (N * string)) : result (list (N * string)) :=
  match nums with
  | [] => Ok filtered_lines
  | line_num :: nums' =>
      if ((1 <=? line_num) && (line_num <=? N.of_nat (length lns)))%N then
        line ← Py.getitem lns (N.to_nat (line_num - 1));
        filter_lines_loop lns nums' (filtered_lines ++ [(line_num, line)])
      else filter_lines_loop lns nums' filtered_lines
  end.

(** [filter_lines_by_changes] *)
Definition filter_lines_by_changes (file_content : string)
    (changed_lines : gset N) : result (list (N * string)) :=
  let lns := Py.split_newline file_content in
  filter_lines_loop lns (sorted changed_lines) [].

(** The test [1 <= line_num <= len(lines)]. *)
Definition in_range (lns : list string) (n : N) : bool :=
  ((1 <=? n) && (n <=? N.of_nat (length lns)))%N.

(** The stretch of text a hunk body occupies: the lines up to the first
    terminator. *)
Fixpoint hunk_body (rest : list string) : list string :=
  match rest with
  | [] => []
  | line :: rest' =>
      if is_terminator line then [] else line :: hunk_body rest'
  end.

(** The numbering discipline of a [DiffLine]. *)
Definition line_invariant (l : DiffLine) : Prop :=
  match change_type l with
  | ADDED =>
      new_line_number l = Some (line_number l) /\ old_line_number l = None
  | REMOVED =>
      old_line_number l = Some (line_number l) /\ new_line_number l = None
  | MODIFIED =>
      new_line_number l = Some (line_number l)
      /\ is_Some (old_line_number l)
  | RENAMED => False
  end.

(** A hunk whose lines were read off some stretch of text. *)
Definition from_text (h : DiffHunk) : Prop :=
  exists body, lines h = classify (old_start h) (new_start h) body.

(** [k] consecutive numbers from [start]. *)
Definition consecutive (start : N) (k : nat) : list N :=
  map (fun j => (start + N.of_nat j)%N) (seq 0 k).

(** Number of lines of kind [k] in one hunk. *)
Definition count_kind (k : ChangeType) (hunk : DiffHunk) : nat :=
  length (filter (fun line => change_type line = k) (lines hunk)).

(** The lines from index [i] on that start with [prefix]. *)
Definition starting (prefix : string) (lns : list string) (i : nat) : nat :=
  length (filter (fun l => Py.startswith l prefix = true) (drop i lns)).

(** The number of hunks of a list of files. *)
Definition hunk_total (fs : list FileDiff) : nat :=
  length (flat_map hunks fs).

(** The outcome of a step that can fail only the way [int()] does: a
    result that satisfies [P], or [ValueError]. *)
Definition or_value_error {A} (m : result A) (P : A -> Prop) : Prop :=
  match m with
  | Ok a => P a
  | Raise e => e = ValueError
  end.

(** A diff whose hunk header carries a number of 4301 digits. *)
Definition long_number : string := Py.join (repeat "1" 4301).

Definition long_number_text : string :=
  unlines ["diff --git a/f.py b/f.py";
           String.append "@@ -1 +" (String.append long_number " @@");
           "+x = 1"].


End DiffParser.

(** ** git/focused_review.py *)

Module FocusedReview.
Import DiffParser.

(** An entry of [analysis_result.issues]: a dictionary read through
    [.get]; a field is [None] when the key is absent. *)
Record Issue : Type := mkIssue {
  i_line : option N;
  i_type : option string;
  i_severity : option string;
  i_message : option string;
  i_suggestion : option string;
  i_explanation : option string
}.

(** An entry of [analysis_result.suggestions]; [s_file] and
    [s_change_context] are the keys written by the focused review. *)
Record Suggestion : Type := mkSuggestion {
  s_line : option N;
  s_type : option string;
  s_message : option string;
  s_file : option string;
  s_change_context : option string
}.

Record AnalysisResult : Type := mkAnalysisResult {
  issues : list Issue;
  suggestions : list Suggestion
}.

Record FocusedIssue : Type := mkFocusedIssue {
  file_path : string;
  fi_line_number : N;
  fi_old_line_number : option N;
  fi_change_type : ChangeType;
  issue_type : string;
  severity : string;
  message : string;
  suggestion : string;
  explanation : option string;
  code_snippet : string
}.

Record DiffSummary : Type := mkDiffSummary {
  total_files : nat;
  modified_files : nat;
  binary_files : nat;
  ds_total_added : N;
  ds_total_removed : N;
  net_change : Z
}.

Record FocusedReviewResult : Type := mkFocusedReviewResult {
  diff_summary : DiffSummary;
  r_issues : list FocusedIssue;
  r_suggestions : list Suggestion;
  files_reviewed : nat;
  lines_reviewed : N;
  commit_message_suggestions : list string
}.

(** [_find_line_context] *)
Definition _find_line_context (file_diff : FileDiff) (line_number : N)
  : ChangeType * option N :=
  match
    list_find (fun diff_line => new_line_number diff_line = Some line_number)
              (concat (map lines (hunks file_diff)))
  with
  | Some (_, diff_line) => (change_type diff_line, old_line_number diff_line)
  | None => (MODIFIED, None)
  end.

Section Analyzer.

(** [_get_file_content(path, repo_path)] for the repository at hand: [None]
    when the file does not exist or cannot be read. *)
Variable get_file_content : string -> option string.
(** [core_analyzer.analyze_file(Path(path))]; [Raise] stands for any
    exception it lets escape. *)
Variable analyze_file : string -> result AnalysisResult.
(** [_get_code_snippet(content, line)] *)
Variable get_code_snippet : string -> N -> string.
(** [_generate_commit_message_suggestions(diff_result)] *)
Variable generate_commit_message_suggestions : GitDiffResult -> list string.

(** Body of the [for issue in analysis_result.issues] loop. *)
Definition focus_issue (file_diff : FileDiff) (file_content : string)
    (added_lines : gset N) (issue : Issue) : list FocusedIssue :=
  let issue_line := default 0%N (i_line issue) in
  if bool_decide (issue_line ∈ added_lines) then
    let '(change_type, old_line) := _find_line_context file_diff issue_line in
    [mkFocusedIssue (new_path file_diff)
                    issue_line
                    old_line
                    change_type
                    (default "unknown" (i_type issue))
                    (default "info" (i_severity issue))
                    (default "" (i_message issue))
                    (default "" (i_suggestion issue))
                    (i_explanation issue)
                    (get_code_snippet file_content issue_line)]
  else [].

(** Body of the [for suggestion in analysis_result.suggestions] loop. *)
Definition focus_suggestion (file_diff : FileDiff) (added_lines : gset N)
    (sg : Suggestion) : list Suggestion :=
  let suggestion_line := default 0%N (s_line sg) in
  if bool_decide (suggestion_line ∈ added_lines) then
    [mkSuggestion (s_line sg) (s_type sg) (s_message sg)
                  (Some (new_path file_diff)) (Some "newly_added")]
  else [].

Definition _analyze_file_changes (file_diff : FileDiff)
  : list FocusedIssue * list Suggestion * N :=
  if bool_decide (fd_change_type file_diff = REMOVED) then ([], [], 0%N)
  else
    match get_file_content (new_path file_diff) with
    | None => ([], [], 0%N)
    | Some file_content =>
        if is_empty file_content then ([], [], 0%N)
        else
          let changed_lines := get_changed_lines_for_file file_diff in
          let added_lines := added changed_lines in
          if bool_decide (added_lines = ∅) then ([], [], 0%N)
          else
            match analyze_file (new_path file_diff) with
            | Ok analysis_result =>
                (flat_map (focus_issue file_diff file_content added_lines)
                          (issues analysis_result),
                 flat_map (focus_suggestion file_diff added_lines)
                          (suggestions analysis_result),
                 N.of_nat (size added_lines))
            | Raise _ => ([], [], 0%N)
            end
    end.

(** Accumulators of the [for file_diff in diff_result.files] loop. *)
Definition review_step
    (acc : list FocusedIssue * list Suggestion * N) (file_diff : FileDiff)
  : list FocusedIssue * list Suggestion * N :=
  let '(all_issues, all_suggestions, total_lines_reviewed) := acc in
  if is_binary file_diff then acc
  else
    let '(file_issues, file_suggestions, lines_count) :=
      _analyze_file_changes file_diff in
    (all_issues ++ file_issues,
     all_suggestions ++ file_suggestions,
     (total_lines_reviewed + lines_count)%N).

Definition analyze_diff (diff_text : string) : result FocusedReviewResult :=
  diff_result ← parse_diff diff_text;
  let '(all_issues, all_suggestions, total_lines_reviewed) :=
    foldl review_step ([], [], 0%N) (files diff_result) in
  let commit_suggestions := generate_commit_message_suggestions diff_result in
  let non_binary :=
    length (filter (fun f => is_binary f = false) (files diff_result)) in
  let diff_summary :=
    mkDiffSummary (length (files diff_result))
                  non_binary
                  (length (filter (fun f => is_binary f = true)
                                  (files diff_result)))
                  (total_added diff_result)
                  (total_removed diff_result)
                  (Z.of_N (total_added diff_result)
                   - Z.of_N (total_removed diff_result))%Z in
  Ok (mkFocusedReviewResult diff_summary all_issues all_suggestions
                            non_binary total_lines_reviewed
                            commit_suggestions).

(** The reading of the counters in the specification: a file is reviewed
    when it is not binary, not removed, and has added lines. *)
Definition spec_reviewed (f : FileDiff) : bool :=
  negb (is_binary f)
  && negb (bool_decide (fd_change_type f = REMOVED))
  && negb (bool_decide (added (get_changed_lines_for_file f) = ∅)).

Definition spec_files_reviewed (fs : list FileDiff) : nat :=
  length (filter (fun f => spec_reviewed f = true) fs).

Definition spec_lines_reviewed (fs : list FileDiff) : N :=
  Py.sum (map (fun f => N.of_nat (size (added (get_changed_lines_for_file f))))
              (filter (fun f => spec_reviewed f = true) fs)).

(** A file whose analysis ran to the end: what [_analyze_file_changes]
    requires before it counts the file's lines. *)
Definition analysed (f : FileDiff) : bool :=
  negb (is_binary f)
  && negb (bool_decide (fd_change_type f = REMOVED))
  && match get_file_content (new_path f) with
     | Some c => negb (is_empty c)
     | None => false
     end
  && match analyze_file (new_path f) with
     | Ok _ => true
     | Raise _ => false
     end.

(** What one file adds to the three accumulators of [analyze_diff]. *)
Definition file_issues (f : FileDiff) : list FocusedIssue :=
  if is_binary f then [] else (_analyze_file_changes f).1.1.
Definition file_suggestions (f : FileDiff) : list Suggestion :=
  if is_binary f then [] else (_analyze_file_changes f).1.2.
Definition file_lines (f : FileDiff) : N :=
  if is_binary f then 0%N else (_analyze_file_changes f).2.

(** The [FocusedIssue] built for an issue that passes the filter. *)
Definition to_focused (file_diff : FileDiff) (file_content : string)
    (issue : Issue) : FocusedIssue :=
  let issue_line := default 0%N (i_line issue) in
  mkFocusedIssue (new_path file_diff)
                 issue_line
                 (snd (_find_line_context file_diff issue_line))
                 (fst (_find_line_context file_diff issue_line))
                 (default "unknown" (i_type issue))
                 (default "info" (i_severity issue))
                 (default "" (i_message issue))
                 (default "" (i_suggestion issue))
                 (i_explanation issue)
                 (get_code_snippet file_content issue_line).

(** The lines a finding may sit on to pass the focus filter. *)
Definition on_added_line (file_diff : FileDiff) (issue : Issue) : Prop :=
  default 0%N (i_line issue) ∈ added (get_changed_lines_for_file file_diff).

End Analyzer.

#[global] Instance on_added_line_dec file_diff issue :
  Decision (on_added_line file_diff issue).
Proof. unfold on_added_line. apply _. Defined.

(** A diff that adds lines 10 to 12 of [app.py] and deletes [old.py]. *)
Definition sample_diff_text : string :=
  unlines ["diff --git a/app.py b/app.py";
           "--- a/app.py";
           "+++ b/app.py";
           "@@ -9,1 +9,4 @@";
           " def f():";
           "+    a = 1";
           "+    b = 2";
           "+    return a + b";
           "diff --git a/old.py b/old.py";
           "deleted file mode 100644";
           "--- a/old.py";
           "+++ /dev/null";
           "@@ -1,2 +0,0 @@";
           "-x = 1";
           "-y = 2"].

Definition issue_at (line : N) (kind : string) : Issue :=
  mkIssue (Some line) (Some kind) (Some "warning") (Some "m") None None.

(** A repository in which [app.py] exists and its analysis reports one
    finding on line 11 and one on line 5. *)
Definition sample_content (path : string) : option string :=
  if String.eqb path "app.py" then Some "text of app.py" else None.

Definition sample_analysis (path : string) : result AnalysisResult :=
  Ok (mkAnalysisResult [issue_at 11 "unused_variable"; issue_at 5 "long_line"]
                       []).

Definition no_snippet (file_content : string) (line : N) : string := "".
Definition no_commit_suggestions (r : GitDiffResult) : list string := [].

(** A repository whose files cannot be read. *)
Definition unreadable (path : string) : option string := None.

End FocusedReview.

(** ** analyzers/checkers/complexity_checker.py *)

Module Complexity.

(** The classes of [ast] nodes the checker tells apart; every other class
    is [Other] with its name. *)
Inductive node_class : Type :=
| If | While | For | AsyncFor | ExceptHandler | With | AsyncWith | Assert
| BoolOp | Compare | Try | FunctionDef | AsyncFunctionDef
| Other (class_name : string).

#[global] Instance node_class_eq_dec : EqDecision node_class.
Proof. solve_decision. Defined.

(** An [ast.AST] node.  [children] lists the child nodes in the order of
    [ast.iter_child_nodes], each with the name of the field that holds it
    (the items of a list field share the field's name).  [name] is read on
    function definitions only, [lineno] (1-based) and [end_lineno] likewise. *)
#[warnings="-register-all"]
Inductive node : Type :=
| Node (cls : node_class) (name : string) (lineno : N) (end_lineno : option N)
       (children : list (string * node)).

Definition cls (n : node) : node_class := let '(Node c _ _ _ _) := n in c.
Definition name (n : node) : string := let '(Node _ s _ _ _) := n in s.
Definition lineno (n : node) : N := let '(Node _ _ l _ _) := n in l.
Definition end_lineno (n : node) : option N := let '(Node _ _ _ e _) := n in e.
Definition children (n : node) : list (string * node) :=
  let '(Node _ _ _ _ cs) := n in cs.

(** [node.<field>] for a list field *)
Definition field (n : node) (f : string) : list node :=
  map snd (filter (fun c => fst c = f) (children n)).

(** [ast.iter_child_nodes] *)
Definition iter_child_nodes (n : node) : list node := map snd (children n).

Fixpoint size (n : node) : nat :=
  let '(Node _ _ _ _ cs) := n in
  S ((fix sizes (cs : list (string * node)) : nat :=
        match cs with
        | [] => O
        | (_, c) :: cs' => (size c + sizes cs')%nat
        end) cs).

Definition total_size (todo : list node) : nat :=
  foldr (fun n acc => (size n + acc)%nat) O todo.

(** [ast.walk]: breadth-first, with a queue of nodes still to yield. *)
Fixpoint walk_queue (fuel : nat) (todo : list node) : list node :=
  match fuel with
  | O => []
  | S fuel' =>
      match todo with
      | [] => []
      | n :: todo' => n :: walk_queue fuel' (todo' ++ iter_child_nodes n)
      end
  end.

Definition walk (n : node) : list node := walk_queue (size n) [n].

(** Body of the loop of [_calculate_cyclomatic_complexity]. *)
Definition cyclomatic_step (complexity : Z) (n : node) : Z :=
  match cls n with
  | If | While | For | AsyncFor => complexity + 1
  | ExceptHandler => complexity + 1
  | With => complexity + 1
  | Assert => complexity + 1
  | BoolOp => complexity + (Z.of_nat (length (field n "values")) - 1)
  | Compare => complexity + Z.of_nat (length (field n "ops"))
  | _ => complexity
  end%Z.

Definition _calculate_cyclomatic_complexity (func_node : node) : Z :=
  foldl cyclomatic_step 1%Z (walk func_node).

(** [visit_node] of [_calculate_cognitive_complexity]; the result is the
    amount added to [complexity] by the visit. *)
Fixpoint cognitive_visit (n : node) (level : Z) : Z :=
  let '(Node c _ _ _ cs) := n in
  let '(inc, level') :=
    match c with
    | If | While | For | AsyncFor => (1 + level, level + 1)
    | ExceptHandler => (1 + level, level + 1)
    | BoolOp | Compare => (1, level)
    | _ => (0, level)
    end%Z in
  (inc + (fix visit_all (cs : list (string * node)) : Z :=
            match cs with
            | [] => 0%Z
            | (_, child) :: cs' => (cognitive_visit child level' + visit_all cs')%Z
            end) cs)%Z.

Definition _calculate_cognitive_complexity (func_node : node) : Z :=
  cognitive_visit func_node 0.

(** [visit_node] of [_calculate_nesting_depth]; the result is the largest
    depth recorded during the visit. *)
Fixpoint nesting_visit (n : node) (depth : Z) : Z :=
  let '(Node c _ _ _ cs) := n in
  let '(seen, depth') :=
    match c with
    | If | While | For | AsyncFor | With | Try => (depth + 1, depth + 1)
    | _ => (0, depth)
    end%Z in
  Z.max seen
        ((fix visit_all (cs : list (string * node)) : Z :=
            match cs with
            | [] => 0%Z
            | (_, child) :: cs' =>
                Z.max (nesting_visit child depth') (visit_all cs')
            end) cs).

Definition _calculate_nesting_depth (func_node : node) : Z :=
  nesting_visit func_node 0.

(** [line.strip()] is non-empty and does not start with ['#']. *)
Definition is_code_line (line : string) : bool :=
  match snd (Py.span_list Py.is_space (Py.chars line)) with
  | [] => false
  | ch :: _ => negb (String.eqb ch "#")
  end.

Definition _calculate_function_length (func_node : node) (lns : list string)
  : Z :=
  let start := N.to_nat (lineno func_node - 1) in
  let stop := match end_lineno func_node with
              | Some e => N.to_nat e
              | None => length lns
              end in
  Z.of_nat (length (filter (fun i => is_code_line (nth i lns "") = true)
                           (seq start (Nat.min stop (length lns) - start)))).

Record Metrics : Type := mkMetrics {
  line_start : N;
  line_end : N;
  m_length : Z;
  cyclomatic_complexity : Z;
  cognitive_complexity : Z;
  max_nesting_depth : Z;
  parameter_count : Z
}.

Definition _analyze_function (func_node : node) (content : string) : Metrics :=
  let lns := Py.split_newline content in
  mkMetrics (lineno func_node)
            (default (lineno func_node) (end_lineno func_node))
            (_calculate_function_length func_node lns)
            (_calculate_cyclomatic_complexity func_node)
            (_calculate_cognitive_complexity func_node)
            (_calculate_nesting_depth func_node)
            (Z.of_nat (length (flat_map (fun a => field a "args")
                                        (take 1 (field func_node "args"))))).

Definition is_function (n : node) : bool :=
  match cls n with
  | FunctionDef | AsyncFunctionDef => true
  | _ => false
  end.

(** [PythonComplexityAnalyzer.analyze] *)
Definition analyze (content : string) (ast_tree : node)
  : list (string * Metrics) :=
  foldl (fun function_metrics n =>
           if is_function n then
             Py.dict_set function_metrics (name n) (_analyze_function n content)
           else function_metrics)
        [] (walk ast_tree).

Record Finding : Type := mkFinding {
  f_type : string;
  f_severity : string;
  f_message : string;
  f_line : N;
  f_suggestion : string
}.

(** [str(n)] *)
Definition str (z : Z) : string := NilZero.string_of_int (Z.to_int z).

(** The thresholds read by [ComplexityChecker.__init__] from
    [config.get('complexity', {})]. *)
Definition threshold (config : gmap string Z) (key : string) (dflt : Z) : Z :=
  default dflt (config !! key).

Definition max_cyclomatic_complexity cfg := threshold cfg "max_cyclomatic" 10.
Definition max_cognitive_complexity cfg := threshold cfg "max_cognitive" 15.
Definition max_function_length cfg := threshold cfg "max_function_lines" 50.
Definition max_nesting_depth_limit cfg := threshold cfg "max_nesting_depth" 4.
Definition max_parameters cfg := threshold cfg "max_parameters" 7.

Definition when (b : bool) (f : Finding) : list Finding :=
  if b then [f] else [].

Definition quoted (func_name : string) : string :=
  String.append "Function '" (String.append func_name "'").

(** The issues appended for one entry of [function_metrics]. *)
Definition function_issues (cfg : gmap string Z) (func_name : string)
    (m : Metrics) : list Finding :=
  when (max_cyclomatic_complexity cfg <? cyclomatic_complexity m)%Z
       (mkFinding "high_cyclomatic_complexity" "warning"
          (String.append (quoted func_name)
             (String.append " has high cyclomatic complexity ("
                (String.append (str (cyclomatic_complexity m)) ")")))
          (line_start m)
          "Consider breaking this function into smaller functions")
  ++ when (max_cognitive_complexity cfg <? cognitive_complexity m)%Z
       (mkFinding "high_cognitive_complexity" "warning"
          (String.append (quoted func_name)
             (String.append " has high cognitive complexity ("
                (String.append (str (cognitive_complexity m)) ")")))
          (line_start m)
          "Consider simplifying the logic or breaking into smaller functions")
  ++ when (max_function_length cfg <? m_length m)%Z
       (mkFinding "long_function" "info"
          (String.append (quoted func_name)
             (String.append " is very long ("
                (String.append (str (m_length m)) " lines)")))
          (line_start m)
          "Consider breaking this function into smaller, more focused functions")
  ++ when (max_nesting_depth_limit cfg <? max_nesting_depth m)%Z
       (mkFinding "deep_nesting" "warning"
          (String.append (quoted func_name)
             (String.append " has deep nesting (depth: "
                (String.append (str (max_nesting_depth m)) ")")))
          (line_start m)
          "Consider using early returns or extracting nested logic into separate functions")
  ++ when (max_parameters cfg <? parameter_count m)%Z
       (mkFinding "too_many_parameters" "warning"
          (String.append (quoted func_name)
             (String.append " has too many parameters ("
                (String.append (str (parameter_count m)) ")")))
          (line_start m)
          "Consider using a configuration object or breaking the function down").

(** The [issues] of [_check_python_complexity]. *)
Definition _check_python_complexity (cfg : gmap string Z) (content : string)
    (ast_tree : node) : list Finding :=
  flat_map (fun '(func_name, func_metrics) =>
              function_issues cfg func_name func_metrics)
           (analyze content ast_tree).


Definition sum_Z (l : list Z) : Z := foldr Z.add 0%Z l.



(** Example: [def f(a):] followed by eleven [if a: pass]. *)
Definition leaf (c : string) : node := Node (Other c) "" 0 None [].
Definition if_stmt (line : N) : node :=
  Node If "" line (Some (line + 1)%N)
       [("test", Node (Other "Name") "" line (Some line) [("ctx", leaf "Load")]);
        ("body", Node (Other "Pass") "" (line + 1) (Some (line + 1)%N) [])].

(** The loop of [_calculate_js_nesting_depth]. *)
Fixpoint js_depth_loop (code : string) (depth max_depth : Z) : Z :=
  match code with
  | EmptyString => max_depth
  | String char code' =>
      if Ascii.eqb char "{" then
        js_depth_loop code' (depth + 1) (Z.max max_depth (depth + 1))
      else if Ascii.eqb char "}" then
        js_depth_loop code' (Z.max 0 (depth - 1)) max_depth
      else js_depth_loop code' depth max_depth
  end.

(** [_calculate_js_nesting_depth] *)
Definition _calculate_js_nesting_depth (code : string) : Z :=
  js_depth_loop code 0 0.

(** [s.count(c)] for a character *)
Fixpoint count_char (c : ascii) (s : string) : nat :=
  match s with
  | EmptyString => O
  | String c' s' => (if Ascii.eqb c' c then 1 else 0) + count_char c s'
  end.

(** The nodes of a tree, the node first and then its subtrees in order. *)
Fixpoint nodes (n : node) : list node :=
  let '(Node _ _ _ _ cs) := n in
  n :: (fix nodes_of (cs : list (string * node)) : list node :=
          match cs with
          | [] => []
          | (_, c) :: cs' => nodes c ++ nodes_of cs'
          end) cs.

(** Structural induction on trees. *)
Fixpoint node_induction (P : node -> Prop)
    (step : forall c s l e cs,
        Forall (fun p => P (snd p)) cs -> P (Node c s l e cs))
    (n : node) : P n :=
  let '(Node c s l e cs) := n in
  step c s l e cs
       ((fix all (cs : list (string * node))
           : Forall (fun p => P (snd p)) cs :=
           match cs with
           | [] => @List.Forall_nil _ _
           | (lbl, ch) :: cs' =>
               @List.Forall_cons _ _ (lbl, ch) cs'
                                 (node_induction P step ch) (all cs')
           end) cs).

(** The nodes that add to the cognitive complexity. *)
Definition is_cognitive (n : node) : bool :=
  match cls n with
  | If | While | For | AsyncFor | ExceptHandler | BoolOp | Compare => true
  | _ => false
  end.

(** The nodes that open a nesting level. *)
Definition is_nesting (n : node) : bool :=
  match cls n with
  | If | While | For | AsyncFor | With | Try => true
  | _ => false
  end.

(** The thresholds hold for the metrics of one function. *)
Definition within_thresholds (cfg : gmap string Z) (m : Metrics) : Prop :=
  (cyclomatic_complexity m <= max_cyclomatic_complexity cfg
   /\ cognitive_complexity m <= max_cognitive_complexity cfg
   /\ m_length m <= max_function_length cfg
   /\ max_nesting_depth m <= max_nesting_depth_limit cfg
   /\ parameter_count m <= max_parameters cfg)%Z.

(** Two functions of the same name, the second with a loop. *)
Definition twin (line : N) (body : list (string * node)) : node :=
  Node FunctionDef "f" line (Some (line + 1)%N)
       (("args", Node (Other "arguments") "" 0 None []) :: body).
Definition twins_module : node :=
  Node (Other "Module") "" 0 None
       [("body", twin 1 [("body", Node (Other "Pass") "" 2 (Some 2%N) [])]);
        ("body", twin 3 [("body", Node While "" 4 (Some 4%N)
                                      [("test", leaf "Name");
                                       ("body", leaf "Pass")])])].

(** A function that holds a nested function with a branch. *)
Definition outer_function : node :=
  Node FunctionDef "outer" 1 (Some 4%N)
       [("args", Node (Other "arguments") "" 0 None []);
        ("body", Node FunctionDef "inner" 2 (Some 3%N)
                      [("args", Node (Other "arguments") "" 0 None []);
                       ("body", if_stmt 3)])].

Definition cognitive_step (c : node_class) (level : Z) : Z * Z :=
  match c with
  | If | While | For | AsyncFor => (1 + level, level + 1)
  | ExceptHandler => (1 + level, level + 1)
  | BoolOp | Compare => (1, level)
  | _ => (0, level)
  end%Z.

Definition nesting_step (c : node_class) (depth : Z) : Z * Z :=
  match c with
  | If | While | For | AsyncFor | With | Try => (depth + 1, depth + 1)
  | _ => (0, depth)
  end%Z.

Definition max_Z (l : list Z) : Z := foldr Z.max 0%Z l.

(** The body of the loop of [analyze]. *)
Definition analyze_step (content : string)
    (function_metrics : list (string * Metrics)) (n : node) :=
  if is_function n then
    Py.dict_set function_metrics (name n) (_analyze_function n content)
  else function_metrics.

(** The issue types of [_check_python_complexity] with their severities. *)
Definition issue_kinds : list (string * string) :=
  [("high_cyclomatic_complexity", "warning");
   ("high_cognitive_complexity", "warning");
   ("long_function", "info");
   ("deep_nesting", "warning");
   ("too_many_parameters", "warning")].

End Complexity.


(** ** config/config_parser.py: merging of configuration dictionaries *)

Module ConfigMerge.

(** Values of a parsed YAML or JSON configuration. *)
#[warnings="-register-all"]
Inductive value : Type :=
| VNone
| VBool (b : bool)
| VInt (z : Z)
| VStr (s : string)
| VList (l : list value)
| VDict (d : list (string * value)).

Abbreviation dict := (list (string * value)).

(** The value stored under [key] by one round of the loop of [_deep_merge],
    given [existing = result.get(key)]; for two dictionaries it runs the
    loop of the recursive call. *)
Fixpoint merge_value (existing : option value) (v : value) {struct v} : value :=
  match v with
  | VDict override =>
      match existing with
      | Some (VDict base) =>
          VDict ((fix merge_items (result : dict) (items : dict) {struct items}
                    : dict :=
                    match items with
                    | [] => result
                    | (key, v') :: items' =>
                        merge_items
                          (Py.dict_set result key
                             (merge_value (Py.dict_get result key) v'))
                          items'
                    end) base override)
      | _ => v
      end
  | _ => v
  end.

(** [_deep_merge(base, override)] *)
Definition _deep_merge (base override : dict) : dict :=
  match merge_value (Some (VDict base)) (VDict override) with
  | VDict d => d
  | _ => []
  end.

Section Extends.

Context {Schema : Type}.
(** [config.extends] *)
Variable extends : Schema -> option (list string).
(** [extend_file.exists()], [_parse_file] and [_convert_to_schema] on the
    parent file: [None] when the file is missing or any of them raises. *)
Variable load_extended : string -> option Schema.
Variable _schema_to_dict : Schema -> dict.
Variable _convert_to_schema : dict -> Schema.

Definition _merge_extended_configs (config : Schema) : Schema :=
  match extends config with
  | None | Some [] => config
  | Some paths =>
      foldl (fun merged_config extend_path =>
               match load_extended extend_path with
               | Some extended_config =>
                   let base_dict := _schema_to_dict extended_config in
                   let override_dict := _schema_to_dict merged_config in
                   _convert_to_schema (_deep_merge base_dict override_dict)
               | None => merged_config
               end)
            config paths
  end.

End Extends.

(** [ConfigMerger._merge_lists] of [config/validation.py], on lists of
    strings. *)
Definition _merge_lists (base override : list string) : list string :=
  match base, override with
  | [], _ => override
  | _, [] => base
  | _, _ =>
      fst (foldl (fun '(merged, existing) item =>
                    if bool_decide (item ∈ (existing : gset string)) then
                      (merged, existing)
                    else (merged ++ [item], {[item]} ∪ existing))
                 (base, list_to_set base) override)
  end.

(** The specification's rule for list fields: union with de-duplication. *)
Definition spec_list_union (parent child : list string) : list string :=
  remove_dups (parent ++ child).

(** Path lookup in nested dictionaries. *)
Fixpoint lookup_path (d : dict) (path : list string) : option value :=
  match path with
  | [] => Some (VDict d)
  | [k] => Py.dict_get d k
  | k :: path' =>
      match Py.dict_get d k with
      | Some (VDict d') => lookup_path d' path'
      | _ => None
      end
  end.

(** The configurations of the specification's merge example. *)
Definition example_parent : dict :=
  [("checkers",
    VDict [("security",
            VDict [("enabled", VBool false);
                   ("rules",
                    VDict [("x", VDict [("severity", VStr "warning")])])])])].

Definition example_child : dict :=
  [("checkers", VDict [("security", VDict [("enabled", VBool true)])])].

(** Parent and child that both set a list field. *)
Definition patterns_parent : dict :=
  [("ignore_patterns", VList [VStr "*.pyc"]); ("max_issues_per_run", VInt 50)].

Definition patterns_child : dict :=
  [("ignore_patterns", VList [VStr "build/*"])].

(** Every dictionary of the value has distinct keys, as a Python object
    has. *)
Fixpoint unique_keys (v : value) : Prop :=
  match v with
  | VDict d =>
      NoDup (map fst d)
      /\ (fix all (d : dict) : Prop :=
            match d with
            | [] => True
            | (_, v') :: d' => unique_keys v' /\ all d'
            end) d
  | VList l =>
      (fix all (l : list value) : Prop :=
         match l with
         | [] => True
         | v' :: l' => unique_keys v' /\ all l'
         end) l
  | _ => True
  end.

(** The override says nothing about [path]: it holds dictionaries on the
    way down until a key of the path is missing. *)
Fixpoint silent_on (override : dict) (path : list string) : Prop :=
  match path with
  | [] => False
  | k :: path' =>
      match Py.dict_get override k with
      | None => True
      | Some (VDict d') => silent_on d' path'
      | Some _ => False
      end
  end.

(** Structural induction on configuration values. *)
Fixpoint value_induction (P : value -> Prop)
    (none : P VNone) (bool : forall b, P (VBool b))
    (int : forall z, P (VInt z)) (str : forall s, P (VStr s))
    (lst : forall l, Forall P l -> P (VList l))
    (dct : forall d, Forall (fun p => P (snd p)) d -> P (VDict d))
    (v : value) : P v :=
  match v with
  | VNone => none
  | VBool b => bool b
  | VInt z => int z
  | VStr s => str s
  | VList l =>
      lst l ((fix all (l : list value) : Forall P l :=
                match l with
                | [] => @List.Forall_nil _ _
                | v' :: l' =>
                    @List.Forall_cons _ _ v' l'
                      (value_induction P none bool int str lst dct v') (all l')
                end) l)
  | VDict d =>
      dct d ((fix all (d : dict) : Forall (fun p => P (snd p)) d :=
                match d with
                | [] => @List.Forall_nil _ _
                | (k, v') :: d' =>
                    @List.Forall_cons _ _ (k, v') d'
                      (value_induction P none bool int str lst dct v') (all d')
                end) d)
  end.

(** [ConfigMerger._merge_dicts] of [config/validation.py]: the value stored
    under a key, given [existing = merged.get(key)]. *)
Fixpoint merge_dicts_value (existing : option value) (v : value) {struct v}
  : value :=
  match v with
  | VDict override =>
      match existing with
      | Some (VDict base) =>
          VDict
            match base, override with
            | [], _ => override
            | _, [] => base
            | _, _ =>
                (fix merge_items (merged : dict) (items : dict) {struct items}
                   : dict :=
                   match items with
                   | [] => merged
                   | (key, v') :: items' =>
                       merge_items
                         (Py.dict_set merged key
                            (merge_dicts_value (Py.dict_get merged key) v'))
                         items'
                   end) base override
            end
      | _ => v
      end
  | _ => v
  end.

Definition _merge_dicts (base override : dict) : dict :=
  match merge_dicts_value (Some (VDict base)) (VDict override) with
  | VDict d => d
  | _ => []
  end.

(** The loop body of [_merge_lists]. *)
Definition merge_lists_step
  : list string * gset string -> string -> list string * gset string :=
  fun '(merged, existing) item =>
    if bool_decide (item ∈ (existing : gset string)) then (merged, existing)
    else (merged ++ [item], {[item]} ∪ existing).

End ConfigMerge.

(** ** config/schema.py and config/rule_engine.py *)

Module RuleEngine.

Inductive SeverityLevel : Type := ERROR | WARNING | SUGGESTION | INFO.

Inductive FileTypeConfig : Type :=
| PYTHON | JAVASCRIPT | TYPESCRIPT | JSON | YAML | MARKDOWN.

#[global] Instance SeverityLevel_eq_dec : EqDecision SeverityLevel.
Proof. solve_decision. Defined.
#[global] Instance FileTypeConfig_eq_dec : EqDecision FileTypeConfig.
Proof. solve_decision. Defined.

(** [RuleConfig]; [options] is not read by the functions below. *)
Record RuleConfig : Type := mkRuleConfig {
  enabled : bool;
  severity : SeverityLevel;
  file_types : option (list FileTypeConfig);
  ignore_patterns : list string
}.

Record CheckerConfig : Type := mkCheckerConfig {
  c_enabled : bool;
  rules : gmap string RuleConfig;
  severity_override : option SeverityLevel
}.

(** The fields of [ConfigSchema] read by the rule engine. *)
Record ConfigSchema : Type := mkConfigSchema {
  checkers : gmap string CheckerConfig;
  severity_threshold : SeverityLevel;
  fail_on_severity : SeverityLevel;
  max_issues_per_run : N
}.

Record RuleContext : Type := mkRuleContext {
  file_path : string;
  file_type : option FileTypeConfig;
  ctx_checker_name : string;
  ctx_rule_name : string;
  content : string;
  line_number : option N
}.

Record RuleResult : Type := mkRuleResult {
  rule_name : string;
  checker_name : string;
  r_severity : SeverityLevel;
  message : string;
  r_file_path : string;
  r_line_number : option N
}.

(** The [severity_order] dictionary. *)
Definition severity_order (s : SeverityLevel) : N :=
  match s with
  | INFO => 0
  | SUGGESTION => 1
  | WARNING => 2
  | ERROR => 3
  end%N.

(** [RuleFilter.filter_results_by_severity] *)
Definition filter_results_by_severity (config : ConfigSchema)
    (results : list RuleResult) : list RuleResult :=
  let threshold := severity_order (severity_threshold config) in
  filter (fun result => (threshold <= severity_order (r_severity result))%N)
         results.

(** [RuleFilter.should_fail_build] *)
Definition should_fail_build (config : ConfigSchema)
    (results : list RuleResult) : bool :=
  let fail_threshold := severity_order (fail_on_severity config) in
  existsb (fun result => (fail_threshold <=? severity_order (r_severity result))%N)
          results.

Section Engine.

(** [fnmatch.fnmatch(text, pattern)] *)
Variable fnmatch : string -> string -> bool.
(** [bool(re.search(pattern, text))], false for an invalid pattern *)
Variable regex_search : string -> string -> bool.

(** [RuleFilter._matches_pattern] *)
Definition _matches_pattern (text pattern pattern_type : string) : bool :=
  if String.eqb pattern_type "glob" then fnmatch text pattern
  else if String.eqb pattern_type "regex" then regex_search pattern text
  else if String.eqb pattern_type "path" then Py.contains text pattern
  else false.

(** [RuleEngine.is_checker_enabled] *)
Definition is_checker_enabled (config : ConfigSchema) (checker_name : string)
  : bool :=
  match checkers config !! checker_name with
  | None => true
  | Some checker_config => c_enabled checker_config
  end.

(** [RuleEngine.is_rule_enabled]; [wrong_file_type] is the test
    [rule_config.file_types and context.file_type] followed by
    [context.file_type not in rule_config.file_types]. *)
Definition is_rule_enabled (config : ConfigSchema)
    (checker_name rule_name : string) (context : RuleContext) : bool :=
  if negb (is_checker_enabled config checker_name) then false
  else
    match checkers config !! checker_name with
    | None => true
    | Some checker_config =>
        match rules checker_config !! rule_name with
        | None => true
        | Some rule_config =>
            let wrong_file_type :=
              match file_types rule_config, file_type context with
              | Some (t :: ts), Some ft => negb (bool_decide (ft ∈ t :: ts))
              | _, _ => false
              end in
            if negb (enabled rule_config) then false
            else if wrong_file_type then false
            else if existsb (fun pattern =>
                               _matches_pattern (file_path context) pattern "glob")
                            (ignore_patterns rule_config)
            then false
            else true
        end
    end.

(** [RuleEngine.get_effective_severity] *)
Definition get_effective_severity (config : ConfigSchema)
    (checker_name rule_name : string) (default_severity : SeverityLevel)
  : SeverityLevel :=
  match checkers config !! checker_name with
  | None => default_severity
  | Some checker_config =>
      match severity_override checker_config with
      | Some s => s
      | None =>
          match rules checker_config !! rule_name with
          | Some rule_config => severity rule_config
          | None => default_severity
          end
      end
  end.

End Engine.

(** A matcher for patterns without wildcard characters, on which
    [fnmatch] is string equality; used to run the examples. *)
Definition literal_match (text pattern : string) : bool := String.eqb text pattern.
Definition no_regex (pattern text : string) : bool := false.

(** A configuration with one rule restricted to Python files. *)
Definition python_only_rule : RuleConfig :=
  mkRuleConfig true SUGGESTION (Some [PYTHON]) ["setup.py"].

Definition sample_config : ConfigSchema :=
  mkConfigSchema
    {[ "style" := mkCheckerConfig true
                    {[ "line_too_long" := python_only_rule ]} None ]}
    INFO ERROR 100.

Definition python_context : RuleContext :=
  mkRuleContext "src/app.py" (Some PYTHON) "style" "line_too_long" "" None.

(** A file whose suffix is not in the table of [get_file_type]: the
    context carries no file type. *)
Definition untyped_context : RuleContext :=
  mkRuleContext "notes.txt" None "style" "line_too_long" "" None.

Definition sample_results : list RuleResult :=
  [mkRuleResult "r1" "style" INFO "m1" "a.py" (Some 1%N);
   mkRuleResult "r2" "style" WARNING "m2" "a.py" (Some 2%N);
   mkRuleResult "r3" "security" ERROR "m3" "a.py" None].

Definition with_threshold (t : SeverityLevel) : ConfigSchema :=
  mkConfigSchema ∅ t ERROR 100.

(** The order of the severities in the specification, written out
    without the numbers of the code: info is the lowest level, then
    suggestion, then warning, and error is the highest.
    [at_or_above s t] says that [s] is the level [t] or a higher one. *)
Definition at_or_above (s t : SeverityLevel) : bool :=
  match t, s with
  | INFO, _ => true
  | SUGGESTION, (SUGGESTION | WARNING | ERROR) => true
  | WARNING, (WARNING | ERROR) => true
  | ERROR, ERROR => true
  | _, _ => false
  end.

End RuleEngine.

(** ** git/focused_review.py: snippets and summaries *)

Module FocusedReviewExtra.
Import DiffParser FocusedReview.

(** [sep.join(parts)] *)
Fixpoint join (sep : string) (parts : list string) : string :=
  match parts with
  | [] => ""
  | [p] => p
  | p :: parts' => String.append p (String.append sep (join sep parts'))
  end.

(** [' ' * k] *)
Fixpoint spaces (k : nat) : string :=
  match k with
  | O => ""
  | S k' => String " " (spaces k')
  end.

(** The format [{n:<width>d}]: decimal, right-aligned in [width] columns. *)
Definition format_d (width : nat) (n : Z) : string :=
  let digits := Complexity.str n in
  String.append (spaces (width - String.length digits)) digits.

(** The marker of the line an issue is on: the three characters of the
    source literal in UTF-8, and a space. *)
Definition here_marker : string :=
  String "195" (String "162" (String "226" (String "128" (String "160"
    (String "226" (String "128" (String "153" " "))))))).

Definition plain_marker : string := "  ".

(** One round of the loop of [_get_code_snippet]. *)
Definition snippet_line (lns : list string) (line_number : Z) (i : nat)
  : result string :=
  let marker :=
    if (Z.of_nat i =? line_number - 1)%Z then here_marker else plain_marker in
  line ← Py.getitem lns i;
  Ok (String.append marker
        (String.append (format_d 3 (Z.of_nat i + 1))
           (String.append ": " line))).

(** The text [snippet_line] yields for an index within the file. *)
Definition rendered (lns : list string) (line_number : Z) (i : nat) : string :=
  String.append
    (if (Z.of_nat i =? line_number - 1)%Z then here_marker else plain_marker)
    (String.append (format_d 3 (Z.of_nat i + 1))
       (String.append ": " (nth i lns ""))).

Fixpoint snippet_loop (lns : list string) (line_number : Z) (range : list nat)
    (snippet_lines : list string) : result (list string) :=
  match range with
  | [] => Ok snippet_lines
  | i :: range' =>
      l ← snippet_line lns line_number i;
      snippet_loop lns line_number range' (snippet_lines ++ [l])
  end.

(** The list [snippet_lines] of [_get_code_snippet]. *)
Definition snippet_lines (content : string) (line_number : N) (context : nat)
  : result (list string) :=
  let lns := Py.split_newline content in
  let start := Z.to_nat (Z.max 0 (Z.of_N line_number - Z.of_nat context - 1)) in
  let stop := Z.to_nat (Z.min (Z.of_nat (length lns))
                              (Z.of_N line_number + Z.of_nat context)) in
  snippet_loop lns (Z.of_N line_number) (seq start (stop - start)) [].

(** [_get_code_snippet] *)
Definition _get_code_snippet (content : string) (line_number : N)
    (context : nat) : result string :=
  ls ← snippet_lines content line_number context;
  Ok (join nl ls).

(** The counting loops of [get_review_summary]:
    [counts[k] = counts.get(k, 0) + 1]. *)
Definition count_by {A} (key : A -> string) (l : list A) : gmap string nat :=
  foldl (fun counts x => <[key x := default 0 (counts !! key x) + 1]> counts)
        ∅ l.

Record ReviewSummary : Type := mkReviewSummary {
  rs_files_reviewed : nat;
  rs_lines_reviewed : N;
  total_issues : nat;
  total_suggestions : nat;
  severity_breakdown : gmap string nat;
  issue_type_breakdown : gmap string nat;
  diff_stats : DiffSummary;
  review_focus : string;
  commit_suggestions_count : nat
}.

(** [get_review_summary] *)
Definition get_review_summary (result : FocusedReviewResult) : ReviewSummary :=
  mkReviewSummary
    (files_reviewed result)
    (lines_reviewed result)
    (length (r_issues result))
    (length (r_suggestions result))
    (count_by severity (r_issues result))
    (count_by issue_type (r_issues result))
    (diff_summary result)
    "changed_lines_only"
    (length (commit_message_suggestions result)).

(** An analysis that reports one suggestion on line 10 and one on line 3. *)
Definition suggestion_at (line : N) : Suggestion :=
  mkSuggestion (Some line) (Some "simplify") (Some "m") None None.

Definition sample_suggestions (path : string) : result AnalysisResult :=
  Ok (mkAnalysisResult [] [suggestion_at 10; suggestion_at 3]).

(** [sum(d.values())] *)
Definition sum_values (m : gmap string nat) : nat :=
  map_fold (fun _ v acc => v + acc) 0 m.

End FocusedReviewExtra.

(** ** git/focused_review.py: [_create_focused_content] *)

Module FocusedContent.
Import FocusedReviewExtra.

(** [range(start, stop)] *)
Definition range (start stop : Z) : list Z :=
  map (fun k => (start + Z.of_nat k)%Z) (seq 0 (Z.to_nat (stop - start))).

(** [l[i]] for an index of either sign. *)
Definition getitem_Z {A} (l : list A) (i : Z) : result A :=
  if (i <? 0)%Z then
    if (i + Z.of_nat (length l) <? 0)%Z then Raise IndexError
    else Py.getitem l (Z.to_nat (i + Z.of_nat (length l)))
  else Py.getitem l (Z.to_nat i).

(** The body of the grouping loop of [_create_focused_content]. *)
Definition group_step (context_lines : Z)
  : list (list Z) * list Z -> Z -> list (list Z) * list Z :=
  fun '(line_groups, current_group) line_num =>
    match last current_group with
    | None => (line_groups, current_group ++ [line_num])
    | Some l =>
        if (line_num <=? l + context_lines * 2 + 1)%Z then
          (line_groups, current_group ++ [line_num])
        else (line_groups ++ [current_group], [line_num])
    end.

(** [if current_group: line_groups.append(current_group)] *)
Definition close_groups : list (list Z) * list Z -> list (list Z) :=
  fun '(line_groups, current_group) =>
    match current_group with
    | [] => line_groups
    | _ => line_groups ++ [current_group]
    end.

Definition line_groups (context_lines : Z) (sorted_lines : list Z)
  : list (list Z) :=
  close_groups (foldl (group_step context_lines) ([], []) sorted_lines).

(** The inner loop: one entry for every line number of the range. *)
Fixpoint window_loop (lns : list string) (nums : list Z)
    (focused_lines : list string) : result (list string) :=
  match nums with
  | [] => Ok focused_lines
  | line_num :: nums' =>
      if (line_num <=? Z.of_nat (length lns))%Z then
        line ← getitem_Z lns (line_num - 1);
        window_loop lns nums'
          (focused_lines
             ++ [String.append (format_d 4 line_num) (String.append ": " line)])
      else window_loop lns nums' focused_lines
  end.

(** [range(start_line, end_line + 1)] for a group from [first] to [last]. *)
Definition window (lns : list string) (context_lines first last : Z)
  : list Z :=
  let start_line := Z.max 1 (first - context_lines) in
  let end_line := Z.min (Z.of_nat (length lns)) (last + context_lines) in
  range start_line (end_line + 1).

(** The loop over the groups. *)
Fixpoint groups_loop (lns : list string) (context_lines : Z)
    (groups : list (list Z)) (focused_lines : list string)
  : result (list string) :=
  match groups with
  | [] => Ok focused_lines
  | group :: groups' =>
      first ← getitem_Z group 0;
      last ← getitem_Z group (-1);
      focused_lines' ←
        window_loop lns (window lns context_lines first last) focused_lines;
      groups_loop lns context_lines groups' (focused_lines' ++ ["---"])
  end.

(** The list [focused_lines] of [_create_focused_content]. *)
Definition focused_lines (content : string) (changed_lines : gset N)
    (context_lines : Z) : result (list string) :=
  let lns := Py.split_newline content in
  groups_loop lns context_lines
    (line_groups context_lines
       (map Z.of_N (DiffParser.sorted changed_lines))) [].

(** [_create_focused_content] *)
Definition _create_focused_content (content : string)
    (changed_lines : gset N) (context_lines : Z) : result string :=
  ls ← focused_lines content changed_lines context_lines;
  Ok (join DiffParser.nl ls).





End FocusedContent.

(** ** config/validation.py: merging of checkers and rules *)

Module ConfigMerger.
Import RuleEngine.

(** The [merged_rule] that [_merge_rules] builds for a rule both sides
    configure; the [options] are left out, as in [RuleConfig]. *)
Definition merge_rule (base_rule override_rule : RuleConfig) : RuleConfig :=
  mkRuleConfig
    (enabled override_rule)
    (severity override_rule)
    match file_types override_rule with
    | Some (t :: ts) => Some (t :: ts)
    | _ => file_types base_rule
    end
    (ConfigMerge._merge_lists (ignore_patterns base_rule)
                              (ignore_patterns override_rule)).

(** [ConfigMerger._merge_rules] *)
Definition _merge_rules (base override : gmap string RuleConfig)
  : gmap string RuleConfig :=
  map_fold (fun rule_name override_rule merged =>
              match merged !! rule_name with
              | Some base_rule =>
                  <[rule_name := merge_rule base_rule override_rule]> merged
              | None => <[rule_name := override_rule]> merged
              end)
           base override.

(** The [merged_checker] of [_merge_checkers]. *)
Definition merge_checker (base_checker override_checker : CheckerConfig)
  : CheckerConfig :=
  mkCheckerConfig
    (c_enabled override_checker)
    (_merge_rules (rules base_checker) (rules override_checker))
    match severity_override override_checker with
    | Some s => Some s
    | None => severity_override base_checker
    end.

(** [ConfigMerger._merge_checkers] *)
Definition _merge_checkers (base override : gmap string CheckerConfig)
  : gmap string CheckerConfig :=
  map_fold (fun checker_name override_checker merged =>
              match merged !! checker_name with
              | Some base_checker =>
                  <[checker_name := merge_checker base_checker
                                                   override_checker]> merged
              | None => <[checker_name := override_checker]> merged
              end)
           base override.

(** A parent that disables a rule for one path, and a child that mentions
    the rule to restrict it to Python files. *)
Definition parent_checkers : gmap string CheckerConfig :=
  {[ "style" := mkCheckerConfig true
                  {[ "line_too_long" :=
                       mkRuleConfig false WARNING None ["vendor.py"] ]}
                  (Some INFO) ]}.

Definition child_checkers : gmap string CheckerConfig :=
  {[ "style" := mkCheckerConfig true
                  {[ "line_too_long" := python_only_rule ]} None ]}.

End ConfigMerger.

(** * Properties *)

(** ** Rule engine *)

Section RuleEngineFacts.
Import RuleEngine.

Variable fnmatch : string -> string -> bool.
Variable regex_search : string -> string -> bool.

Lemma filter_results_elem config results r :
  r ∈ filter_results_by_severity config results <->
  r ∈ results /\
  (severity_order (severity_threshold config) <= severity_order (r_severity r))%N.
Proof.
  unfold filter_results_by_severity. rewrite list_elem_of_filter. tauto.
Qed.

(** The numbers of the [severity_order] dictionary follow the order of
    the severities. *)
Lemma at_or_above_order s t :
  at_or_above s t = true <-> (severity_order t <= severity_order s)%N.
Proof. destruct s, t; simpl; split; (done || lia). Qed.

Lemma filter_results_by_order config results :
  filter_results_by_severity config results
  = filter (fun r => at_or_above (r_severity r) (severity_threshold config)
                     = true) results.
Proof.
  unfold filter_results_by_severity.
  induction results as [|r rs IH]; [done|].
  rewrite !filter_cons, IH.
  destruct (decide (at_or_above _ _ = true)) as [H|H].
  - rewrite decide_True; [done|]. by apply at_or_above_order.
  - rewrite decide_False; [done|]. by rewrite <- at_or_above_order.
Qed.

Lemma filter_results_length_mono (t1 t2 : N) (results : list RuleResult) :
  (t1 <= t2)%N ->
  length (filter (fun r => (t2 <= severity_order (r_severity r))%N) results)
  <= length (filter (fun r => (t1 <= severity_order (r_severity r))%N) results).
Proof.
  intros Hle. induction results as [|r rs IH]; [done|].
  rewrite !filter_cons.
  destruct (decide (t2 <= severity_order (r_severity r))%N) as [H2|H2].
  - rewrite decide_True by lia. simpl. lia.
  - destruct (decide (t1 <= severity_order (r_severity r))%N); simpl; lia.
Qed.

Lemma is_rule_enabled_true config checker rule context cc rc :
  checkers config !! checker = Some cc ->
  rules cc !! rule = Some rc ->
  is_rule_enabled fnmatch regex_search config checker rule context = true ->
  c_enabled cc = true /\ enabled rc = true
  /\ (forall t ts ft, file_types rc = Some (t :: ts) ->
        file_type context = Some ft -> ft ∈ t :: ts)
  /\ (forall p, p ∈ ignore_patterns rc -> fnmatch (file_path context) p = false).
Proof.
  intros Hc Hr. unfold is_rule_enabled, is_checker_enabled.
  rewrite Hc, Hr.
  destruct (c_enabled cc); simpl; [|discriminate].
  destruct (enabled rc); simpl; [|discriminate].
  intros H. split; [done|]. split; [done|].
  destruct (match file_types rc with
            | Some (t :: ts) =>
                match file_type context with
                | Some ft => negb (bool_decide (ft ∈ t :: ts))
                | None => false
                end
            | _ => false
            end) eqn:Hft; [discriminate|].
  destruct (existsb _ (ignore_patterns rc)) eqn:Hex; [discriminate|].
  split.
  - intros t ts ft Hfts Hctx. rewrite Hfts, Hctx in Hft.
    apply negb_false_iff, bool_decide_eq_true in Hft. exact Hft.
  - intros p Hp.
    destruct (fnmatch (file_path context) p) eqn:Hm; [|done].
    assert (existsb (fun pattern =>
              _matches_pattern fnmatch regex_search (file_path context)
                               pattern "glob") (ignore_patterns rc) = true)
      as Hex'.
    { apply existsb_exists. exists p. split; [by apply list_elem_of_In|].
      unfold _matches_pattern. simpl. exact Hm. }
    congruence.
Qed.

End RuleEngineFacts.

(** C8 (as amended). A rule fires only if its checker is enabled at the top
    level, the rule is not explicitly disabled, the type of the file, when
    the context carries one, belongs to the rule's non-empty allow-list of
    file types when one is declared, and no rule-specific ignore pattern
    matches the file path; the effective severity is the checker's
    [severity_override] when one is declared, otherwise the severity of the
    configured rule. *)
Theorem rule_fires_only_if
    (fnmatch regex_search : string -> string -> bool)
    (config : RuleEngine.ConfigSchema) (checker rule : string)
    (context : RuleEngine.RuleContext) (dflt : RuleEngine.SeverityLevel) :
  RuleEngine.is_rule_enabled fnmatch regex_search config checker rule context
    = true ->
  RuleEngine.is_checker_enabled config checker = true
  /\ (forall cc rc,
        RuleEngine.checkers config !! checker = Some cc ->
        RuleEngine.rules cc !! rule = Some rc ->
        RuleEngine.enabled rc = true
        /\ (forall t ts ft,
              RuleEngine.file_types rc = Some (t :: ts) ->
              RuleEngine.file_type context = Some ft -> ft ∈ t :: ts)
        /\ (forall p, p ∈ RuleEngine.ignore_patterns rc ->
              fnmatch (RuleEngine.file_path context) p = false))
  /\ (forall cc s,
        RuleEngine.checkers config !! checker = Some cc ->
        RuleEngine.severity_override cc = Some s ->
        RuleEngine.get_effective_severity config checker rule dflt = s)
  /\ (forall cc rc,
        RuleEngine.checkers config !! checker = Some cc ->
        RuleEngine.severity_override cc = None ->
        RuleEngine.rules cc !! rule = Some rc ->
        RuleEngine.get_effective_severity config checker rule dflt
          = RuleEngine.severity rc).
Proof.
  intros Hen. split; [|split; [|split]].
  - unfold RuleEngine.is_rule_enabled in Hen.
    destruct (RuleEngine.is_checker_enabled config checker); [done|].
    simpl in Hen. discriminate.
  - intros cc rc Hc Hr.
    destruct (is_rule_enabled_true fnmatch regex_search config checker rule
                context cc rc Hc Hr Hen) as (_ & H1 & H2 & H3).
    auto.
  - intros cc s Hc Hs. unfold RuleEngine.get_effective_severity.
    by rewrite Hc, Hs.
  - intros cc rc Hc Hs Hr. unfold RuleEngine.get_effective_severity.
    by rewrite Hc, Hs, Hr.
Qed.

Lemma rule_fires_only_if_witness :
  RuleEngine.is_checker_enabled RuleEngine.sample_config "style" = true
  /\ RuleEngine.get_effective_severity RuleEngine.sample_config
       "style" "line_too_long" RuleEngine.WARNING = RuleEngine.SUGGESTION.
Proof.
  destruct (rule_fires_only_if RuleEngine.literal_match RuleEngine.no_regex
              RuleEngine.sample_config "style" "line_too_long"
              RuleEngine.python_context RuleEngine.WARNING eq_refl)
    as (H1 & _ & _ & H4).
  split; [exact H1|].
  apply (H4 (RuleEngine.mkCheckerConfig true
               {[ "line_too_long" := RuleEngine.python_only_rule ]} None)
            RuleEngine.python_only_rule); reflexivity.
Defined.

(** C8 as stated fails: a rule whose allow-list is [[PYTHON]] fires for a
    file whose type is unknown, a type that is not in the allow-list. *)
Lemma rule_fires_for_untyped_file :
  RuleEngine.is_rule_enabled RuleEngine.literal_match RuleEngine.no_regex
    RuleEngine.sample_config "style" "line_too_long"
    RuleEngine.untyped_context = true
  /\ RuleEngine.checkers RuleEngine.sample_config !! "style"
     = Some (RuleEngine.mkCheckerConfig true
               {[ "line_too_long" := RuleEngine.python_only_rule ]} None)
  /\ RuleEngine.file_types RuleEngine.python_only_rule
     = Some [RuleEngine.PYTHON]
  /\ ~ (exists ft, RuleEngine.file_type RuleEngine.untyped_context = Some ft
                   /\ ft ∈ [RuleEngine.PYTHON]).
Proof.
  split; [vm_compute; reflexivity|].
  split; [reflexivity|]. split; [reflexivity|].
  intros (ft & Hft & _). discriminate.
Qed.

(** C9. The severity filter keeps exactly the results at or above the
    configured threshold, in their order, where info is the lowest level,
    then suggestion, then warning, then error; and a threshold that is at
    or above another never yields more results than the other. *)
Theorem severity_filter_exact_and_monotone
    (config config' : RuleEngine.ConfigSchema)
    (results : list RuleEngine.RuleResult) :
  RuleEngine.filter_results_by_severity config results
  = filter (fun r => RuleEngine.at_or_above
                       (RuleEngine.r_severity r)
                       (RuleEngine.severity_threshold config) = true)
           results
  /\ (forall r, r ∈ RuleEngine.filter_results_by_severity config results <->
                r ∈ results
                /\ RuleEngine.at_or_above
                     (RuleEngine.r_severity r)
                     (RuleEngine.severity_threshold config) = true)
  /\ sublist (RuleEngine.filter_results_by_severity config results) results
  /\ (RuleEngine.at_or_above (RuleEngine.severity_threshold config')
                             (RuleEngine.severity_threshold config) = true ->
      length (RuleEngine.filter_results_by_severity config' results)
      <= length (RuleEngine.filter_results_by_severity config results)).
Proof.
  split; [|split; [|split]].
  - apply filter_results_by_order.
  - intros r. rewrite filter_results_elem, at_or_above_order. tauto.
  - apply sublist_filter.
  - intros Hle%at_or_above_order.
    unfold RuleEngine.filter_results_by_severity.
    by apply filter_results_length_mono.
Qed.

Lemma severity_filter_witness :
  RuleEngine.filter_results_by_severity
    (RuleEngine.with_threshold RuleEngine.INFO) RuleEngine.sample_results
  = RuleEngine.sample_results
  /\ RuleEngine.filter_results_by_severity
       (RuleEngine.with_threshold RuleEngine.WARNING)
       RuleEngine.sample_results
     = List.tail RuleEngine.sample_results
  /\ length (RuleEngine.filter_results_by_severity
               (RuleEngine.with_threshold RuleEngine.WARNING)
               RuleEngine.sample_results)
     <= length (RuleEngine.filter_results_by_severity
                  (RuleEngine.with_threshold RuleEngine.INFO)
                  RuleEngine.sample_results).
Proof.
  split; [vm_compute; reflexivity|]. split; [vm_compute; reflexivity|].
  apply (proj2 (proj2 (proj2 (severity_filter_exact_and_monotone
           (RuleEngine.with_threshold RuleEngine.INFO)
           (RuleEngine.with_threshold RuleEngine.WARNING)
           RuleEngine.sample_results)))).
  reflexivity.
Defined.

(** C10. A checker that the configuration does not mention is enabled, and
    so is a rule that the configuration of its (enabled) checker does not
    mention. *)
Theorem unmentioned_enabled_by_default
    (fnmatch regex_search : string -> string -> bool)
    (config : RuleEngine.ConfigSchema) (checker rule : string)
    (context : RuleEngine.RuleContext) :
  (RuleEngine.checkers config !! checker = None ->
   RuleEngine.is_checker_enabled config checker = true)
  /\ (RuleEngine.is_checker_enabled config checker = true ->
      (forall cc, RuleEngine.checkers config !! checker = Some cc ->
                  RuleEngine.rules cc !! rule = None) ->
      RuleEngine.is_rule_enabled fnmatch regex_search config checker rule
        context = true).
Proof.
  split.
  - intros Hc. unfold RuleEngine.is_checker_enabled. by rewrite Hc.
  - intros Hen Hr. unfold RuleEngine.is_rule_enabled. rewrite Hen. simpl.
    destruct (RuleEngine.checkers config !! checker) as [cc|] eqn:Hc; [|done].
    by rewrite (Hr cc eq_refl).
Qed.

Lemma unmentioned_enabled_witness :
  RuleEngine.is_checker_enabled RuleEngine.sample_config "naming" = true
  /\ RuleEngine.is_rule_enabled RuleEngine.literal_match RuleEngine.no_regex
       RuleEngine.sample_config "style" "trailing_whitespace"
       RuleEngine.python_context = true.
Proof.
  split.
  - apply (proj1 (unmentioned_enabled_by_default RuleEngine.literal_match
             RuleEngine.no_regex RuleEngine.sample_config "naming"
             "any" RuleEngine.python_context)).
    reflexivity.
  - apply (proj2 (unmentioned_enabled_by_default RuleEngine.literal_match
             RuleEngine.no_regex RuleEngine.sample_config "style"
             "trailing_whitespace" RuleEngine.python_context)).
    + reflexivity.
    + intros cc Hcc. vm_compute in Hcc. injection Hcc as <-. reflexivity.
Defined.

(** ** Changed lines of a file *)

Section ChangedLinesFacts.
Import DiffParser.

Lemma changed_step_added acc line n :
  n ∈ added (changed_step acc line) <->
  n ∈ added acc
  \/ (n <> 0%N /\ change_type line = ADDED /\ new_line_number line = Some n).
Proof.
  unfold changed_step, truthy.
  destruct line as [ln o nw c ct]; simpl.
  destruct ct, nw as [k|], o as [k'|]; simpl;
    try destruct (N.eqb_spec k 0); try destruct (N.eqb_spec k' 0); simpl;
    rewrite ?elem_of_union, ?elem_of_singleton; naive_solver.
Qed.

Lemma changed_step_removed acc line n :
  n ∈ removed (changed_step acc line) <->
  n ∈ removed acc
  \/ (n <> 0%N /\ change_type line = REMOVED /\ old_line_number line = Some n).
Proof.
  unfold changed_step, truthy.
  destruct line as [ln o nw c ct]; simpl.
  destruct ct, nw as [k|], o as [k'|]; simpl;
    try destruct (N.eqb_spec k 0); try destruct (N.eqb_spec k' 0); simpl;
    rewrite ?elem_of_union, ?elem_of_singleton; naive_solver.
Qed.

Lemma changed_fold_added ls acc n :
  n ∈ added (foldl changed_step acc ls) <->
  n ∈ added acc
  \/ (n <> 0%N /\ exists l, l ∈ ls /\ change_type l = ADDED
                           /\ new_line_number l = Some n).
Proof.
  revert acc. induction ls as [|l ls IH]; intros acc; simpl.
  - split; [tauto|]. intros [?|(_ & l & Hl & _)]; [done|]. inversion Hl.
  - rewrite IH, changed_step_added. split.
    + intros [[?|(? & ? & ?)]|(? & l' & ? & ? & ?)]; [tauto| |].
      * right. split; [done|]. exists l. split; [left|]; done.
      * right. split; [done|]. exists l'. split; [by right|done].
    + intros [?|(? & l' & Hl' & ? & ?)]; [tauto|].
      apply elem_of_cons in Hl' as [->|?]; [tauto|].
      right. split; [done|]. by exists l'.
Qed.

Lemma changed_fold_removed ls acc n :
  n ∈ removed (foldl changed_step acc ls) <->
  n ∈ removed acc
  \/ (n <> 0%N /\ exists l, l ∈ ls /\ change_type l = REMOVED
                           /\ old_line_number l = Some n).
Proof.
  revert acc. induction ls as [|l ls IH]; intros acc; simpl.
  - split; [tauto|]. intros [?|(_ & l & Hl & _)]; [done|]. inversion Hl.
  - rewrite IH, changed_step_removed. split.
    + intros [[?|(? & ? & ?)]|(? & l' & ? & ? & ?)]; [tauto| |].
      * right. split; [done|]. exists l. split; [left|]; done.
      * right. split; [done|]. exists l'. split; [by right|done].
    + intros [?|(? & l' & Hl' & ? & ?)]; [tauto|].
      apply elem_of_cons in Hl' as [->|?]; [tauto|].
      right. split; [done|]. by exists l'.
Qed.

Lemma changed_lines_flat file_diff :
  get_changed_lines_for_file file_diff
  = foldl changed_step (mkChangedLines ∅ ∅) (all_lines file_diff).
Proof.
  unfold get_changed_lines_for_file, all_lines.
  generalize (mkChangedLines ∅ ∅).
  induction (hunks file_diff) as [|h hs IH]; intros acc; simpl; [done|].
  by rewrite foldl_app, IH.
Qed.

Lemma added_lines_nonzero file_diff :
  0%N ∉ added (get_changed_lines_for_file file_diff).
Proof.
  rewrite changed_lines_flat, changed_fold_added. simpl.
  intros [H|[H _]]; [by apply not_elem_of_empty in H|done].
Qed.

End ChangedLinesFacts.

(** C6 (as amended). [get_changed_lines_for_file] returns as ['added']
    exactly the non-zero [new_line_number] values of the Added lines of
    all hunks and as ['removed'] exactly the non-zero [old_line_number]
    values of the Removed lines, and depends on the hunks only. *)
Theorem changed_lines_exact (file_diff : DiffParser.FileDiff) (n : N) :
  (n ∈ DiffParser.added (DiffParser.get_changed_lines_for_file file_diff)
   <-> n <> 0%N /\ DiffParser.spec_added file_diff n)
  /\ (n ∈ DiffParser.removed (DiffParser.get_changed_lines_for_file file_diff)
      <-> n <> 0%N /\ DiffParser.spec_removed file_diff n)
  /\ (forall file_diff',
        DiffParser.hunks file_diff' = DiffParser.hunks file_diff ->
        DiffParser.get_changed_lines_for_file file_diff'
        = DiffParser.get_changed_lines_for_file file_diff).
Proof.
  split; [|split].
  - rewrite changed_lines_flat, changed_fold_added. simpl.
    unfold DiffParser.spec_added. split.
    + intros [H|H]; [by apply not_elem_of_empty in H|exact H].
    + intros H. right. exact H.
  - rewrite changed_lines_flat, changed_fold_removed. simpl.
    unfold DiffParser.spec_removed. split.
    + intros [H|H]; [by apply not_elem_of_empty in H|exact H].
    + intros H. right. exact H.
  - intros fd' Hh. unfold DiffParser.get_changed_lines_for_file.
    by rewrite Hh.
Qed.

(** C6 as stated fails: the parser yields an Added line numbered 0, which
    the 'added' set leaves out. *)
Lemma changed_lines_drop_zero :
  (exists r, DiffParser.parse_diff DiffParser.zero_diff_text = Ok r
             /\ DiffParser.files r = [DiffParser.zero_file_diff])
  /\ DiffParser.spec_added DiffParser.zero_file_diff 0%N
  /\ 0%N ∉ DiffParser.added
             (DiffParser.get_changed_lines_for_file DiffParser.zero_file_diff).
Proof.
  split; [|split].
  - eexists. split; [vm_compute; reflexivity|reflexivity].
  - eexists. split; [apply list_elem_of_here|]. split; reflexivity.
  - apply added_lines_nonzero.
Qed.

(** ** Deep merge of configuration dictionaries *)

Section DeepMergeFacts.
Import ConfigMerge.

Lemma deep_merge_nil base : _deep_merge base [] = base.
Proof. reflexivity. Qed.

(** One round of the [for key, value in override.items()] loop. *)
Lemma deep_merge_cons base key v override :
  _deep_merge base ((key, v) :: override)
  = _deep_merge
      (Py.dict_set base key (merge_value (Py.dict_get base key) v)) override.
Proof. reflexivity. Qed.

(** The two branches of the loop body. *)
Lemma merge_value_dicts base override :
  merge_value (Some (VDict base)) (VDict override)
  = VDict (_deep_merge base override).
Proof. reflexivity. Qed.

Lemma merge_value_replace existing v :
  (forall base override, existing = Some (VDict base) -> v <> VDict override) ->
  merge_value existing v = v.
Proof.
  intros H. destruct v; try reflexivity.
  destruct existing as [[]|]; try reflexivity.
  exfalso. by eapply H.
Qed.

Lemma dict_get_set_eq {V} (d : list (string * V)) k v :
  Py.dict_get (Py.dict_set d k v) k = Some v.
Proof.
  induction d as [|[k' v'] d IH]; simpl.
  - by rewrite String.eqb_refl.
  - destruct (String.eqb k' k) eqn:E; simpl; rewrite E; [done|exact IH].
Qed.

Lemma dict_get_set_ne {V} (d : list (string * V)) k k' v :
  k <> k' -> Py.dict_get (Py.dict_set d k v) k' = Py.dict_get d k'.
Proof.
  intros Hne. induction d as [|[k0 v0] d IH]; simpl.
  - destruct (String.eqb_spec k k'); [done|reflexivity].
  - destruct (String.eqb_spec k0 k) as [->|Hk]; simpl.
    + destruct (String.eqb_spec k k'); [done|reflexivity].
    + destruct (String.eqb_spec k0 k'); [reflexivity|exact IH].
Qed.

Lemma dict_get_None {V} (d : list (string * V)) k :
  k ∉ map fst d -> Py.dict_get d k = None.
Proof.
  induction d as [|[k' v'] d IH]; simpl; [done|].
  intros Hk. apply not_elem_of_cons in Hk as [Hne Hk].
  destruct (String.eqb_spec k' k); [congruence|auto].
Qed.

(** Keys the child does not mention keep the parent's value. *)
Lemma deep_merge_untouched base override k :
  k ∉ map fst override ->
  Py.dict_get (_deep_merge base override) k = Py.dict_get base k.
Proof.
  revert base. induction override as [|[k' v'] override IH]; intros base Hk.
  - reflexivity.
  - simpl in Hk. apply not_elem_of_cons in Hk as [Hne Hk].
    rewrite deep_merge_cons, IH by done.
    by apply dict_get_set_ne.
Qed.

(** A key the child sets holds the child's value, merged recursively with
    the parent's when both are dictionaries. *)
Lemma deep_merge_child_wins base override k v :
  NoDup (map fst override) ->
  Py.dict_get override k = Some v ->
  Py.dict_get (_deep_merge base override) k
  = Some (merge_value (Py.dict_get base k) v).
Proof.
  revert base. induction override as [|[k' v'] override IH];
    intros base Hnd Hget; [discriminate|].
  simpl in Hnd, Hget. apply NoDup_cons in Hnd as [Hk' Hnd].
  rewrite deep_merge_cons.
  destruct (String.eqb_spec k' k) as [->|Hne].
  - injection Hget as ->.
    rewrite deep_merge_untouched by done. apply dict_get_set_eq.
  - rewrite IH by done. by rewrite dict_get_set_ne.
Qed.

(** The specification's example: the child's [enabled] wins and the
    parent's nested rule survives. *)
Lemma deep_merge_example :
  lookup_path (_deep_merge example_parent example_child)
              ["checkers"; "security"; "enabled"] = Some (VBool true)
  /\ lookup_path (_deep_merge example_parent example_child)
                 ["checkers"; "security"; "rules"; "x"; "severity"]
     = Some (VStr "warning").
Proof. split; reflexivity. Qed.

End DeepMergeFacts.

(** C7 at the failing input. When parent and child both set
    [ignore_patterns], [_deep_merge] keeps the child's list alone, where the
    claim, like [_merge_lists] of [config/validation.py], gives the union
    without duplicates; the parent's other keys survive. *)
Theorem deep_merge_replaces_lists :
  ConfigMerge._deep_merge ConfigMerge.patterns_parent ConfigMerge.patterns_child
  = [("ignore_patterns", ConfigMerge.VList [ConfigMerge.VStr "build/*"]);
     ("max_issues_per_run", ConfigMerge.VInt 50)]
  /\ ConfigMerge.spec_list_union ["*.pyc"] ["build/*"] = ["*.pyc"; "build/*"]
  /\ ConfigMerge._merge_lists ["*.pyc"] ["build/*"] = ["*.pyc"; "build/*"].
Proof. split; [|split]; vm_compute; reflexivity. Qed.

(** ** Cyclomatic complexity *)

Section ComplexityFacts.
Import Complexity.

Lemma total_size_app a b :
  total_size (a ++ b) = total_size a + total_size b.
Proof.
  unfold total_size. induction a as [|n a IH]; simpl; [done|].
  rewrite IH. lia.
Qed.

Lemma size_children n : size n = S (total_size (iter_child_nodes n)).
Proof.
  destruct n as [c s l e cs]. unfold iter_child_nodes. simpl. f_equal.
  induction cs as [|[lbl ch] cs IH]; simpl; [done|]. by rewrite IH.
Qed.

(** The traversal is never cut short: it yields as many nodes as the
    queue holds. *)
Lemma walk_queue_length fuel todo :
  total_size todo <= fuel -> length (walk_queue fuel todo) = total_size todo.
Proof.
  revert todo. induction fuel as [|fuel IH]; intros todo Hle.
  - destruct todo as [|n todo]; [done|].
    simpl in Hle. rewrite size_children in Hle. lia.
  - destruct todo as [|n todo]; [done|]. simpl in *.
    rewrite IH; rewrite total_size_app; rewrite size_children in *; lia.
Qed.

Lemma walk_length n : length (walk n) = size n.
Proof.
  unfold walk. rewrite walk_queue_length; simpl; lia.
Qed.

Lemma walk_head n : exists rest, walk n = n :: rest.
Proof.
  unfold walk. rewrite size_children. simpl. eauto.
Qed.




Lemma filter_nil_iff {A} (P : A -> Prop) `{forall x, Decision (P x)} (l : list A) :
  (forall x, x ∈ l -> ~ P x) -> filter P l = [].
Proof.
  induction l as [|x l IH]; intros Hl; [done|].
  rewrite filter_cons, decide_False by (apply Hl; left).
  apply IH. intros y Hy. apply Hl. by right.
Qed.

Lemma filter_ext_elem {A} (P Q : A -> Prop)
    `{forall x, Decision (P x)} `{forall x, Decision (Q x)} (l : list A) :
  (forall x, x ∈ l -> P x <-> Q x) -> filter P l = filter Q l.
Proof.
  induction l as [|x l IH]; intros Hl; [done|].
  rewrite !filter_cons.
  assert (filter P l = filter Q l) as -> by (apply IH; intros; apply Hl; by right).
  pose proof (Hl x (list_elem_of_here _ _)) as Hx.
  destruct (decide (P x)) as [HP|HP], (decide (Q x)) as [HQ|HQ];
    try done; tauto.
Qed.




End ComplexityFacts.



(** ** The outcomes of the diff parser *)

Section ParserFacts.
Import DiffParser.

Lemma getitem_nth {A} (l : list A) i x :
  nth_error l i = Some x -> Py.getitem l i = Ok x.
Proof. unfold Py.getitem. by intros ->. Qed.

Lemma getitem_lt {A} (l : list A) i :
  i < length l -> exists x, Py.getitem l i = Ok x.
Proof.
  intros Hi. unfold Py.getitem.
  destruct (nth_error l i) eqn:E; [eauto|].
  apply nth_error_None in E. lia.
Qed.

Lemma nth_error_Some_lt {A} (l : list A) i x :
  nth_error l i = Some x -> i < length l.
Proof. intros H. apply nth_error_Some. congruence. Qed.

Lemma int_acc_raises digits acc e :
  Py.int_acc acc digits = Raise e -> e = ValueError.
Proof.
  revert acc. induction digits as [|ch digits IH]; intros acc; simpl; [done|].
  destruct (Py.digit_value ch); [apply IH|by intros [= <-]].
Qed.

(** [int()] fails with [ValueError] only. *)
Lemma int_raises s e : Py.int s = Raise e -> e = ValueError.
Proof.
  unfold Py.int. destruct (Py.chars s) as [|ch digits]; [by intros [= <-]|].
  destruct (_ <? _)%nat; [by intros [= <-]|]. apply int_acc_raises.
Qed.

Lemma count_or_one_raises g e : count_or_one g = Raise e -> e = ValueError.
Proof.
  destruct g as [d|]; simpl; [|done].
  destruct (is_empty d); [done|]. apply int_raises.
Qed.

Lemma hunk_body_loop_ok lns fuel i ol nl acc :
  i <= length lns -> length lns < fuel + i ->
  exists hl i', hunk_body_loop fuel lns i ol nl acc = Ok (hl, i')
                /\ i <= i' <= length lns.
Proof.
  revert i ol nl acc. induction fuel as [|fuel IH]; intros i ol nl acc Hi Hf;
    [lia|].
  simpl. destruct (Nat.ltb_spec i (length lns)) as [Hlt|Hge].
  2:{ exists acc, i. split; [done|lia]. }
  destruct (getitem_lt lns i Hlt) as [line ->]. unbind.
  assert (forall ol' nl' acc',
             exists hl i', hunk_body_loop fuel lns (i + 1) ol' nl' acc'
                           = Ok (hl, i') /\ i <= i' <= length lns) as Hnext.
  { intros ol' nl' acc'.
    destruct (IH (i + 1) ol' nl' acc') as (hl & i' & -> & ?); [lia..|].
    exists hl, i'. split; [done|lia]. }
  destruct (Py.startswith line "@@" || Py.startswith line "diff --git").
  { exists acc, i. split; [done|lia]. }
  destruct line as [|c line]; simpl; [apply Hnext|].
  destruct (Ascii.eqb c "+"); [apply Hnext|].
  destruct (Ascii.eqb c "-"); apply Hnext.
Qed.

(** [_parse_hunk] returns an index that does not go back and moves on
    from a header line, or fails in [int()]. *)
Lemma _parse_hunk_outcome lns i :
  or_value_error (_parse_hunk lns i)
    (fun p => i <= snd p
              /\ (i < length lns -> snd p <= length lns)
              /\ (forall line, nth_error lns i = Some line ->
                    Py.startswith line "@@" = true -> i < snd p)).
Proof.
  unfold _parse_hunk.
  destruct (Nat.leb_spec (length lns) i) as [Hge|Hlt].
  { simpl. repeat split; [lia..|].
    intros line Hl. apply nth_error_Some_lt in Hl. lia. }
  destruct (nth_error lns i) as [line|] eqn:Hline;
    [|apply nth_error_None in Hline; lia].
  rewrite (getitem_nth _ _ _ Hline). unbind.
  destruct (Py.startswith line "@@") eqn:Hat; cbn [negb].
  2:{ simpl. repeat split; [lia..|]. intros ? [= <-]. congruence. }
  destruct (Re.search_hunk_header line) as [[[[g1 g2] g3] g4]|] eqn:Hre.
  2:{ simpl. repeat split; intros; lia. }
  destruct (Py.int g1) as [a|e] eqn:H1; [|by apply int_raises in H1].
  destruct (count_or_one g2) as [b|e] eqn:H2;
    [|by apply count_or_one_raises in H2].
  destruct (Py.int g3) as [c|e] eqn:H3; [|by apply int_raises in H3].
  destruct (count_or_one g4) as [d|e] eqn:H4;
    [|by apply count_or_one_raises in H4].
  cbv beta iota.
  destruct (hunk_body_loop_ok lns (S (length lns)) (i + 1) a c [])
    as (hl & i' & -> & Hi'); [lia..|].
  simpl. repeat split; intros; lia.
Qed.

Lemma header_loop_ok lns fuel i st :
  i <= length lns -> length lns < fuel + i ->
  exists st' i', header_loop fuel lns i st = Ok (st', i')
                 /\ i <= i' <= length lns.
Proof.
  revert i st. induction fuel as [|fuel IH]; intros i st Hi Hf; [lia|].
  simpl. destruct (Nat.ltb_spec i (length lns)) as [Hlt|Hge].
  2:{ exists st, i. split; [done|lia]. }
  destruct (getitem_lt lns i Hlt) as [line ->]. unbind.
  destruct (negb (Py.startswith line "@@")
            && negb (Py.startswith line "diff --git")).
  - destruct (IH (i + 1) (header_step line st)) as (st' & i' & -> & ?);
      [lia..|].
    exists st', i'. split; [done|lia].
  - exists st, i. split; [done|lia].
Qed.

Lemma hunks_loop_outcome lns fuel i hs :
  i <= length lns -> length lns < fuel + i ->
  or_value_error (hunks_loop fuel lns i hs)
                 (fun p => i <= snd p <= length lns).
Proof.
  revert i hs. induction fuel as [|fuel IH]; intros i hs Hi Hf; [lia|].
  simpl. destruct (Nat.ltb_spec i (length lns)) as [Hlt|Hge].
  2:{ simpl. lia. }
  destruct (nth_error lns i) as [line|] eqn:Hline;
    [|apply nth_error_None in Hline; lia].
  rewrite (getitem_nth _ _ _ Hline). unbind.
  destruct (Py.startswith line "@@") eqn:Hat.
  2:{ simpl. lia. }
  pose proof (_parse_hunk_outcome lns i) as Hh.
  destruct (_parse_hunk lns i) as [[h j]|e]; [|exact Hh].
  simpl in Hh. destruct Hh as (Hj1 & Hj2 & Hj3).
  specialize (Hj2 Hlt). specialize (Hj3 line Hline Hat).
  pose proof (IH j (match h with Some h0 => hs ++ [h0] | None => hs end)
                ltac:(lia) ltac:(lia)) as Hrest.
  destruct (hunks_loop fuel lns j _) as [[hs' i']|e]; [|exact Hrest].
  simpl in *. lia.
Qed.

Lemma git_header_ok lns i :
  exists st j, git_header lns i = Ok (st, j)
               /\ i <= j
               /\ (i <= length lns -> j <= length lns)
               /\ (forall line, nth_error lns i = Some line ->
                     Py.startswith line "diff --git" = true -> i < j).
Proof.
  unfold git_header.
  destruct (Nat.ltb_spec i (length lns)) as [Hlt|Hge].
  2:{ eexists _, i. split; [reflexivity|]. repeat split; [lia..|].
      intros line Hl. apply nth_error_Some_lt in Hl. lia. }
  destruct (nth_error lns i) as [line|] eqn:Hline;
    [|apply nth_error_None in Hline; lia].
  rewrite (getitem_nth _ _ _ Hline). unbind.
  destruct (Py.startswith line "diff --git") eqn:Hd.
  - destruct (Re.search_git_paths line) as [[a b]|];
      (eexists _, (i + 1); split; [reflexivity|]; repeat split; intros; lia).
  - eexists _, i. split; [reflexivity|]. repeat split; [lia..|].
    intros ? [= <-]. congruence.
Qed.

Lemma _parse_file_diff_outcome lns i :
  i <= length lns ->
  or_value_error (_parse_file_diff lns i)
    (fun p => i <= snd p <= length lns
              /\ (forall line, nth_error lns i = Some line ->
                    Py.startswith line "diff --git" = true -> i < snd p)
              /\ (forall f, fst p = Some f ->
                            old_path f <> "" /\ new_path f <> "")).
Proof.
  intros Hi. unfold _parse_file_diff.
  destruct (git_header_ok lns i) as (st0 & j & -> & Hj1 & Hj2 & Hj3). unbind.
  specialize (Hj2 Hi).
  destruct (header_loop_ok lns (S (length lns)) j st0)
    as (st & k & -> & Hk); [lia..|].
  pose proof (hunks_loop_outcome lns (S (length lns)) k []
                ltac:(lia) ltac:(lia)) as Hh.
  destruct (hunks_loop _ lns k []) as [[hs m]|e]; [|exact Hh].
  simpl in Hh. simpl. split; [lia|]. split.
  - intros line Hl Hd. specialize (Hj3 line Hl Hd). lia.
  - intros f. unfold finish_file_diff.
    destruct (hs_old_path st) as [[|c o]|]; simpl; try done.
    destruct (hs_new_path st) as [[|c' n]|]; simpl; try done.
    intros [= <-]. simpl. done.
Qed.

Lemma files_loop_outcome lns fuel i fs :
  i <= length lns -> length lns < fuel + i ->
  Forall (fun f => old_path f <> "" /\ new_path f <> "") fs ->
  or_value_error (files_loop fuel lns i fs)
    (Forall (fun f => old_path f <> "" /\ new_path f <> "")).
Proof.
  revert i fs. induction fuel as [|fuel IH]; intros i fs Hi Hf Hfs; [lia|].
  simpl. destruct (Nat.ltb_spec i (length lns)) as [Hlt|Hge]; [|done].
  destruct (nth_error lns i) as [line|] eqn:Hline;
    [|apply nth_error_None in Hline; lia].
  rewrite (getitem_nth _ _ _ Hline). unbind.
  destruct (Py.startswith line "diff --git") eqn:Hd.
  - pose proof (_parse_file_diff_outcome lns i Hi) as Hp.
    destruct (_parse_file_diff lns i) as [[fd j]|e]; [|exact Hp].
    simpl in Hp. destruct Hp as (Hj & Hj' & Hp).
    specialize (Hj' line Hline Hd).
    apply IH; [lia..|].
    destruct fd as [f|]; [|done].
    apply Forall_app. split; [done|]. apply Forall_singleton. by apply Hp.
  - apply IH; [lia..|done].
Qed.

(** [parse_diff] returns files that have both paths, or fails in
    [int()]: no subscript is out of range and every loop ends. *)
Lemma parse_diff_outcome diff_text :
  or_value_error (parse_diff diff_text)
    (fun r => Forall (fun f => old_path f <> "" /\ new_path f <> "")
                     (files r)).
Proof.
  unfold parse_diff.
  pose proof (files_loop_outcome (Py.split_newline diff_text)
                (S (length (Py.split_newline diff_text))) 0 []
                ltac:(lia) ltac:(lia) ltac:(constructor)) as Hf.
  destruct (files_loop _ _ 0 []) as [fs|e]; [|exact Hf]. exact Hf.
Qed.

Lemma tail_content line :
  (if (1 <? Py.len line)%nat then Py.tail line else "") = Py.tail line.
Proof.
  unfold Py.len, Py.tail. by destruct (Py.chars line) as [|ch [|ch' chs]].
Qed.

Lemma nth_error_middle {A} (pre : list A) x post :
  nth_error (pre ++ x :: post) (length pre) = Some x.
Proof. induction pre; simpl; auto. Qed.

(** The loop over a hunk body yields the classification of its non-blank
    lines and stops behind the body. *)
Lemma hunk_body_loop_classify body :
  forall pre rest acc ol nl fuel,
    Forall (fun l => is_terminator l = false) body ->
    match rest with [] => True | t :: _ => is_terminator t = true end ->
    length body < fuel ->
    hunk_body_loop fuel (pre ++ body ++ rest) (length pre) ol nl acc
    = Ok (acc ++ classify ol nl (filter (fun l => l <> "") body),
          length pre + length body).
Proof.
  induction body as [|l body IH]; intros pre rest acc ol nl fuel Hb Hr Hf.
  - destruct fuel as [|fuel]; [simpl in Hf; lia|]. simpl.
    rewrite app_nil_r, Nat.add_0_r.
    destruct rest as [|t rest].
    + rewrite app_nil_r, Nat.ltb_irrefl. reflexivity.
    + rewrite length_app. simpl.
      destruct (Nat.ltb_spec (length pre) (length pre + S (length rest)));
        [|lia].
      rewrite (getitem_nth _ _ _ (nth_error_middle pre t rest)). unbind.
      unfold is_terminator in Hr. by rewrite Hr.
  - destruct fuel as [|fuel]; [simpl in Hf; lia|].
    apply Forall_cons in Hb as [Hl Hb]. simpl in Hf.
    cbn [hunk_body_loop].
    change ((l :: body) ++ rest) with (l :: body ++ rest).
    rewrite length_app. cbn [length].
    destruct (Nat.ltb_spec (length pre)
                (length pre + S (length (body ++ rest)))); [|lia].
    rewrite (getitem_nth _ _ _ (nth_error_middle pre l (body ++ rest))).
    unbind. unfold is_terminator in Hl. rewrite Hl.
    assert (forall ol' nl' acc',
               hunk_body_loop fuel (pre ++ l :: body ++ rest)
                              (length pre + 1) ol' nl' acc'
               = Ok (acc' ++ classify ol' nl' (filter (fun l => l <> "") body),
                     length pre + S (length body))) as Hnext.
    { intros ol' nl' acc'.
      replace (pre ++ l :: body ++ rest) with ((pre ++ [l]) ++ body ++ rest)
        by (by rewrite <- app_assoc).
      replace (length pre + 1) with (length (pre ++ [l]))
        by (rewrite length_app; reflexivity).
      rewrite IH; [|done|done|lia].
      rewrite length_app. simpl. do 2 f_equal. lia. }
    rewrite filter_cons.
    destruct l as [|c l]; cbn [is_empty].
    + rewrite decide_False by (intros H'; by apply H').
      apply Hnext.
    + rewrite decide_True by done.
      cbn [Py.first_char]. rewrite tail_content.
      cbn [classify indicator].
      destruct (Ascii.eqb c "+"); [|destruct (Ascii.eqb c "-")];
        rewrite Hnext, <- app_assoc; reflexivity.
Qed.






End ParserFacts.




(** C5. [parse_diff] does not return a result for every text: on a hunk
    header that matches the pattern with a number of more than 4300 digits
    it fails in [int()] with [ValueError].  That is its only failure: every
    other text gives a result.  No returned [FileDiff] lacks its old or its
    new path: a file section that does not resolve both contributes
    nothing, and parsing goes on behind it. *)
Theorem parse_diff_fails_on_long_number :
  DiffParser.parse_diff DiffParser.long_number_text = Raise ValueError
  /\ (forall diff_text,
        (exists r, DiffParser.parse_diff diff_text = Ok r)
        \/ DiffParser.parse_diff diff_text = Raise ValueError)
  /\ (forall diff_text r f,
        DiffParser.parse_diff diff_text = Ok r ->
        f ∈ DiffParser.files r ->
        DiffParser.old_path f <> "" /\ DiffParser.new_path f <> "")
  /\ (forall st hunks,
        DiffParser.hs_old_path st = None \/ DiffParser.hs_new_path st = None ->
        DiffParser.finish_file_diff st hunks = None)
  /\ (exists r f,
        DiffParser.parse_diff DiffParser.unresolved_then_good_text = Ok r
        /\ DiffParser.files r = [f] /\ DiffParser.new_path f = "g.py").
Proof.
  split; [|split; [|split; [|split]]].
  - vm_compute. reflexivity.
  - intros t. pose proof (parse_diff_outcome t) as Ht.
    destruct (DiffParser.parse_diff t) as [r|e]; [left; eauto|].
    right. simpl in Ht. by rewrite Ht.
  - intros t r f Hr Hf. pose proof (parse_diff_outcome t) as Ht.
    rewrite Hr in Ht. simpl in Ht.
    rewrite Forall_forall in Ht. by apply Ht.
  - intros st hunks [H|H]; unfold DiffParser.finish_file_diff; rewrite H;
      simpl; [done|]. by rewrite orb_true_r.
  - eexists _, _. split; [vm_compute; reflexivity|]. split; reflexivity.
Qed.

(** ** Focused review *)

Section FocusedReviewFacts.
Import DiffParser FocusedReview.

Variable get_file_content : string -> option string.
Variable analyze_file : string -> result AnalysisResult.
Variable get_code_snippet : string -> N -> string.
Variable generate_commit_message_suggestions : GitDiffResult -> list string.

Lemma flat_map_focus_issue file_diff file_content (added_lines : gset N) l :
  flat_map (focus_issue get_code_snippet file_diff file_content added_lines) l
  = map (to_focused get_code_snippet file_diff file_content)
        (filter (fun i => default 0%N (i_line i) ∈ added_lines) l).
Proof.
  induction l as [|i l IH]; [done|].
  simpl. rewrite filter_cons, IH. unfold focus_issue at 1.
  destruct (decide (default 0%N (i_line i) ∈ added_lines)) as [Hin|Hin].
  - rewrite (bool_decide_eq_true_2 _ Hin).
    destruct (_find_line_context file_diff (default 0%N (i_line i)))
      as [ct ol] eqn:E.
    cbn [map app]. f_equal. unfold to_focused. by rewrite E.
  - rewrite (bool_decide_eq_false_2 _ Hin). reflexivity.
Qed.

(** Issues of a file whose analysis ran. *)
Lemma analyze_file_changes_issues file_diff file_content res :
  fd_change_type file_diff <> REMOVED ->
  get_file_content (new_path file_diff) = Some file_content ->
  file_content <> "" ->
  analyze_file (new_path file_diff) = Ok res ->
  (_analyze_file_changes get_file_content analyze_file
     get_code_snippet file_diff).1.1
  = map (to_focused get_code_snippet file_diff file_content)
        (filter (on_added_line file_diff) (issues res)).
Proof.
  intros Hrm Hc Hne Hres. unfold _analyze_file_changes.
  rewrite (bool_decide_eq_false_2 _ Hrm), Hc.
  destruct file_content as [|c0 fc]; [done|]. cbn [is_empty].
  destruct (decide (added (get_changed_lines_for_file file_diff) = ∅))
    as [He|He].
  - rewrite (bool_decide_eq_true_2 _ He). simpl.
    rewrite (filter_nil_iff (on_added_line file_diff)); [done|].
    intros i _. unfold on_added_line. rewrite He. apply not_elem_of_empty.
  - rewrite (bool_decide_eq_false_2 _ He), Hres. simpl.
    apply flat_map_focus_issue.
Qed.

(** Whatever the file, its issues sit on its added lines. *)
Lemma analyze_file_changes_on_added file_diff fi :
  fi ∈ (_analyze_file_changes get_file_content analyze_file
     get_code_snippet file_diff).1.1 ->
  file_path fi = new_path file_diff
  /\ fi_line_number fi ∈ added (get_changed_lines_for_file file_diff).
Proof.
  unfold _analyze_file_changes.
  destruct (bool_decide (fd_change_type file_diff = REMOVED));
    [by intros ?%elem_of_nil|].
  destruct (get_file_content (new_path file_diff)) as [fc|];
    [|by intros ?%elem_of_nil].
  destruct (is_empty fc); [by intros ?%elem_of_nil|].
  destruct (bool_decide (added (get_changed_lines_for_file file_diff) = ∅));
    [by intros ?%elem_of_nil|].
  destruct (analyze_file (new_path file_diff)) as [res|];
    [|by intros ?%elem_of_nil].
  simpl. rewrite flat_map_focus_issue.
  intros (i & -> & Hi)%list_elem_of_fmap.
  apply list_elem_of_filter in Hi as [Hi _]. done.
Qed.

Lemma review_fold fs all_issues all_suggestions total :
  foldl (review_step get_file_content analyze_file get_code_snippet)
        (all_issues, all_suggestions, total) fs
  = (all_issues ++ flat_map (FocusedReview.file_issues get_file_content analyze_file
     get_code_snippet) fs,
     all_suggestions ++ flat_map (FocusedReview.file_suggestions get_file_content analyze_file
     get_code_snippet) fs,
     (total + Py.sum (map (FocusedReview.file_lines get_file_content analyze_file
     get_code_snippet) fs))%N).
Proof.
  revert all_issues all_suggestions total.
  induction fs as [|f fs IH]; intros ai asg total.
  - simpl. rewrite !app_nil_r. f_equal. lia.
  - cbn [foldl flat_map map].
    assert (review_step get_file_content analyze_file get_code_snippet
                        (ai, asg, total) f
            = (ai ++ (FocusedReview.file_issues get_file_content analyze_file
     get_code_snippet) f, asg ++ (FocusedReview.file_suggestions get_file_content analyze_file
     get_code_snippet) f,
               (total + (FocusedReview.file_lines get_file_content analyze_file
     get_code_snippet) f)%N)) as ->.
    { unfold review_step, FocusedReview.file_issues,
        FocusedReview.file_suggestions, FocusedReview.file_lines.
      destruct (is_binary f).
      - rewrite !app_nil_r, N.add_0_r. reflexivity.
      - destruct (_analyze_file_changes get_file_content analyze_file
     get_code_snippet f) as [[fi fsg] cnt]. reflexivity. }
    rewrite IH, <- !app_assoc. f_equal. unfold Py.sum. simpl. lia.
Qed.

Lemma file_lines_spec f :
  (FocusedReview.file_lines get_file_content analyze_file
     get_code_snippet) f
  = if analysed get_file_content analyze_file f
    then N.of_nat (size (added (get_changed_lines_for_file f))) else 0%N.
Proof.
  unfold FocusedReview.file_lines, analysed, _analyze_file_changes.
  destruct (is_binary f); [done|]. simpl.
  destruct (bool_decide (fd_change_type f = REMOVED)); [done|]. simpl.
  destruct (get_file_content (new_path f)) as [fc|]; [|done].
  destruct (is_empty fc); [done|]. simpl.
  destruct (decide (added (get_changed_lines_for_file f) = ∅)) as [He|He].
  - rewrite (bool_decide_eq_true_2 _ He), He, size_empty.
    by destruct (analyze_file (new_path f)).
  - rewrite (bool_decide_eq_false_2 _ He).
    by destruct (analyze_file (new_path f)).
Qed.

Lemma sum_if_filter {A} (p : A -> bool) (g : A -> N) (l : list A) :
  Py.sum (map (fun x => if p x then g x else 0%N) l)
  = Py.sum (map g (filter (fun x => p x = true) l)).
Proof.
  induction l as [|x l IH]; [done|].
  rewrite filter_cons. simpl. unfold Py.sum in *. rewrite IH.
  destruct (decide (p x = true)) as [E|E].
  - by rewrite E.
  - apply not_true_is_false in E. by rewrite E.
Qed.

Lemma analyze_diff_unfold diff_text r :
  parse_diff diff_text = Ok r ->
  analyze_diff get_file_content analyze_file get_code_snippet
               generate_commit_message_suggestions diff_text
  = Ok (mkFocusedReviewResult
          (mkDiffSummary
             (length (files r))
             (length (filter (fun f => is_binary f = false) (files r)))
             (length (filter (fun f => is_binary f = true) (files r)))
             (total_added r) (total_removed r)
             (Z.of_N (total_added r) - Z.of_N (total_removed r)))
          (flat_map (FocusedReview.file_issues get_file_content analyze_file
     get_code_snippet) (files r))
          (flat_map (FocusedReview.file_suggestions get_file_content analyze_file
     get_code_snippet) (files r))
          (length (filter (fun f => is_binary f = false) (files r)))
          (Py.sum (map (FocusedReview.file_lines get_file_content analyze_file
     get_code_snippet) (files r)))
          (generate_commit_message_suggestions r)).
Proof.
  intros Hr. unfold analyze_diff. rewrite Hr.
  unfold mbind, result_bind. rewrite review_fold. reflexivity.
Qed.

(** [analyze_diff] returns only when [parse_diff] did. *)
Lemma analyze_diff_parses diff_text res :
  analyze_diff get_file_content analyze_file get_code_snippet
               generate_commit_message_suggestions diff_text = Ok res ->
  exists r, parse_diff diff_text = Ok r.
Proof.
  unfold analyze_diff. destruct (parse_diff diff_text) as [r|e]; [eauto|done].
Qed.

End FocusedReviewFacts.

(** C1. For a file whose analysis ran, the issues of the focused review
    are exactly the findings whose line is in the file's added-line set,
    one [FocusedIssue] each and in order; and every issue of a
    [FocusedReviewResult] sits on an added line of its file, so findings
    on other lines are absent. *)
Theorem focus_filter_keeps_added_lines
    (get_file_content : string -> option string)
    (analyze_file : string -> result FocusedReview.AnalysisResult)
    (get_code_snippet : string -> N -> string)
    (generate_commit_message_suggestions :
       DiffParser.GitDiffResult -> list string) :
  (forall file_diff file_content res,
      DiffParser.fd_change_type file_diff <> DiffParser.REMOVED ->
      get_file_content (DiffParser.new_path file_diff) = Some file_content ->
      file_content <> "" ->
      analyze_file (DiffParser.new_path file_diff) = Ok res ->
      (FocusedReview._analyze_file_changes get_file_content analyze_file
         get_code_snippet file_diff).1.1
      = map (FocusedReview.to_focused get_code_snippet file_diff file_content)
            (filter (FocusedReview.on_added_line file_diff)
                    (FocusedReview.issues res)))
  /\ (forall diff_text r res fi,
        DiffParser.parse_diff diff_text = Ok r ->
        FocusedReview.analyze_diff get_file_content analyze_file
          get_code_snippet generate_commit_message_suggestions diff_text
        = Ok res ->
        fi ∈ FocusedReview.r_issues res ->
        exists file_diff,
          file_diff ∈ DiffParser.files r
          /\ DiffParser.is_binary file_diff = false
          /\ FocusedReview.file_path fi = DiffParser.new_path file_diff
          /\ FocusedReview.fi_line_number fi
             ∈ DiffParser.added
                 (DiffParser.get_changed_lines_for_file file_diff)).
Proof.
  split.
  - apply analyze_file_changes_issues.
  - intros diff_text r res fi Hr Hres Hfi.
    rewrite (analyze_diff_unfold _ _ _ _ _ _ Hr) in Hres.
    injection Hres as <-. cbn [FocusedReview.r_issues] in Hfi.
    apply list_elem_of_In, in_flat_map in Hfi as (f & Hf & Hfi).
    apply list_elem_of_In in Hf, Hfi.
    exists f. split; [done|].
    unfold FocusedReview.file_issues in Hfi.
    destruct (DiffParser.is_binary f); [by apply elem_of_nil in Hfi|].
    split; [done|]. by apply analyze_file_changes_on_added in Hfi.
Qed.

Lemma focus_filter_witness :
  exists res,
    FocusedReview.analyze_diff FocusedReview.sample_content
      FocusedReview.sample_analysis FocusedReview.no_snippet
      FocusedReview.no_commit_suggestions FocusedReview.sample_diff_text
    = Ok res
    /\ map FocusedReview.fi_line_number (FocusedReview.r_issues res) = [11%N]
    /\ forall fi, fi ∈ FocusedReview.r_issues res ->
         FocusedReview.fi_line_number fi <> 5%N.
Proof.
  eexists. split; [vm_compute; reflexivity|]. split; [reflexivity|].
  intros fi Hfi.
  destruct (proj2 (focus_filter_keeps_added_lines
                     FocusedReview.sample_content
                     FocusedReview.sample_analysis FocusedReview.no_snippet
                     FocusedReview.no_commit_suggestions)
                  FocusedReview.sample_diff_text _ _ fi
                  ltac:(vm_compute; reflexivity)
                  ltac:(vm_compute; reflexivity) Hfi)
    as (fd & Hfd & _ & _ & Hline).
  intros H5. rewrite H5 in Hline. clear H5 Hfi.
  cbn [DiffParser.files] in Hfd.
  repeat (apply elem_of_cons in Hfd as [->|Hfd];
          [vm_compute in Hline; by repeat case_decide|]).
  by apply elem_of_nil in Hfd.
Defined.

(** C2 (as amended). In every result that [analyze_diff] returns,
    [files_reviewed] is the number of non-binary files of the diff, and
    [lines_reviewed] is the sum of the added-line-set sizes over the files
    whose analysis ran: the non-binary files that are not removed, whose
    current content could be read and is not empty, and whose analysis
    raised no error.  [analyze_diff] returns a result exactly when
    [parse_diff] does. *)
Theorem review_counters
    (get_file_content : string -> option string)
    (analyze_file : string -> result FocusedReview.AnalysisResult)
    (get_code_snippet : string -> N -> string)
    (generate_commit_message_suggestions :
       DiffParser.GitDiffResult -> list string)
    (diff_text : string) :
  (forall res,
      FocusedReview.analyze_diff get_file_content analyze_file
        get_code_snippet generate_commit_message_suggestions diff_text
      = Ok res ->
      exists r,
        DiffParser.parse_diff diff_text = Ok r
        /\ FocusedReview.files_reviewed res
           = length (filter (fun f => DiffParser.is_binary f = false)
                            (DiffParser.files r))
        /\ FocusedReview.lines_reviewed res
           = Py.sum
               (map (fun f =>
                       N.of_nat
                         (size (DiffParser.added
                                  (DiffParser.get_changed_lines_for_file f))))
                    (filter (fun f => FocusedReview.analysed get_file_content
                                        analyze_file f = true)
                            (DiffParser.files r))))
  /\ (forall r,
        DiffParser.parse_diff diff_text = Ok r ->
        exists res,
          FocusedReview.analyze_diff get_file_content analyze_file
            get_code_snippet generate_commit_message_suggestions diff_text
          = Ok res).
Proof.
  split.
  - intros res Hres.
    destruct (analyze_diff_parses _ _ _ _ _ _ Hres) as (r & Hr).
    exists r. split; [exact Hr|].
    rewrite (analyze_diff_unfold _ _ _ _ _ _ Hr) in Hres.
    injection Hres as <-.
    split; [reflexivity|].
    cbn [FocusedReview.lines_reviewed].
    rewrite <- sum_if_filter. f_equal.
    apply map_ext. intros f. apply file_lines_spec.
  - intros r Hr. eexists. by apply analyze_diff_unfold.
Qed.

Lemma review_counters_witness :
  exists res,
    FocusedReview.analyze_diff FocusedReview.sample_content
      FocusedReview.sample_analysis FocusedReview.no_snippet
      FocusedReview.no_commit_suggestions FocusedReview.sample_diff_text
    = Ok res
    /\ FocusedReview.files_reviewed res = 2
    /\ FocusedReview.lines_reviewed res = 3%N.
Proof.
  eexists. split; [vm_compute; reflexivity|].
  destruct (proj1 (review_counters FocusedReview.sample_content
                     FocusedReview.sample_analysis FocusedReview.no_snippet
                     FocusedReview.no_commit_suggestions
                     FocusedReview.sample_diff_text)
                  _ ltac:(vm_compute; reflexivity))
    as (r & Hr & Hfiles & Hlines).
  vm_compute in Hr. injection Hr as <-.
  split; [exact Hfiles|exact Hlines].
Defined.

(** C2 as stated fails: a deleted file is counted in [files_reviewed], and
    the added lines of a file that cannot be read are not counted in
    [lines_reviewed]. *)
Lemma review_counters_differ :
  exists r res,
    DiffParser.parse_diff FocusedReview.sample_diff_text = Ok r
    /\ FocusedReview.analyze_diff FocusedReview.unreadable
         FocusedReview.sample_analysis FocusedReview.no_snippet
         FocusedReview.no_commit_suggestions FocusedReview.sample_diff_text
       = Ok res
    /\ FocusedReview.files_reviewed res = 2
    /\ FocusedReview.spec_files_reviewed (DiffParser.files r) = 1
    /\ FocusedReview.lines_reviewed res = 0%N
    /\ FocusedReview.spec_lines_reviewed (DiffParser.files r) = 3%N.
Proof.
  eexists _, _. split; [vm_compute; reflexivity|].
  split; [vm_compute; reflexivity|].
  repeat split; vm_compute; reflexivity.
Qed.

(** ** The shape of parsed hunks *)

Section HunkShapeFacts.
Import DiffParser.

Lemma hunk_body_split rest :
  exists rest',
    rest = hunk_body rest ++ rest'
    /\ Forall (fun l => is_terminator l = false) (hunk_body rest)
    /\ match rest' with [] => True | t :: _ => is_terminator t = true end.
Proof.
  induction rest as [|l rest (rest' & IH1 & IH2 & IH3)]; simpl.
  - exists []. done.
  - destruct (is_terminator l) eqn:Hl.
    + exists (l :: rest). done.
    + exists rest'. split; [simpl; by f_equal|]. split; [|done].
      by apply Forall_cons.
Qed.

Lemma header_numbers_Some header os oc ns nc :
  header_numbers header = Some (os, oc, ns, nc) ->
  exists g1 g2 g3 g4,
    Re.search_hunk_header header = Some (g1, g2, g3, g4)
    /\ Py.int g1 = Ok os /\ count_or_one g2 = Ok oc
    /\ Py.int g3 = Ok ns /\ count_or_one g4 = Ok nc.
Proof.
  unfold header_numbers.
  destruct (Re.search_hunk_header header) as [[[[g1 g2] g3] g4]|]; [|done].
  destruct (Py.int g1) as [a|] eqn:H1; [|done].
  destruct (count_or_one g2) as [b|] eqn:H2; [|done].
  destruct (Py.int g3) as [c|] eqn:H3; [|done].
  destruct (count_or_one g4) as [d|] eqn:H4; [|done].
  intros [= <- <- <- <-]. by exists g1, g2, g3, g4.
Qed.

Lemma parse_hunk_shape lns i header os oc ns nc :
  nth_error lns i = Some header ->
  Py.startswith header "@@" = true ->
  header_numbers header = Some (os, oc, ns, nc) ->
  _parse_hunk lns i
  = Ok (Some (mkDiffHunk os oc ns nc
                (classify os ns
                   (filter (fun l => l <> "") (hunk_body (drop (S i) lns))))
                header),
        i + 1 + length (hunk_body (drop (S i) lns))).
Proof.
  intros Hnth Hat Hnum.
  destruct (header_numbers_Some _ _ _ _ _ Hnum)
    as (g1 & g2 & g3 & g4 & Hre & H1 & H2 & H3 & H4).
  pose proof (nth_error_Some_lt _ _ _ Hnth) as Hlt.
  unfold _parse_hunk.
  destruct (Nat.leb_spec (length lns) i); [lia|].
  rewrite (getitem_nth _ _ _ Hnth). unbind. rewrite Hat. cbn [negb].
  rewrite Hre, H1, H2, H3, H4.
  destruct (hunk_body_split (drop (S i) lns)) as (rest' & Hsplit & Hb & Hr).
  assert (lns = take (S i) lns ++ hunk_body (drop (S i) lns) ++ rest') as Hl.
  { rewrite <- Hsplit. symmetry. apply take_drop. }
  assert (length (take (S i) lns) = i + 1) as Hlen
    by (rewrite length_take; lia).
  rewrite Hl at 2. rewrite <- Hlen.
  rewrite hunk_body_loop_classify; [|exact Hb|exact Hr|].
  - reflexivity.
  - assert (length lns = length (take (S i) lns)
                         + length (hunk_body (drop (S i) lns) ++ rest'))
      as Hll by (rewrite Hl at 1; apply length_app).
    rewrite length_app in Hll. lia.
Qed.

Lemma parse_hunk_skips lns i header :
  nth_error lns i = Some header ->
  Py.startswith header "@@" = true ->
  Re.search_hunk_header header = None ->
  _parse_hunk lns i = Ok (None, i + 1).
Proof.
  intros Hnth Hat Hre.
  pose proof (nth_error_Some_lt _ _ _ Hnth) as Hlt.
  unfold _parse_hunk.
  destruct (Nat.leb_spec (length lns) i); [lia|].
  rewrite (getitem_nth _ _ _ Hnth). unbind. rewrite Hat. cbn [negb].
  by rewrite Hre.
Qed.

(** A header that matches the pattern with a number that [int()] does not
    convert ends the parse. *)
Lemma parse_hunk_raises lns i header g :
  nth_error lns i = Some header ->
  Py.startswith header "@@" = true ->
  Re.search_hunk_header header = Some g ->
  header_numbers header = None ->
  _parse_hunk lns i = Raise ValueError.
Proof.
  intros Hnth Hat Hre Hnum.
  pose proof (nth_error_Some_lt _ _ _ Hnth) as Hlt.
  unfold _parse_hunk.
  destruct (Nat.leb_spec (length lns) i); [lia|].
  rewrite (getitem_nth _ _ _ Hnth). unbind. rewrite Hat. cbn [negb].
  unfold header_numbers in Hnum. rewrite Hre in *.
  destruct g as [[[g1 g2] g3] g4].
  destruct (Py.int g1) as [a|e] eqn:H1;
    [|by rewrite (int_raises _ _ H1)].
  destruct (count_or_one g2) as [b|e] eqn:H2;
    [|by rewrite (count_or_one_raises _ _ H2)].
  destruct (Py.int g3) as [c|e] eqn:H3;
    [|by rewrite (int_raises _ _ H3)].
  destruct (count_or_one g4) as [d|e] eqn:H4;
    [done|by rewrite (count_or_one_raises _ _ H4)].
Qed.

Lemma parse_hunk_from_text lns i h i' :
  _parse_hunk lns i = Ok (Some h, i') -> from_text h.
Proof.
  intros Hp.
  destruct (nth_error lns i) as [header|] eqn:Hnth.
  2:{ unfold _parse_hunk in Hp. apply nth_error_None in Hnth.
      destruct (Nat.leb_spec (length lns) i); [done|lia]. }
  destruct (Py.startswith header "@@") eqn:Hat.
  2:{ unfold _parse_hunk in Hp.
      destruct (Nat.leb_spec (length lns) i); [done|].
      rewrite (getitem_nth _ _ _ Hnth) in Hp. unbind.
      rewrite Hat in Hp. done. }
  destruct (header_numbers header) as [[[[os oc] ns] nc]|] eqn:Hnum.
  - rewrite (parse_hunk_shape _ _ _ _ _ _ _ Hnth Hat Hnum) in Hp.
    injection Hp as <- <-. eexists. reflexivity.
  - destruct (Re.search_hunk_header header) as [g|] eqn:Hre.
    + by rewrite (parse_hunk_raises _ _ _ _ Hnth Hat Hre Hnum) in Hp.
    + by rewrite (parse_hunk_skips _ _ _ Hnth Hat Hre) in Hp.
Qed.

End HunkShapeFacts.

(** ** Invariants of parsed diffs *)

Section ParsedDiffFacts.
Import DiffParser.

Lemma consecutive_S start k :
  consecutive start (S k) = start :: consecutive (start + 1) k.
Proof.
  unfold consecutive. simpl. rewrite N.add_0_r. f_equal.
  rewrite <- seq_shift, map_map. apply map_ext. intros j. lia.
Qed.

Lemma classify_invariant body ol nl :
  Forall line_invariant (classify ol nl body).
Proof.
  revert ol nl. induction body as [|l body IH]; intros ol nl; simpl; [done|].
  destruct (Ascii.eqb (indicator l) "+");
    [|destruct (Ascii.eqb (indicator l) "-")];
    (apply Forall_cons; split; [|apply IH]); unfold line_invariant; simpl;
    eauto.
Qed.

Lemma classify_new_numbers body ol nl :
  omap new_line_number (classify ol nl body)
  = consecutive nl (length (omap new_line_number (classify ol nl body))).
Proof.
  revert ol nl. induction body as [|l body IH]; intros ol nl; simpl; [done|].
  destruct (Ascii.eqb (indicator l) "+");
    [|destruct (Ascii.eqb (indicator l) "-")]; simpl;
    rewrite ?consecutive_S; try f_equal; apply IH.
Qed.

Lemma classify_old_numbers body ol nl :
  omap old_line_number (classify ol nl body)
  = consecutive ol (length (omap old_line_number (classify ol nl body))).
Proof.
  revert ol nl. induction body as [|l body IH]; intros ol nl; simpl; [done|].
  destruct (Ascii.eqb (indicator l) "+");
    [|destruct (Ascii.eqb (indicator l) "-")]; simpl;
    rewrite ?consecutive_S; try f_equal; apply IH.
Qed.

Lemma hunks_loop_inv (P : DiffHunk -> Prop) lns :
  (forall i h i', _parse_hunk lns i = Ok (Some h, i') -> P h) ->
  forall fuel i hs hs' i',
    Forall P hs -> hunks_loop fuel lns i hs = Ok (hs', i') -> Forall P hs'.
Proof.
  intros HP. induction fuel as [|fuel IH]; intros i hs hs' i' Hhs; [done|].
  simpl. destruct (i <? length lns)%nat; [|by intros [= <- <-]].
  destruct (Py.getitem lns i) as [line|]; [|done]. unbind.
  destruct (Py.startswith line "@@"); [|by intros [= <- <-]].
  destruct (_parse_hunk lns i) as [[h j]|] eqn:Hh; [|done].
  apply IH. destruct h as [h|]; [|done].
  apply Forall_app. split; [done|]. apply Forall_singleton. by eapply HP.
Qed.

Lemma parse_file_diff_hunks (P : DiffHunk -> Prop) lns i f i' :
  (forall i h i', _parse_hunk lns i = Ok (Some h, i') -> P h) ->
  _parse_file_diff lns i = Ok (Some f, i') ->
  Forall P (hunks f)
  /\ added_lines f = count_lines ADDED (hunks f)
  /\ removed_lines f = count_lines REMOVED (hunks f).
Proof.
  intros HP. unfold _parse_file_diff.
  destruct (git_header lns i) as [[st0 j]|]; [|done]. unbind.
  destruct (header_loop _ lns j st0) as [[st k]|]; [|done].
  destruct (hunks_loop _ lns k []) as [[hs m]|] eqn:Hhs; [|done].
  apply (hunks_loop_inv P lns HP) in Hhs; [|done].
  unfold finish_file_diff.
  destruct (falsy_path (hs_old_path st) || falsy_path (hs_new_path st));
    [done|].
  intros [= <- <-]. done.
Qed.

Lemma files_loop_inv (Q : FileDiff -> Prop) lns :
  (forall i f i', _parse_file_diff lns i = Ok (Some f, i') -> Q f) ->
  forall fuel i fs fs',
    Forall Q fs -> files_loop fuel lns i fs = Ok fs' -> Forall Q fs'.
Proof.
  intros HQ. induction fuel as [|fuel IH]; intros i fs fs' Hfs; [done|].
  simpl. destruct (i <? length lns)%nat; [|by intros [= <-]].
  destruct (Py.getitem lns i) as [line|]; [|done]. unbind.
  destruct (Py.startswith line "diff --git"); [|by apply IH].
  destruct (_parse_file_diff lns i) as [[f j]|] eqn:Hf; [|done].
  apply IH. destruct f as [f|]; [|done].
  apply Forall_app. split; [done|]. apply Forall_singleton. by eapply HQ.
Qed.

Lemma parse_diff_inv (Q : FileDiff -> Prop) diff_text r :
  (forall lns i f i', _parse_file_diff lns i = Ok (Some f, i') -> Q f) ->
  parse_diff diff_text = Ok r ->
  Forall Q (files r)
  /\ total_added r = Py.sum (map added_lines (files r))
  /\ total_removed r = Py.sum (map removed_lines (files r)).
Proof.
  intros HQ. unfold parse_diff.
  destruct (files_loop _ _ 0 []) as [fs|] eqn:Hfs; [|done]. unbind.
  intros [= <-]. split; [|done].
  eapply files_loop_inv; [apply HQ|done|exact Hfs].
Qed.

Lemma parsed_hunks_from_text diff_text r f h :
  parse_diff diff_text = Ok r -> f ∈ files r -> h ∈ hunks f -> from_text h.
Proof.
  intros Hr Hf Hh.
  destruct (parse_diff_inv (fun f => Forall from_text (hunks f)) _ _
              ltac:(intros lns i f0 i' Hp;
                    eapply (parse_file_diff_hunks from_text), Hp;
                    apply parse_hunk_from_text) Hr) as [Hall _].
  rewrite Forall_forall in Hall. specialize (Hall f Hf).
  rewrite Forall_forall in Hall. by apply Hall.
Qed.

Lemma size_insert_le (n : N) (X : gset N) : size ({[n]} ∪ X) <= S (size X).
Proof.
  rewrite size_union_alt, size_singleton.
  assert (size (X ∖ {[n]}) <= size X); [|lia].
  apply subseteq_size. set_solver.
Qed.

Lemma changed_step_sizes acc line :
  size (added (changed_step acc line))
  <= size (added acc) + (if decide (change_type line = ADDED) then 1 else 0)
  /\ size (removed (changed_step acc line))
     <= size (removed acc)
        + (if decide (change_type line = REMOVED) then 1 else 0).
Proof.
  unfold changed_step.
  destruct (decide (change_type line = ADDED)) as [Ha|Ha].
  - rewrite (bool_decide_eq_true_2 _ Ha). simpl.
    rewrite decide_False by congruence.
    destruct (truthy (new_line_number line)); simpl.
    + split; [|lia]. pose proof (size_insert_le
        (default 0%N (new_line_number line)) (added acc)). lia.
    + rewrite bool_decide_eq_false_2 by congruence. simpl. lia.
  - rewrite (bool_decide_eq_false_2 _ Ha). simpl.
    destruct (decide (change_type line = REMOVED)) as [Hr|Hr].
    + rewrite (bool_decide_eq_true_2 _ Hr). simpl.
      destruct (truthy (old_line_number line)); simpl; [|lia].
      split; [lia|]. pose proof (size_insert_le
        (default 0%N (old_line_number line)) (removed acc)). lia.
    + rewrite (bool_decide_eq_false_2 _ Hr). simpl. lia.
Qed.

Lemma changed_fold_sizes ls acc :
  size (added (foldl changed_step acc ls))
  <= size (added acc) + length (filter (fun l => change_type l = ADDED) ls)
  /\ size (removed (foldl changed_step acc ls))
     <= size (removed acc)
        + length (filter (fun l => change_type l = REMOVED) ls).
Proof.
  revert acc. induction ls as [|l ls IH]; intros acc; simpl; [lia|].
  destruct (IH (changed_step acc l)) as [IHa IHr].
  destruct (changed_step_sizes acc l) as [Ha Hr].
  rewrite !filter_cons.
  destruct (decide (change_type l = ADDED)),
           (decide (change_type l = REMOVED)); simpl; lia.
Qed.

Lemma count_lines_flat k hs :
  count_lines k hs
  = N.of_nat (length (filter (fun l => change_type l = k)
                             (concat (map lines hs)))).
Proof.
  unfold count_lines, Py.sum.
  induction hs as [|h hs IH]; simpl; [done|].
  rewrite IH, filter_app, length_app. lia.
Qed.

(** The changed-line sets are no larger than the line counts of the file. *)
Lemma changed_sizes_le_counts f :
  (N.of_nat (size (added (get_changed_lines_for_file f)))
   <= count_lines ADDED (hunks f))%N
  /\ (N.of_nat (size (removed (get_changed_lines_for_file f)))
      <= count_lines REMOVED (hunks f))%N.
Proof.
  rewrite changed_lines_flat, !count_lines_flat. unfold all_lines.
  destruct (changed_fold_sizes (concat (map lines (hunks f)))
              (mkChangedLines ∅ ∅)) as [Ha Hr].
  cbn [added removed] in Ha, Hr. rewrite size_empty in Ha, Hr. lia.
Qed.

Lemma files_loop_no_header lns :
  Forall (fun l => Py.startswith l "diff --git" = false) lns ->
  forall fuel i fs,
    i <= length lns -> length lns < fuel + i ->
    files_loop fuel lns i fs = Ok fs.
Proof.
  intros Hno. induction fuel as [|fuel IH]; intros i fs Hi Hf; [lia|].
  simpl. destruct (Nat.ltb_spec i (length lns)) as [Hlt|]; [|done].
  destruct (nth_error lns i) as [line|] eqn:Hline;
    [|apply nth_error_None in Hline; lia].
  rewrite (getitem_nth _ _ _ Hline). unbind.
  rewrite Forall_forall in Hno.
  rewrite (Hno line) by (apply list_elem_of_In; eapply nth_error_In, Hline).
  apply IH; lia.
Qed.

Lemma parsed_counts_total diff_text r :
  parse_diff diff_text = Ok r ->
  total_added r = Py.sum (map added_lines (files r))
  /\ forall f, f ∈ files r ->
       (N.of_nat (size (added (get_changed_lines_for_file f)))
        <= added_lines f)%N.
Proof.
  intros Hr.
  destruct (parse_diff_inv
              (fun f => added_lines f = count_lines ADDED (hunks f)) _ _
              ltac:(intros lns i f0 i' Hp;
                    eapply (parse_file_diff_hunks (fun _ => True)), Hp;
                    done) Hr) as (Hall & Ha & _).
  split; [done|]. intros f Hf. rewrite Forall_forall in Hall.
  rewrite (Hall f Hf). apply changed_sizes_le_counts.
Qed.

End ParsedDiffFacts.

Section FilterLinesFacts.
Import DiffParser.

Lemma filter_lines_loop_spec lns nums filtered :
  filter_lines_loop lns nums filtered
  = Ok (filtered
        ++ map (fun n => (n, nth (N.to_nat (n - 1)) lns ""))
               (filter (fun n => in_range lns n = true) nums)).
Proof.
  revert filtered. induction nums as [|n nums IH]; intros filtered; simpl.
  - by rewrite app_nil_r.
  - rewrite filter_cons. fold (in_range lns n).
    destruct (in_range lns n) eqn:Hr; simpl.
    + unfold in_range in Hr. apply andb_true_iff in Hr as [H1 H2].
      apply N.leb_le in H1, H2.
      destruct (nth_error lns (N.to_nat (n - 1))) as [t|] eqn:Ht.
      2:{ apply nth_error_None in Ht. lia. }
      rewrite (getitem_nth _ _ _ Ht). unbind.
      rewrite IH, <- app_assoc. simpl.
      by rewrite (nth_error_nth _ _ _ Ht).
    + apply IH.
Qed.

Lemma StronglySorted_le_lt (l : list N) :
  StronglySorted N.le l -> NoDup l -> StronglySorted N.lt l.
Proof.
  induction 1 as [|x l Hs IH Hx]; intros Hnd; constructor.
  - apply IH. by apply NoDup_cons in Hnd as [_ ?].
  - apply NoDup_cons in Hnd as [Hnx _].
    rewrite Forall_forall in *. intros y Hy.
    specialize (Hx y Hy). assert (x <> y) by (intros ->; done). lia.
Qed.

Lemma sorted_spec (s : gset N) :
  StronglySorted N.lt (sorted s) /\ forall n, n ∈ sorted s <-> n ∈ s.
Proof.
  unfold sorted. split.
  - apply StronglySorted_le_lt.
    + apply (StronglySorted_merge_sort N.le).
    + rewrite merge_sort_Permutation. apply NoDup_elements.
  - intros n. rewrite merge_sort_Permutation. apply elem_of_elements.
Qed.

Lemma StronglySorted_filter {A} (R : A -> A -> Prop) (P : A -> Prop)
    `{forall x, Decision (P x)} l :
  StronglySorted R l -> StronglySorted R (filter P l).
Proof.
  induction 1 as [|x l Hs IH Hx]; [constructor|].
  rewrite filter_cons. destruct (decide (P x)); [|done].
  constructor; [done|].
  rewrite Forall_forall in *. intros y Hy.
  apply list_elem_of_filter in Hy as [_ Hy]. by apply Hx.
Qed.

End FilterLinesFacts.

Lemma lines_of_parsed_diff_invariant diff_text r f h l :
  DiffParser.parse_diff diff_text = Ok r ->
  f ∈ DiffParser.files r -> h ∈ DiffParser.hunks f ->
  l ∈ DiffParser.lines h ->
  DiffParser.line_invariant l.
Proof.
  intros Hr Hf Hh Hl.
  destruct (parsed_hunks_from_text _ _ _ _ Hr Hf Hh) as [body Hbody].
  rewrite Hbody in Hl.
  pose proof (classify_invariant body (DiffParser.old_start h)
                                 (DiffParser.new_start h)) as Hall.
  rewrite Forall_forall in Hall. by apply Hall.
Qed.

(** X1. Every [DiffLine] that [parse_diff] returns keeps the numbering
    discipline of its kind: an added line has a new number and no old one,
    a removed line an old number and no new one, a context line both, and
    no line is marked as renamed. *)
Theorem parsed_lines_keep_invariant
    (diff_text : string) (r : DiffParser.GitDiffResult)
    (f : DiffParser.FileDiff) (h : DiffParser.DiffHunk)
    (l : DiffParser.DiffLine) :
  DiffParser.parse_diff diff_text = Ok r ->
  f ∈ DiffParser.files r -> h ∈ DiffParser.hunks f ->
  l ∈ DiffParser.lines h ->
  DiffParser.line_invariant l.
Proof.
  intros Hr Hf Hh Hl.
  destruct (parsed_hunks_from_text _ _ _ _ Hr Hf Hh) as [body Hbody].
  rewrite Hbody in Hl.
  pose proof (classify_invariant body (DiffParser.old_start h)
                                 (DiffParser.new_start h)) as Hall.
  rewrite Forall_forall in Hall. by apply Hall.
Qed.

Lemma parsed_lines_keep_invariant_witness :
  DiffParser.line_invariant
    (DiffParser.mkDiffLine 0 None (Some 0%N) "x = 1" DiffParser.ADDED).
Proof.
  eapply (parsed_lines_keep_invariant DiffParser.zero_diff_text _
            DiffParser.zero_file_diff).
  - vm_compute. reflexivity.
  - apply list_elem_of_here.
  - apply list_elem_of_here.
  - apply list_elem_of_here.
Defined.

(** X2. In every hunk that [parse_diff] returns, the new line numbers of
    the lines that carry one are consecutive from [new_start], and the old
    line numbers are consecutive from [old_start]. *)
Theorem parsed_hunks_number_consecutively
    (diff_text : string) (r : DiffParser.GitDiffResult)
    (f : DiffParser.FileDiff) (h : DiffParser.DiffHunk) :
  DiffParser.parse_diff diff_text = Ok r ->
  f ∈ DiffParser.files r -> h ∈ DiffParser.hunks f ->
  omap DiffParser.new_line_number (DiffParser.lines h)
  = DiffParser.consecutive (DiffParser.new_start h)
      (length (omap DiffParser.new_line_number (DiffParser.lines h)))
  /\ omap DiffParser.old_line_number (DiffParser.lines h)
     = DiffParser.consecutive (DiffParser.old_start h)
         (length (omap DiffParser.old_line_number (DiffParser.lines h))).
Proof.
  intros Hr Hf Hh.
  destruct (parsed_hunks_from_text _ _ _ _ Hr Hf Hh) as [body ->].
  split; [apply classify_new_numbers|apply classify_old_numbers].
Qed.

Lemma parsed_hunks_number_consecutively_witness :
  exists h,
    omap DiffParser.new_line_number (DiffParser.lines h) = [9; 10; 11; 12]%N
    /\ omap DiffParser.new_line_number (DiffParser.lines h)
       = DiffParser.consecutive (DiffParser.new_start h) 4.
Proof.
  destruct (DiffParser.parse_diff FocusedReview.sample_diff_text)
    as [r|] eqn:Hr; [|vm_compute in Hr; discriminate].
  vm_compute in Hr. injection Hr as <-.
  eexists. split; [|
    refine (proj1 (parsed_hunks_number_consecutively
                     FocusedReview.sample_diff_text _ _ _
                     ltac:(vm_compute; reflexivity)
                     ltac:(apply list_elem_of_here)
                     ltac:(apply list_elem_of_here)))].
  reflexivity.
Defined.

(** X3. A hunk reaches from its header to the line before the next line
    that starts with ['@@'] or ['diff --git'], or to the end of the text:
    [_parse_hunk] returns one [DiffLine] for every non-blank line of that
    stretch and the index behind it.  A ['@@'] line that does not match
    the header pattern is skipped alone; one that matches it with a number
    [int()] does not convert, a number of more than 4300 digits, makes
    [_parse_hunk] fail with [ValueError]. *)
Theorem hunk_extent (lns : list string) (i : nat) (header : string) :
  nth_error lns i = Some header ->
  Py.startswith header "@@" = true ->
  match Re.search_hunk_header header with
  | None => DiffParser._parse_hunk lns i = Ok (None, i + 1)
  | Some _ =>
      match DiffParser.header_numbers header with
      | Some (os, oc, ns, nc) =>
          DiffParser._parse_hunk lns i
          = Ok (Some (DiffParser.mkDiffHunk os oc ns nc
                        (DiffParser.classify os ns
                           (filter (fun l => l <> "")
                                   (DiffParser.hunk_body (drop (S i) lns))))
                        header),
                i + 1 + length (DiffParser.hunk_body (drop (S i) lns)))
      | None => DiffParser._parse_hunk lns i = Raise ValueError
      end
  end.
Proof.
  intros Hnth Hat.
  destruct (Re.search_hunk_header header) as [g|] eqn:Hre.
  - destruct (DiffParser.header_numbers header) as [[[[os oc] ns] nc]|]
      eqn:Hn.
    + by apply (parse_hunk_shape lns i header).
    + by apply (parse_hunk_raises lns i header g).
  - by apply (parse_hunk_skips lns i header).
Qed.

Lemma hunk_extent_witness :
  DiffParser._parse_hunk
    ["@@ -5 +5,2 @@"; " a"; ""; "+b"; "diff --git a/x b/x"; "+c"] 0
  = Ok (Some (DiffParser.mkDiffHunk 5 1 5 2
                [DiffParser.mkDiffLine 5 (Some 5%N) (Some 5%N) "a"
                   DiffParser.MODIFIED;
                 DiffParser.mkDiffLine 6 None (Some 6%N) "b" DiffParser.ADDED]
                "@@ -5 +5,2 @@"), 4).
Proof.
  exact (hunk_extent
           ["@@ -5 +5,2 @@"; " a"; ""; "+b"; "diff --git a/x b/x"; "+c"] 0
           "@@ -5 +5,2 @@" eq_refl eq_refl).
Defined.

(** X4. In a parsed diff the totals are the sums of the per-file counts,
    a file's counts are the numbers of Added and Removed lines of its
    hunks, and the changed-line sets of the file are no larger than these
    counts. *)
Theorem parsed_counts_consistent
    (diff_text : string) (r : DiffParser.GitDiffResult) :
  DiffParser.parse_diff diff_text = Ok r ->
  DiffParser.total_added r
  = Py.sum (map DiffParser.added_lines (DiffParser.files r))
  /\ DiffParser.total_removed r
     = Py.sum (map DiffParser.removed_lines (DiffParser.files r))
  /\ forall f, f ∈ DiffParser.files r ->
       DiffParser.added_lines f
       = N.of_nat (length (filter (fun l => DiffParser.change_type l
                                            = DiffParser.ADDED)
                                  (DiffParser.all_lines f)))
       /\ DiffParser.removed_lines f
          = N.of_nat (length (filter (fun l => DiffParser.change_type l
                                               = DiffParser.REMOVED)
                                     (DiffParser.all_lines f)))
       /\ (N.of_nat (size (DiffParser.added
                             (DiffParser.get_changed_lines_for_file f)))
           <= DiffParser.added_lines f)%N
       /\ (N.of_nat (size (DiffParser.removed
                             (DiffParser.get_changed_lines_for_file f)))
           <= DiffParser.removed_lines f)%N.
Proof.
  intros Hr.
  destruct (parse_diff_inv
              (fun f => DiffParser.added_lines f
                        = DiffParser.count_lines DiffParser.ADDED
                            (DiffParser.hunks f)
                        /\ DiffParser.removed_lines f
                           = DiffParser.count_lines DiffParser.REMOVED
                               (DiffParser.hunks f)) _ _
              ltac:(intros lns i f0 i' Hp;
                    eapply (parse_file_diff_hunks (fun _ => True)), Hp;
                    done) Hr) as (Hall & Ha & Hrm).
  split; [done|]. split; [done|].
  intros f Hf. rewrite Forall_forall in Hall.
  destruct (Hall f Hf) as [-> ->].
  destruct (changed_sizes_le_counts f) as [H1 H2].
  unfold DiffParser.all_lines. rewrite <- !count_lines_flat. done.
Qed.

Lemma parsed_counts_consistent_witness :
  exists r, DiffParser.parse_diff FocusedReview.sample_diff_text = Ok r
            /\ DiffParser.total_added r = 3%N
            /\ DiffParser.total_added r
               = Py.sum (map DiffParser.added_lines (DiffParser.files r)).
Proof.
  eexists. split; [vm_compute; reflexivity|]. split; [reflexivity|].
  apply (parsed_counts_consistent FocusedReview.sample_diff_text).
  vm_compute. reflexivity.
Defined.

(** X5. A text none of whose lines starts with ['diff --git'], the empty
    text included, parses to a result without files and with zero
    totals. *)
Theorem no_git_header_no_files (diff_text : string) :
  Forall (fun l => Py.startswith l "diff --git" = false)
         (Py.split_newline diff_text) ->
  DiffParser.parse_diff diff_text = Ok (DiffParser.mkGitDiffResult [] 0 0).
Proof.
  intros Hno. unfold DiffParser.parse_diff.
  rewrite (files_loop_no_header _ Hno) by lia. reflexivity.
Qed.

Lemma no_git_header_no_files_witness :
  DiffParser.parse_diff "" = Ok (DiffParser.mkGitDiffResult [] 0 0)
  /\ DiffParser.parse_diff "@@ -1 +1 @@"
     = Ok (DiffParser.mkGitDiffResult [] 0 0).
Proof.
  split; apply no_git_header_no_files; repeat constructor.
Defined.

(** X6. [filter_lines_by_changes] never fails; it returns, in strictly
    increasing order of line number, exactly the pairs of a changed line
    number that lies within the file and the text of that line. *)
Theorem filter_lines_by_changes_spec
    (file_content : string) (changed_lines : gset N) :
  exists out,
    DiffParser.filter_lines_by_changes file_content changed_lines = Ok out
    /\ StronglySorted N.lt (map fst out)
    /\ forall n t,
         (n, t) ∈ out <->
         n ∈ changed_lines
         /\ (1 <= n)%N
         /\ nth_error (Py.split_newline file_content) (N.to_nat (n - 1))
            = Some t.
Proof.
  unfold DiffParser.filter_lines_by_changes.
  rewrite filter_lines_loop_spec. eexists. split; [reflexivity|].
  destruct (sorted_spec changed_lines) as [Hs Hin].
  set (lns := Py.split_newline file_content).
  simpl. split.
  - rewrite map_map. simpl. rewrite map_id.
    by apply StronglySorted_filter.
  - intros n t. rewrite list_elem_of_fmap. split.
    + intros (m & [= -> ->] & Hm).
      apply list_elem_of_filter in Hm as [Hr Hm]. apply Hin in Hm.
      unfold DiffParser.in_range in Hr.
      apply andb_true_iff in Hr as [H1 H2]. apply N.leb_le in H1, H2.
      split; [done|]. split; [done|].
      apply nth_error_nth'. lia.
    + intros (Hn & H1 & Ht). exists n. split.
      * f_equal. symmetry. by apply nth_error_nth.
      * apply list_elem_of_filter. split; [|by apply Hin].
        apply nth_error_Some_lt in Ht. unfold DiffParser.in_range.
        apply andb_true_iff. split; apply N.leb_le; lia.
Qed.

(** ** Code snippets and review summaries *)

Section SnippetFacts.
Import DiffParser FocusedReview FocusedReviewExtra.

Lemma snippet_loop_spec lns ln range acc :
  Forall (fun i => i < length lns) range ->
  snippet_loop lns ln range acc = Ok (acc ++ map (rendered lns ln) range).
Proof.
  revert acc. induction range as [|i range IH]; intros acc Hr; simpl.
  - by rewrite app_nil_r.
  - apply Forall_cons in Hr as [Hi Hr]. unfold snippet_line.
    destruct (nth_error lns i) as [t|] eqn:Ht;
      [|apply nth_error_None in Ht; lia].
    rewrite (getitem_nth _ _ _ Ht). unbind.
    rewrite IH, <- app_assoc by done. simpl. do 3 f_equal.
    unfold rendered. by rewrite (nth_error_nth _ _ _ Ht).
Qed.

Lemma length_filter_fmap {A B} (f : A -> B) (P : B -> Prop)
    `{forall x, Decision (P x)} (l : list A) :
  length (filter P (map f l)) = length (filter (fun x => P (f x)) l).
Proof.
  induction l as [|x l IH]; [done|]. simpl. rewrite !filter_cons.
  destruct (decide (P (f x))); simpl; by rewrite IH.
Qed.

Lemma count_in_seq (k a n : nat) :
  length (filter (fun i => i = k) (seq a n))
  = if decide (a <= k < a + n) then 1 else 0.
Proof.
  revert a. induction n as [|n IH]; intros a; simpl.
  - by rewrite decide_False by lia.
  - rewrite filter_cons.
    destruct (decide (a = k)) as [->|Hne]; simpl; rewrite IH.
    + rewrite decide_False by lia. by rewrite decide_True by lia.
    + destruct (decide (S a <= k < S a + n)).
      * by rewrite decide_True by lia.
      * by rewrite decide_False by lia.
Qed.

Lemma prefix_append p x : String.prefix p (String.append p x) = true.
Proof.
  induction p as [|c p IH]; simpl.
  - by destruct x.
  - destruct (ascii_dec c c); [exact IH|done].
Qed.

Lemma rendered_marked lns ln i :
  Py.startswith (rendered lns ln i) here_marker = true
  <-> Z.of_nat i = (ln - 1)%Z.
Proof.
  unfold rendered.
  destruct (Z.eqb_spec (Z.of_nat i) (ln - 1)) as [He|Hne]; split.
  - done.
  - intros _. apply prefix_append.
  - intros H. vm_compute in H. discriminate H.
  - done.
Qed.

End SnippetFacts.

(** X7. [_get_code_snippet] never fails: it renders at most
    [2 * context + 1] lines of the file, and exactly one of them carries
    the marker when the line number lies within the file (none
    otherwise), namely the line with that number. *)
Theorem code_snippet_marks_one_line
    (content : string) (line_number : N) (context : nat) :
  exists ls,
    FocusedReviewExtra.snippet_lines content line_number context = Ok ls
    /\ FocusedReviewExtra._get_code_snippet content line_number context
       = Ok (FocusedReviewExtra.join DiffParser.nl ls)
    /\ length ls <= 2 * context + 1
    /\ length (filter (fun l => Py.startswith l
                                  FocusedReviewExtra.here_marker = true) ls)
       = (if decide (1 <= N.to_nat line_number
                     <= length (Py.split_newline content))
          then 1 else 0)
    /\ (forall t,
          (1 <= line_number)%N ->
          nth_error (Py.split_newline content) (N.to_nat line_number - 1)
          = Some t ->
          String.append FocusedReviewExtra.here_marker
            (String.append
               (FocusedReviewExtra.format_d 3 (Z.of_N line_number))
               (String.append ": " t)) ∈ ls).
Proof.
  unfold FocusedReviewExtra._get_code_snippet,
    FocusedReviewExtra.snippet_lines.
  set (lns := Py.split_newline content).
  set (start := Z.to_nat (Z.max 0 (Z.of_N line_number - Z.of_nat context - 1))).
  set (stop := Z.to_nat (Z.min (Z.of_nat (length lns))
                               (Z.of_N line_number + Z.of_nat context))).
  rewrite snippet_loop_spec.
  2:{ apply Forall_forall. intros i Hi. apply list_elem_of_In, in_seq in Hi.
      subst start stop. lia. }
  eexists. split; [reflexivity|]. split; [reflexivity|]. simpl.
  split; [|split].
  - rewrite length_map, length_seq. subst start stop. lia.
  - rewrite length_filter_fmap.
    rewrite (filter_ext_elem _ (fun i => i = N.to_nat line_number - 1
                                         /\ (1 <= line_number)%N)).
    2:{ intros i _. rewrite rendered_marked. lia. }
    destruct (decide (1 <= line_number)%N) as [H1|H1].
    + rewrite (filter_ext_elem _ (fun i => i = N.to_nat line_number - 1)).
      2:{ intros i _. tauto. }
      rewrite count_in_seq. subst start stop.
      destruct (decide (1 <= N.to_nat line_number <= length lns)).
      * by rewrite decide_True by lia.
      * by rewrite decide_False by lia.
    + rewrite filter_nil_iff by (intros i _ [_ ?]; done).
      by rewrite decide_False by lia.
  - intros t H1 Ht. apply list_elem_of_fmap.
    exists (N.to_nat line_number - 1). split.
    + unfold FocusedReviewExtra.rendered.
      rewrite (nth_error_nth _ _ _ Ht).
      replace (Z.of_nat (N.to_nat line_number - 1) + 1)%Z
        with (Z.of_N line_number) by lia.
      destruct (Z.eqb_spec (Z.of_nat (N.to_nat line_number - 1))
                           (Z.of_N line_number - 1)); [done|lia].
    + apply list_elem_of_In, in_seq. apply nth_error_Some_lt in Ht.
      subst start stop. fold lns in Ht. lia.
Qed.

Lemma code_snippet_marks_one_line_witness :
  exists ls,
    FocusedReviewExtra.snippet_lines
      (DiffParser.unlines ["a"; "b"; "c"; "d"; "e"; "f"]) 4 2 = Ok ls
    /\ String.append FocusedReviewExtra.here_marker "  4: d" ∈ ls.
Proof.
  destruct (code_snippet_marks_one_line
              (DiffParser.unlines ["a"; "b"; "c"; "d"; "e"; "f"]) 4 2)
    as (ls & Hls & _ & _ & _ & Hin).
  exists ls. split; [exact Hls|].
  apply (Hin "d"); [lia|reflexivity].
Defined.

Section SummaryFacts.
Import DiffParser FocusedReview FocusedReviewExtra.

Lemma sum_values_insert (m : gmap string nat) k v :
  sum_values (<[k := v]> m) + default 0 (m !! k) = sum_values m + v.
Proof.
  unfold sum_values.
  assert (forall (m' : gmap string nat) j x,
             m' !! j = None ->
             map_fold (fun _ v acc => v + acc) 0 (<[j := x]> m')
             = x + map_fold (fun _ v acc => v + acc) 0 m') as Hins.
  { intros m' j x Hj. apply (map_fold_insert_L (fun _ v acc => v + acc));
      [intros; lia|done]. }
  rewrite <- (insert_delete_eq m k v).
  rewrite Hins by apply lookup_delete_eq.
  destruct (m !! k) as [w|] eqn:Hk; simpl.
  - rewrite <- (insert_delete_id m k w Hk) at 2.
    rewrite Hins by apply lookup_delete_eq. lia.
  - rewrite (delete_id m k Hk). lia.
Qed.

Lemma count_by_fold {A} (key : A -> string) (l : list A)
    (counts : gmap string nat) :
  let out := foldl (fun counts x =>
                      <[key x := default 0 (counts !! key x) + 1]> counts)
                   counts l in
  sum_values out = sum_values counts + length l
  /\ forall k, default 0 (out !! k)
               = default 0 (counts !! k)
                 + length (filter (fun x => key x = k) l).
Proof.
  revert counts. induction l as [|x l IH]; intros counts; simpl.
  - split; [lia|]. intros k. lia.
  - destruct (IH (<[key x := default 0 (counts !! key x) + 1]> counts))
      as [IH1 IH2].
    split.
    + rewrite IH1.
      pose proof (sum_values_insert counts (key x)
                    (default 0 (counts !! key x) + 1)). lia.
    + intros k. rewrite IH2, filter_cons.
      destruct (decide (key x = k)) as [->|Hne].
      * rewrite lookup_insert_eq. simpl. lia.
      * rewrite lookup_insert_ne by done. lia.
Qed.

Lemma count_by_positive {A} (key : A -> string) (l : list A) k n :
  count_by key l !! k = Some n -> 0 < n.
Proof.
  unfold count_by.
  assert (forall counts : gmap string nat,
             (forall j m, counts !! j = Some m -> 0 < m) ->
             forall j m,
               foldl (fun counts x =>
                        <[key x := default 0 (counts !! key x) + 1]> counts)
                     counts l !! j = Some m -> 0 < m) as Hgen.
  { induction l as [|x l IH]; intros counts Hc j m; simpl; [apply Hc|].
    apply IH. intros j' m'.
    destruct (decide (key x = j')) as [->|Hne].
    - rewrite lookup_insert_eq. intros [= <-]. lia.
    - rewrite lookup_insert_ne by done. apply Hc. }
  apply Hgen. intros j m. by rewrite lookup_empty.
Qed.

End SummaryFacts.

(** X8. In the summary of a review, the entry of a severity (or of an
    issue type) is the number of issues that carry it and is present only
    when that number is positive, and the entries of either breakdown add
    up to [total_issues]. *)
Theorem review_summary_counts (res : FocusedReview.FocusedReviewResult) :
  let summary := FocusedReviewExtra.get_review_summary res in
  (forall s,
      FocusedReviewExtra.severity_breakdown summary !! s
      = match length (filter (fun i => FocusedReview.severity i = s)
                             (FocusedReview.r_issues res)) with
        | O => None
        | n => Some n
        end)
  /\ (forall t,
        FocusedReviewExtra.issue_type_breakdown summary !! t
        = match length (filter (fun i => FocusedReview.issue_type i = t)
                               (FocusedReview.r_issues res)) with
          | O => None
          | n => Some n
          end)
  /\ FocusedReviewExtra.sum_values
       (FocusedReviewExtra.severity_breakdown summary)
     = FocusedReviewExtra.total_issues summary
  /\ FocusedReviewExtra.sum_values
       (FocusedReviewExtra.issue_type_breakdown summary)
     = FocusedReviewExtra.total_issues summary.
Proof.
  assert (forall (key : FocusedReview.FocusedIssue -> string) l k,
             FocusedReviewExtra.count_by key l !! k
             = match length (filter (fun i => key i = k) l) with
               | O => None
               | n => Some n
               end) as Hlook.
  { intros key l k.
    destruct (count_by_fold key l ∅) as [_ H]. specialize (H k).
    rewrite lookup_empty in H. simpl in H.
    fold (FocusedReviewExtra.count_by key l) in H.
    destruct (FocusedReviewExtra.count_by key l !! k) as [n|] eqn:Hn;
      simpl in H.
    - apply count_by_positive in Hn. rewrite <- H.
      destruct n; [lia|done].
    - by rewrite <- H. }
  assert (forall (key : FocusedReview.FocusedIssue -> string) l,
             FocusedReviewExtra.sum_values (FocusedReviewExtra.count_by key l)
             = length l) as Hsum.
  { intros key l. destruct (count_by_fold key l ∅) as [H _].
    fold (FocusedReviewExtra.count_by key l) in H. rewrite H.
    unfold FocusedReviewExtra.sum_values. by rewrite map_fold_empty. }
  simpl. repeat split; auto.
Qed.

Section ReviewResultFacts.
Import DiffParser FocusedReview.

Variable get_file_content : string -> option string.
Variable analyze_file : string -> result AnalysisResult.
Variable get_code_snippet : string -> N -> string.
Variable generate_commit_message_suggestions : GitDiffResult -> list string.

Lemma analyze_file_changes_suggestion file_diff sg :
  sg ∈ (_analyze_file_changes get_file_content analyze_file get_code_snippet
          file_diff).1.2 ->
  s_file sg = Some (new_path file_diff)
  /\ s_change_context sg = Some "newly_added"
  /\ default 0%N (s_line sg)
     ∈ added (get_changed_lines_for_file file_diff).
Proof.
  unfold _analyze_file_changes.
  destruct (bool_decide (fd_change_type file_diff = REMOVED));
    [by intros ?%elem_of_nil|].
  destruct (get_file_content (new_path file_diff)) as [fc|];
    [|by intros ?%elem_of_nil].
  destruct (is_empty fc); [by intros ?%elem_of_nil|].
  destruct (bool_decide (added (get_changed_lines_for_file file_diff) = ∅));
    [by intros ?%elem_of_nil|].
  destruct (analyze_file (new_path file_diff)) as [res|];
    [|by intros ?%elem_of_nil].
  simpl. intros Hsg.
  apply list_elem_of_In, in_flat_map in Hsg as (sg0 & _ & Hsg).
  unfold focus_suggestion in Hsg.
  destruct (decide (default 0%N (s_line sg0)
                    ∈ added (get_changed_lines_for_file file_diff)))
    as [Hin|Hin].
  - rewrite (bool_decide_eq_true_2 _ Hin) in Hsg.
    destruct Hsg as [<-|[]]. done.
  - rewrite (bool_decide_eq_false_2 _ Hin) in Hsg. destruct Hsg.
Qed.

Lemma find_line_context_kind file_diff n :
  Forall line_invariant (all_lines file_diff) ->
  let '(ct, old) := _find_line_context file_diff n in
  (ct = ADDED /\ old = None) \/ ct = MODIFIED.
Proof.
  intros Hinv. unfold _find_line_context.
  fold (all_lines file_diff).
  destruct (list_find _ (all_lines file_diff)) as [[i l]|] eqn:Hfind;
    [|by right].
  apply list_find_Some in Hfind as (Hl & Hn & _).
  rewrite Forall_forall in Hinv.
  specialize (Hinv l ltac:(eapply list_elem_of_lookup_2, Hl)).
  unfold line_invariant in Hinv.
  destruct (change_type l); [left|exfalso|right|done].
  - by destruct Hinv.
  - destruct Hinv as [_ H']. congruence.
  - done.
Qed.

Lemma analyze_file_changes_kind file_diff fi :
  Forall line_invariant (all_lines file_diff) ->
  fi ∈ (_analyze_file_changes get_file_content analyze_file get_code_snippet
          file_diff).1.1 ->
  (fi_change_type fi = ADDED /\ fi_old_line_number fi = None)
  \/ fi_change_type fi = MODIFIED.
Proof.
  intros Hinv. unfold _analyze_file_changes.
  destruct (bool_decide (fd_change_type file_diff = REMOVED));
    [by intros ?%elem_of_nil|].
  destruct (get_file_content (new_path file_diff)) as [fc|];
    [|by intros ?%elem_of_nil].
  destruct (is_empty fc); [by intros ?%elem_of_nil|].
  destruct (bool_decide (added (get_changed_lines_for_file file_diff) = ∅));
    [by intros ?%elem_of_nil|].
  destruct (analyze_file (new_path file_diff)) as [res|];
    [|by intros ?%elem_of_nil].
  simpl. rewrite flat_map_focus_issue.
  intros (i & -> & _)%list_elem_of_fmap.
  unfold to_focused. simpl.
  pose proof (find_line_context_kind file_diff (default 0%N (i_line i)) Hinv)
    as Hk.
  destruct (_find_line_context file_diff (default 0%N (i_line i))). exact Hk.
Qed.

Lemma parsed_files_invariant diff_text r f :
  parse_diff diff_text = Ok r -> f ∈ files r ->
  Forall line_invariant (all_lines f).
Proof.
  intros Hr Hf. apply Forall_forall. intros l Hl.
  unfold all_lines in Hl.
  apply list_elem_of_In, in_concat in Hl as (ls & Hls & Hl).
  apply in_map_iff in Hls as (h & <- & Hh).
  apply list_elem_of_In in Hh, Hl.
  by eapply lines_of_parsed_diff_invariant.
Qed.

Lemma length_filter_partition {A} (p : A -> bool) (l : list A) :
  length l = length (filter (fun x => p x = false) l)
             + length (filter (fun x => p x = true) l).
Proof.
  induction l as [|x l IH]; [done|]. rewrite !filter_cons.
  destruct (p x); simpl; lia.
Qed.

Lemma sum_le_pointwise {A} (g1 g2 : A -> N) (l : list A) :
  Forall (fun x => (g1 x <= g2 x)%N) l ->
  (Py.sum (map g1 l) <= Py.sum (map g2 l))%N.
Proof.
  unfold Py.sum. induction 1; simpl; lia.
Qed.

End ReviewResultFacts.

(** X9. Every suggestion of a focused review belongs to a non-binary file
    of the diff and to one of its added lines, and is tagged with that
    file's new path and the context ['newly_added']. *)
Theorem focused_suggestions_tagged
    (get_file_content : string -> option string)
    (analyze_file : string -> result FocusedReview.AnalysisResult)
    (get_code_snippet : string -> N -> string)
    (generate_commit_message_suggestions :
       DiffParser.GitDiffResult -> list string)
    (diff_text : string) (r : DiffParser.GitDiffResult)
    (res : FocusedReview.FocusedReviewResult)
    (sg : FocusedReview.Suggestion) :
  DiffParser.parse_diff diff_text = Ok r ->
  FocusedReview.analyze_diff get_file_content analyze_file get_code_snippet
    generate_commit_message_suggestions diff_text = Ok res ->
  sg ∈ FocusedReview.r_suggestions res ->
  exists file_diff,
    file_diff ∈ DiffParser.files r
    /\ DiffParser.is_binary file_diff = false
    /\ FocusedReview.s_file sg = Some (DiffParser.new_path file_diff)
    /\ FocusedReview.s_change_context sg = Some "newly_added"
    /\ default 0%N (FocusedReview.s_line sg)
       ∈ DiffParser.added (DiffParser.get_changed_lines_for_file file_diff).
Proof.
  intros Hr Hres Hsg.
  rewrite (analyze_diff_unfold _ _ _ _ _ _ Hr) in Hres.
  injection Hres as <-. cbn [FocusedReview.r_suggestions] in Hsg.
  apply list_elem_of_In, in_flat_map in Hsg as (f & Hf & Hsg).
  apply list_elem_of_In in Hf, Hsg.
  exists f. split; [done|].
  unfold FocusedReview.file_suggestions in Hsg.
  destruct (DiffParser.is_binary f); [by apply elem_of_nil in Hsg|].
  split; [done|]. by apply analyze_file_changes_suggestion in Hsg.
Qed.

(** X10. The counters of a focused review agree with each other: the
    files of the diff are the non-binary and the binary ones,
    [files_reviewed] is the number of paths [get_modified_files] returns,
    the net change is the difference of the totals, and [lines_reviewed]
    never exceeds the total of added lines. *)
Theorem review_counters_consistent
    (get_file_content : string -> option string)
    (analyze_file : string -> result FocusedReview.AnalysisResult)
    (get_code_snippet : string -> N -> string)
    (generate_commit_message_suggestions :
       DiffParser.GitDiffResult -> list string)
    (diff_text : string) (r : DiffParser.GitDiffResult)
    (res : FocusedReview.FocusedReviewResult) :
  DiffParser.parse_diff diff_text = Ok r ->
  FocusedReview.analyze_diff get_file_content analyze_file get_code_snippet
    generate_commit_message_suggestions diff_text = Ok res ->
  let ds := FocusedReview.diff_summary res in
  FocusedReview.total_files ds
  = FocusedReview.modified_files ds + FocusedReview.binary_files ds
  /\ FocusedReview.files_reviewed res
     = length (DiffParser.get_modified_files r)
  /\ FocusedReview.net_change ds
     = (Z.of_N (FocusedReview.ds_total_added ds)
        - Z.of_N (FocusedReview.ds_total_removed ds))%Z
  /\ (FocusedReview.lines_reviewed res <= FocusedReview.ds_total_added ds)%N.
Proof.
  intros Hr Hres.
  rewrite (analyze_diff_unfold _ _ _ _ _ _ Hr) in Hres.
  injection Hres as <-. simpl.
  split; [apply (length_filter_partition DiffParser.is_binary)|].
  split; [unfold DiffParser.get_modified_files; by rewrite length_map|].
  split; [done|].
  destruct (parsed_counts_total _ _ Hr) as [-> Hle].
  apply sum_le_pointwise. apply Forall_forall. intros f Hf.
  rewrite file_lines_spec. specialize (Hle f Hf).
  destruct (FocusedReview.analysed _ _ f); lia.
Qed.

(** X11. A focused issue is never attributed to a removed line: its
    change type is that of an added line, then without an old line number,
    or that of a context line. *)
Theorem focused_issue_kinds
    (get_file_content : string -> option string)
    (analyze_file : string -> result FocusedReview.AnalysisResult)
    (get_code_snippet : string -> N -> string)
    (generate_commit_message_suggestions :
       DiffParser.GitDiffResult -> list string)
    (diff_text : string) (res : FocusedReview.FocusedReviewResult)
    (fi : FocusedReview.FocusedIssue) :
  FocusedReview.analyze_diff get_file_content analyze_file get_code_snippet
    generate_commit_message_suggestions diff_text = Ok res ->
  fi ∈ FocusedReview.r_issues res ->
  (FocusedReview.fi_change_type fi = DiffParser.ADDED
   /\ FocusedReview.fi_old_line_number fi = None)
  \/ FocusedReview.fi_change_type fi = DiffParser.MODIFIED.
Proof.
  intros Hres Hfi.
  destruct (analyze_diff_parses _ _ _ _ _ _ Hres) as (r & Hr).
  rewrite (analyze_diff_unfold _ _ _ _ _ _ Hr) in Hres.
  injection Hres as <-. cbn [FocusedReview.r_issues] in Hfi.
  apply list_elem_of_In, in_flat_map in Hfi as (f & Hf & Hfi).
  apply list_elem_of_In in Hf, Hfi.
  unfold FocusedReview.file_issues in Hfi.
  destruct (DiffParser.is_binary f); [by apply elem_of_nil in Hfi|].
  eapply analyze_file_changes_kind; [|exact Hfi].
  by eapply parsed_files_invariant.
Qed.

Lemma focused_issue_kinds_witness :
  exists res,
    FocusedReview.analyze_diff FocusedReview.sample_content
      FocusedReview.sample_analysis FocusedReview.no_snippet
      FocusedReview.no_commit_suggestions FocusedReview.sample_diff_text
    = Ok res
    /\ Forall (fun fi => FocusedReview.fi_change_type fi
                         <> DiffParser.REMOVED)
              (FocusedReview.r_issues res).
Proof.
  eexists. split; [vm_compute; reflexivity|].
  apply Forall_forall. intros fi Hfi.
  destruct (focused_issue_kinds FocusedReview.sample_content
              FocusedReview.sample_analysis FocusedReview.no_snippet
              FocusedReview.no_commit_suggestions
              FocusedReview.sample_diff_text _ fi
              ltac:(vm_compute; reflexivity) Hfi) as [[-> _]| ->];
    discriminate.
Defined.

Lemma focused_suggestions_tagged_witness :
  exists r res sg,
    DiffParser.parse_diff FocusedReview.sample_diff_text = Ok r
    /\ FocusedReview.analyze_diff FocusedReview.sample_content
         FocusedReviewExtra.sample_suggestions FocusedReview.no_snippet
         FocusedReview.no_commit_suggestions FocusedReview.sample_diff_text
       = Ok res
    /\ FocusedReview.r_suggestions res = [sg]
    /\ FocusedReview.s_line sg = Some 10%N
    /\ exists file_diff,
         file_diff ∈ DiffParser.files r
         /\ DiffParser.is_binary file_diff = false
         /\ FocusedReview.s_file sg = Some (DiffParser.new_path file_diff)
         /\ FocusedReview.s_change_context sg = Some "newly_added"
         /\ default 0%N (FocusedReview.s_line sg)
            ∈ DiffParser.added
                (DiffParser.get_changed_lines_for_file file_diff).
Proof.
  eexists _, _, _. split; [vm_compute; reflexivity|].
  split; [vm_compute; reflexivity|].
  split; [reflexivity|]. split; [reflexivity|].
  eapply (focused_suggestions_tagged FocusedReview.sample_content
            FocusedReviewExtra.sample_suggestions FocusedReview.no_snippet
            FocusedReview.no_commit_suggestions
            FocusedReview.sample_diff_text).
  - vm_compute. reflexivity.
  - vm_compute. reflexivity.
  - apply list_elem_of_here.
Defined.

Lemma review_counters_consistent_witness :
  exists res,
    FocusedReview.analyze_diff FocusedReview.sample_content
      FocusedReview.sample_analysis FocusedReview.no_snippet
      FocusedReview.no_commit_suggestions FocusedReview.sample_diff_text
    = Ok res
    /\ FocusedReview.lines_reviewed res = 3%N
    /\ (FocusedReview.lines_reviewed res
        <= FocusedReview.ds_total_added (FocusedReview.diff_summary res))%N.
Proof.
  eexists. split; [vm_compute; reflexivity|]. split; [reflexivity|].
  eapply (review_counters_consistent FocusedReview.sample_content
            FocusedReview.sample_analysis FocusedReview.no_snippet
            FocusedReview.no_commit_suggestions
            FocusedReview.sample_diff_text).
  - vm_compute. reflexivity.
  - vm_compute. reflexivity.
Defined.

(** ** Trees and the metrics computed on them *)

Section TreeFacts.
Import Complexity.

Lemma nodes_unfold n : nodes n = n :: flat_map nodes (iter_child_nodes n).
Proof.
  destruct n as [c s l e cs]. unfold iter_child_nodes. simpl. f_equal.
  induction cs as [|[lbl ch] cs IH]; simpl; [done|]. by rewrite IH.
Qed.

Lemma walk_queue_nodes fuel todo :
  total_size todo <= fuel -> walk_queue fuel todo ≡ₚ flat_map nodes todo.
Proof.
  revert todo. induction fuel as [|fuel IH]; intros todo Hle.
  - destruct todo as [|n todo]; [done|].
    simpl in Hle. rewrite size_children in Hle. lia.
  - destruct todo as [|n todo]; [done|]. simpl in *.
    rewrite IH.
    2:{ rewrite total_size_app. rewrite size_children in Hle. lia. }
    rewrite flat_map_app, (nodes_unfold n). simpl.
    apply Permutation_cons; [done|]. apply Permutation_app_comm.
Qed.

(** [ast.walk] yields every node of the tree exactly once. *)
Lemma walk_nodes n : walk n ≡ₚ nodes n.
Proof.
  unfold walk. rewrite walk_queue_nodes by (simpl; lia).
  simpl. by rewrite app_nil_r.
Qed.

Lemma count_walk_nodes (P : node -> Prop) `{forall x, Decision (P x)} n :
  length (filter P (walk n)) = length (filter P (nodes n)).
Proof. by rewrite walk_nodes. Qed.

Lemma sum_Z_app a b : sum_Z (a ++ b) = (sum_Z a + sum_Z b)%Z.
Proof. unfold sum_Z. induction a; simpl; lia. Qed.

Lemma count_flat_map (P : node -> Prop) `{forall x, Decision (P x)}
    (l : list node) :
  Z.of_nat (length (filter P (flat_map nodes l)))
  = sum_Z (map (fun ch => Z.of_nat (length (filter P (nodes ch)))) l).
Proof.
  induction l as [|ch l IH]; [done|]. simpl.
  rewrite filter_app, length_app, Nat2Z.inj_add, IH. reflexivity.
Qed.

Lemma sum_Z_le {A} (g1 g2 : A -> Z) (l : list A) :
  Forall (fun x => (g1 x <= g2 x)%Z) l ->
  (sum_Z (map g1 l) <= sum_Z (map g2 l))%Z.
Proof. unfold sum_Z. induction 1; simpl; lia. Qed.


Lemma cognitive_unfold n level :
  cognitive_visit n level
  = (fst (cognitive_step (cls n) level)
     + sum_Z (map (fun ch => cognitive_visit ch
                               (snd (cognitive_step (cls n) level)))
                  (iter_child_nodes n)))%Z.
Proof.
  destruct n as [c s l e cs]. unfold iter_child_nodes. simpl.
  assert (forall lvl,
             (fix visit_all (cs0 : list (string * node)) : Z :=
                match cs0 with
                | [] => 0%Z
                | (_, child) :: cs' =>
                    (cognitive_visit child lvl + visit_all cs')%Z
                end) cs
             = sum_Z (map (fun ch => cognitive_visit ch lvl) (map snd cs)))
    as Hall.
  { intros lvl. induction cs as [|[lbl ch] cs IH]; simpl; [done|].
    by rewrite IH. }
  destruct c; simpl; by rewrite Hall.
Qed.

Lemma cognitive_lower n :
  forall level, (0 <= level)%Z ->
    (Z.of_nat (length (filter (fun m => is_cognitive m = true) (nodes n)))
     <= cognitive_visit n level)%Z.
Proof.
  induction n as [c s l e cs IH] using node_induction. intros level Hl.
  rewrite cognitive_unfold, nodes_unfold, filter_cons.
  unfold iter_child_nodes. cbn [children cls].
  assert (0 <= snd (cognitive_step c level))%Z as Hl'
    by (destruct c; simpl; lia).
  assert (Z.of_nat (length (filter (fun m => is_cognitive m = true)
                                   (flat_map nodes (map snd cs))))
          <= sum_Z (map (fun ch => cognitive_visit ch
                                     (snd (cognitive_step c level)))
                        (map snd cs)))%Z as Hch.
  { rewrite count_flat_map. apply sum_Z_le.
    apply Forall_fmap. eapply Forall_impl; [exact IH|].
    intros [lbl ch] Hc. simpl in *. by apply Hc. }
  unfold is_cognitive at 1. cbn [cls].
  destruct c; simpl in *; lia.
Qed.



Lemma nesting_unfold n depth :
  nesting_visit n depth
  = Z.max (fst (nesting_step (cls n) depth))
          (max_Z (map (fun ch => nesting_visit ch
                                   (snd (nesting_step (cls n) depth)))
                      (iter_child_nodes n))).
Proof.
  destruct n as [c s l e cs]. unfold iter_child_nodes. simpl.
  assert (forall d,
             (fix visit_all (cs0 : list (string * node)) : Z :=
                match cs0 with
                | [] => 0%Z
                | (_, child) :: cs' =>
                    Z.max (nesting_visit child d) (visit_all cs')
                end) cs
             = max_Z (map (fun ch => nesting_visit ch d) (map snd cs)))
    as Hall.
  { intros d. induction cs as [|[lbl ch] cs IH]; simpl; [done|].
    by rewrite IH. }
  destruct c; simpl; by rewrite Hall.
Qed.

Lemma nesting_bounds n :
  forall depth, (0 <= depth)%Z ->
    let k := Z.of_nat (length (filter (fun m => is_nesting m = true)
                                      (nodes n))) in
    (0 <= nesting_visit n depth <= depth + k)%Z
    /\ (k = 0 -> nesting_visit n depth = 0)%Z
    /\ (0 < k -> 1 <= nesting_visit n depth)%Z.
Proof.
  induction n as [c s l e cs IH] using node_induction. intros depth Hd.
  rewrite nesting_unfold, nodes_unfold, filter_cons.
  unfold iter_child_nodes. cbn [children cls].
  set (d' := snd (nesting_step c depth)).
  assert (0 <= d' <= depth + 1)%Z as Hd' by (subst d'; destruct c; simpl; lia).
  set (kc := Z.of_nat (length (filter (fun m => is_nesting m = true)
                                      (flat_map nodes (map snd cs))))).
  assert ((0 <= max_Z (map (fun ch => nesting_visit ch d') (map snd cs))
           <= d' + kc)%Z
          /\ (kc = 0 -> max_Z (map (fun ch => nesting_visit ch d')
                                   (map snd cs)) = 0)%Z
          /\ (0 < kc -> 1 <= max_Z (map (fun ch => nesting_visit ch d')
                                        (map snd cs)))%Z) as Hch.
  { subst kc. clear -IH Hd'. induction cs as [|[lbl ch] cs IHcs]; simpl.
    - lia.
    - apply Forall_cons in IH as [Hc IH]. simpl in Hc.
      destruct (Hc d' ltac:(lia)) as (H1 & H2 & H3).
      destruct (IHcs IH) as (H4 & H5 & H6).
      rewrite filter_app, length_app, Nat2Z.inj_add. lia. }
  destruct Hch as (H1 & H2 & H3).
  assert (is_nesting (Node c s l e cs) = true
          -> fst (nesting_step c depth) = depth + 1 /\ d' = depth + 1)%Z
    as Hn by (subst d'; unfold is_nesting; destruct c; simpl; done).
  assert (is_nesting (Node c s l e cs) = false
          -> fst (nesting_step c depth) = 0 /\ d' = depth)%Z
    as Hn' by (subst d'; unfold is_nesting; destruct c; simpl; done).
  destruct (is_nesting (Node c s l e cs)) eqn:E.
  - destruct (Hn eq_refl) as [-> Hd1]. rewrite decide_True by done.
    simpl length. fold kc. lia.
  - destruct (Hn' eq_refl) as [-> Hd0]. rewrite decide_False by done.
    fold kc. lia.
Qed.

End TreeFacts.

(** ** Complexity metrics *)

Section ComplexityMetricsFacts.
Import Complexity.

Lemma cognitive_zero n :
  forall level,
    length (filter (fun m => is_cognitive m = true) (nodes n)) = 0 ->
    cognitive_visit n level = 0%Z.
Proof.
  induction n as [c s l e cs IH] using node_induction. intros level Hz.
  rewrite nodes_unfold, filter_cons in Hz.
  destruct (decide (is_cognitive (Node c s l e cs) = true)) as [Hc|Hc];
    [discriminate Hz|].
  rewrite cognitive_unfold. unfold iter_child_nodes in *.
  cbn [children cls] in *.
  assert (cognitive_step c level = (0, level)%Z) as ->.
  { unfold is_cognitive in Hc. cbn [cls] in Hc.
    destruct c; simpl; try done; by destruct Hc. }
  cbn [fst snd]. clear Hc.
  induction cs as [|[lbl ch] cs IHcs]; [done|].
  apply Forall_cons in IH as [Hch IH]. simpl in Hz, Hch.
  rewrite filter_app, length_app in Hz.
  simpl. unfold sum_Z in *. simpl.
  rewrite (Hch level) by lia. specialize (IHcs IH ltac:(lia)). lia.
Qed.

(** X12. The cognitive complexity of a function is at least the number
    of its control-flow, handler, Boolean and comparison nodes (each adds
    one plus its nesting level), and it is zero exactly when the function
    has no such node. *)
Theorem cognitive_complexity_bounds func_node :
  let k := Z.of_nat (length (filter (fun n => is_cognitive n = true)
                                    (walk func_node))) in
  (k <= _calculate_cognitive_complexity func_node)%Z
  /\ (_calculate_cognitive_complexity func_node = 0%Z <-> k = 0%Z).
Proof.
  intros k. subst k. rewrite count_walk_nodes.
  unfold _calculate_cognitive_complexity.
  pose proof (cognitive_lower func_node 0 ltac:(lia)) as Hl.
  split; [done|]. split; [lia|]. intros Hk. apply cognitive_zero. lia.
Qed.

(** X13. The nesting depth of a function lies between zero and the number
    of its [If], [While], [For], [AsyncFor], [With] and [Try] nodes, and it
    is zero exactly when the function has none. *)
Theorem nesting_depth_bounds func_node :
  let k := Z.of_nat (length (filter (fun n => is_nesting n = true)
                                    (walk func_node))) in
  (0 <= _calculate_nesting_depth func_node <= k)%Z
  /\ (_calculate_nesting_depth func_node = 0%Z <-> k = 0%Z).
Proof.
  intros k. subst k. rewrite count_walk_nodes.
  unfold _calculate_nesting_depth.
  destruct (nesting_bounds func_node 0 ltac:(lia)) as (H1 & H2 & H3).
  split; [lia|]. split; [|done]. lia.
Qed.

Lemma js_depth_loop_bounds code :
  forall depth max_depth,
    (0 <= depth <= max_depth)%Z ->
    let opens := Z.of_nat (count_char "{" code) in
    let closes := Z.of_nat (count_char "}" code) in
    (max_depth <= js_depth_loop code depth max_depth
     <= Z.max max_depth (depth + opens))%Z
    /\ (depth + opens - closes <= js_depth_loop code depth max_depth)%Z
    /\ (0 < opens -> 1 <= js_depth_loop code depth max_depth)%Z.
Proof.
  induction code as [|c code IH]; intros depth max_depth Hd;
    cbn [js_depth_loop count_char].
  - simpl. lia.
  - destruct (Ascii.eqb_spec c "{") as [->|Ho].
    + change (Ascii.eqb "{" "}") with false. cbn [Nat.add].
      specialize (IH (depth + 1) (Z.max max_depth (depth + 1)) ltac:(lia))%Z.
      cbv zeta in *. lia.
    + destruct (Ascii.eqb_spec c "}") as [->|Hc].
      * specialize (IH (Z.max 0 (depth - 1)) max_depth ltac:(lia))%Z.
        cbv zeta in *. cbn [Nat.add]. lia.
      * specialize (IH depth max_depth ltac:(lia)).
        cbv zeta in *. cbn [Nat.add]. lia.
Qed.

(** X17. The JavaScript nesting depth is never negative, lies between
    the number of opening braces minus the number of closing braces and the
    number of opening braces, and is zero exactly when the code has no
    opening brace. *)
Theorem js_nesting_depth_bounds code :
  let opens := Z.of_nat (count_char "{" code) in
  let closes := Z.of_nat (count_char "}" code) in
  (0 <= _calculate_js_nesting_depth code
   /\ opens - closes <= _calculate_js_nesting_depth code <= opens)%Z
  /\ (_calculate_js_nesting_depth code = 0%Z <-> opens = 0%Z).
Proof.
  intros opens closes. unfold _calculate_js_nesting_depth.
  destruct (js_depth_loop_bounds code 0 0 ltac:(lia)) as (H1 & H2 & H3).
  cbv zeta in *. fold opens closes in H1, H2, H3. lia.
Qed.

Lemma dict_set_keys {V} (d : list (string * V)) k v :
  map fst (Py.dict_set d k v)
  = if bool_decide (k ∈ map fst d) then map fst d else map fst d ++ [k].
Proof.
  induction d as [|[k' v'] d IH]; simpl; [done|].
  destruct (String.eqb_spec k' k) as [->|Hne]; simpl.
  - rewrite bool_decide_eq_true_2 by left. done.
  - rewrite IH. destruct (bool_decide (k ∈ map fst d)) eqn:E.
    + apply bool_decide_eq_true_1 in E.
      rewrite bool_decide_eq_true_2 by (by right). done.
    + apply bool_decide_eq_false_1 in E.
      rewrite bool_decide_eq_false_2; [done|].
      intros [?|?]%elem_of_cons; congruence.
Qed.

Lemma dict_set_NoDup {V} (d : list (string * V)) k v :
  NoDup (map fst d) -> NoDup (map fst (Py.dict_set d k v)).
Proof.
  intros Hd. rewrite dict_set_keys.
  destruct (bool_decide (k ∈ map fst d)) eqn:E; [done|].
  apply bool_decide_eq_false_1 in E.
  apply NoDup_app. split; [done|]. split; [|apply NoDup_singleton].
  intros x Hx ->%list_elem_of_singleton. done.
Qed.

Lemma dict_set_entries {V} (d : list (string * V)) k v p :
  p ∈ Py.dict_set d k v -> p ∈ d \/ p = (k, v).
Proof.
  induction d as [|[k' v'] d IH]; simpl.
  - intros ->%list_elem_of_singleton. by right.
  - destruct (String.eqb_spec k' k) as [->|Hne].
    + intros [->|?]%elem_of_cons; [by right|left; by right].
    + intros [->|H]%elem_of_cons; [left; left|].
      destruct (IH H); [left; by right|by right].
Qed.


Lemma analyze_fold_get content fname l :
  forall d,
    Py.dict_get (foldl (analyze_step content) d l) fname
    = match last (filter (fun n => is_function n = true /\ name n = fname) l)
      with
      | Some n => Some (_analyze_function n content)
      | None => Py.dict_get d fname
      end.
Proof.
  induction l as [|x l IH]; intros d; [done|].
  cbn [foldl]. rewrite IH, filter_cons.
  destruct (decide (is_function x = true /\ name x = fname)) as [[Hf Hn]|Hx].
  - rewrite last_cons.
    destruct (last (filter _ l)); [done|].
    unfold analyze_step. rewrite Hf, <- Hn. apply dict_get_set_eq.
  - destruct (last (filter _ l)); [done|].
    unfold analyze_step. destruct (is_function x) eqn:Hf; [|done].
    apply dict_get_set_ne. intros Hn. apply Hx. by split.
Qed.

Lemma analyze_fold_keys content l :
  forall d, NoDup (map fst d) ->
            NoDup (map fst (foldl (analyze_step content) d l)).
Proof.
  induction l as [|x l IH]; intros d Hd; [done|].
  cbn [foldl]. apply IH. unfold analyze_step.
  destruct (is_function x); [by apply dict_set_NoDup|done].
Qed.

Lemma analyze_fold_entries content l :
  forall d p,
    p ∈ foldl (analyze_step content) d l ->
    p ∈ d \/ exists n, n ∈ l /\ is_function n = true
                       /\ p = (name n, _analyze_function n content).
Proof.
  induction l as [|x l IH]; intros d p Hp; [by left|].
  cbn [foldl] in Hp. apply IH in Hp as [Hp|(n & Hn & Hf & ->)].
  - unfold analyze_step in Hp. destruct (is_function x) eqn:Hf; [|by left].
    apply dict_set_entries in Hp as [Hp| ->]; [by left|].
    right. exists x. split; [left|done].
  - right. exists n. split; [by right|done].
Qed.

(** X15. [analyze] keeps one entry per function name: the entry of a
    name holds the metrics of the last function definition of that name in
    the order of [ast.walk], earlier definitions of the name being
    overwritten, and a name without a definition has no entry. *)
Theorem analyze_keeps_last_definition content tree fname :
  Py.dict_get (analyze content tree) fname
  = (fun n => _analyze_function n content)
      <$> last (filter (fun n => is_function n = true /\ name n = fname)
                       (walk tree))
  /\ NoDup (map fst (analyze content tree)).
Proof.
  unfold analyze. fold (analyze_step content). split.
  - rewrite analyze_fold_get. by destruct (last _).
  - apply analyze_fold_keys. constructor.
Qed.

Lemma function_issues_nil cfg fname m :
  function_issues cfg fname m = [] <-> within_thresholds cfg m.
Proof.
  unfold function_issues, within_thresholds, when.
  destruct (Z.ltb_spec (max_cyclomatic_complexity cfg) (cyclomatic_complexity m));
  destruct (Z.ltb_spec (max_cognitive_complexity cfg) (cognitive_complexity m));
  destruct (Z.ltb_spec (max_function_length cfg) (m_length m));
  destruct (Z.ltb_spec (max_nesting_depth_limit cfg) (max_nesting_depth m));
  destruct (Z.ltb_spec (max_parameters cfg) (parameter_count m));
  simpl; split; try discriminate; try done; lia.
Qed.


Lemma function_issues_shape cfg fname m f :
  f ∈ function_issues cfg fname m ->
  f_line f = line_start m /\ (f_type f, f_severity f) ∈ issue_kinds.
Proof.
  unfold function_issues, when, issue_kinds. intros Hf.
  repeat (apply elem_of_app in Hf as [Hf|Hf]);
    (destruct (_ <? _)%Z;
     [apply list_elem_of_singleton in Hf as ->; split; [done|]
     |by apply elem_of_nil in Hf]); cbn [f_type f_severity];
    repeat (first [left; done | right]).
Qed.

(** X16. [_check_python_complexity] reports no issue exactly when the
    metrics of every analysed function are within the five thresholds;
    every issue it reports has one of the five issue types with the
    severity of that type, and is placed on the first line of a function
    definition of the tree. *)
Theorem python_complexity_issues cfg content tree :
  (_check_python_complexity cfg content tree = []
   <-> Forall (fun p => within_thresholds cfg (snd p)) (analyze content tree))
  /\ Forall (fun f => (f_type f, f_severity f) ∈ issue_kinds
                      /\ exists n, n ∈ walk tree /\ is_function n = true
                                   /\ f_line f = lineno n)
            (_check_python_complexity cfg content tree).
Proof.
  unfold _check_python_complexity. split.
  - induction (analyze content tree) as [|[fname m] l IH]; simpl.
    + split; [constructor|done].
    + rewrite Forall_cons. simpl. rewrite <- IH, <- (function_issues_nil cfg fname).
      split.
      * intros H. by apply app_eq_nil in H.
      * intros [-> ->]. done.
  - apply Forall_forall. intros f Hf.
    apply list_elem_of_In, in_flat_map in Hf as ([fname m] & Hp & Hf).
    apply list_elem_of_In in Hp, Hf.
    apply function_issues_shape in Hf as [Hl Hk]. split; [done|].
    unfold analyze in Hp. fold (analyze_step content) in Hp.
    apply analyze_fold_entries in Hp as [Hp|(n & Hn & Hfn & Hp)].
    + by apply elem_of_nil in Hp.
    + injection Hp as -> ->. exists n. by rewrite Hl.
Qed.

Lemma cyclomatic_step_acc acc n :
  cyclomatic_step acc n = (acc + cyclomatic_step 0 n)%Z.
Proof. unfold cyclomatic_step. destruct (cls n); lia. Qed.

Lemma cyclomatic_sum l acc :
  foldl cyclomatic_step acc l = (acc + sum_Z (map (cyclomatic_step 0) l))%Z.
Proof.
  revert acc. induction l as [|n l IH]; intros acc; simpl; [unfold sum_Z; simpl; lia|].
  rewrite IH, (cyclomatic_step_acc acc n). unfold sum_Z. simpl. lia.
Qed.

Lemma sum_Z_perm l1 l2 : l1 ≡ₚ l2 -> sum_Z l1 = sum_Z l2.
Proof. unfold sum_Z. induction 1; simpl; lia. Qed.

Lemma sum_Z_sublist {A} (g : A -> Z) l1 l2 :
  sublist l1 l2 -> Forall (fun x => (0 <= g x)%Z) l2 ->
  (0 <= sum_Z (map g l1) <= sum_Z (map g l2))%Z.
Proof.
  unfold sum_Z. induction 1 as [|x l1 l2 _ IH|x l1 l2 _ IH]; simpl.
  - lia.
  - intros [Hx Hl]%Forall_cons. specialize (IH Hl). lia.
  - intros [Hx Hl]%Forall_cons. specialize (IH Hl). lia.
Qed.

Lemma sublist_flat_map {A B} (f : A -> list B) x l :
  x ∈ l -> sublist (f x) (flat_map f l).
Proof.
  induction 1 as [x l|x y l _ IH]; simpl.
  - by apply sublist_inserts_r.
  - by apply sublist_inserts_l.
Qed.

(** The nodes below a node of a tree are nodes of the tree. *)
Lemma nodes_sublist n :
  forall m, m ∈ nodes n -> sublist (nodes m) (nodes n).
Proof.
  induction n as [c s l e cs IH] using node_induction. intros m Hm.
  rewrite nodes_unfold in Hm. apply elem_of_cons in Hm as [->|Hm]; [done|].
  rewrite (nodes_unfold (Node c s l e cs)). apply sublist_cons.
  unfold iter_child_nodes in *. cbn [children] in *.
  apply list_elem_of_In, in_flat_map in Hm as (ch & Hch & Hm).
  apply list_elem_of_In in Hch, Hm.
  apply list_elem_of_fmap in Hch as ([lbl ch'] & -> & Hch).
  rewrite Forall_forall in IH. specialize (IH _ Hch m Hm). simpl in *.
  etransitivity; [exact IH|].
  apply (sublist_flat_map nodes). apply list_elem_of_fmap. by exists (lbl, ch').
Qed.

(** X18. The cyclomatic complexity of a function counts the nodes of the
    functions nested in it as well: when every Boolean operation has at
    least one operand, the complexity of any node inside a function is at
    least one and at most the complexity of the function. *)
Theorem nested_function_counts_in_outer (outer inner : node) :
  Forall (fun n => cls n = BoolOp -> 1 <= length (field n "values"))
         (walk outer) ->
  inner ∈ walk outer ->
  (1 <= _calculate_cyclomatic_complexity inner
   <= _calculate_cyclomatic_complexity outer)%Z.
Proof.
  intros Hb Hin. unfold _calculate_cyclomatic_complexity.
  rewrite !cyclomatic_sum.
  assert (forall n, sum_Z (map (cyclomatic_step 0) (walk n))
                    = sum_Z (map (cyclomatic_step 0) (nodes n))) as Hw.
  { intros n. apply sum_Z_perm, (fmap_Permutation (cyclomatic_step 0)),
                walk_nodes. }
  rewrite !Hw.
  rewrite walk_nodes in Hb, Hin.
  pose proof (sum_Z_sublist (cyclomatic_step 0) _ _ (nodes_sublist _ _ Hin))
    as Hs.
  assert (Forall (fun x => (0 <= cyclomatic_step 0 x)%Z) (nodes outer)) as Hp.
  { eapply Forall_impl; [exact Hb|]. intros n Hn. unfold cyclomatic_step.
    simpl in Hn. destruct (cls n); try lia. specialize (Hn eq_refl). lia. }
  specialize (Hs Hp). lia.
Qed.

Lemma nested_function_counts_witness :
  let inner := Node FunctionDef "inner" 2 (Some 3%N)
                    [("args", Node (Other "arguments") "" 0 None []);
                     ("body", if_stmt 3)] in
  (1 <= _calculate_cyclomatic_complexity inner
   <= _calculate_cyclomatic_complexity outer_function)%Z.
Proof.
  intros inner. apply nested_function_counts_in_outer.
  - let w := eval vm_compute in (walk outer_function) in
    change (walk outer_function) with w.
    repeat (apply Forall_cons; split; [intros H; discriminate H|]).
    apply Forall_nil. done.
  - let w := eval vm_compute in (walk outer_function) in
    change (walk outer_function) with w.
    subst inner. unfold if_stmt, leaf. simpl. right. right. left.
Defined.

Lemma filter_seq_nth {A} (P : A -> Prop) `{forall x, Decision (P x)}
    (d : A) (l : list A) (start len : nat) :
  start + len <= length l ->
  length (filter (fun i => P (nth i l d)) (seq start len))
  = length (filter P (take len (drop start l))).
Proof.
  revert start l. induction len as [|len IH]; intros start l Hl.
  - by rewrite take_0.
  - cbn [seq]. rewrite filter_cons.
    destruct (drop start l) as [|x l'] eqn:E.
    { apply (f_equal length) in E. rewrite length_drop in E. simpl in E. lia. }
    assert (nth start l d = x) as Hx.
    { rewrite nth_lookup. pose proof (lookup_drop l start 0) as Hlk.
      rewrite E, Nat.add_0_r in Hlk. simpl in Hlk. by rewrite <- Hlk. }
    assert (drop (S start) l = l') as Hd.
    { replace (S start) with (start + 1) by lia.
      rewrite <- drop_drop, E. done. }
    cbn [take]. rewrite filter_cons, Hx.
    specialize (IH (S start) l ltac:(lia)). rewrite Hd in IH.
    destruct (decide (P x)); simpl; by rewrite IH.
Qed.

Lemma length_filter_sublist {A} (P : A -> Prop) `{forall x, Decision (P x)}
    (l1 l2 : list A) :
  sublist l1 l2 -> length (filter P l1) <= length (filter P l2).
Proof.
  induction 1 as [|x l1 l2 _ IH|x l1 l2 _ IH]; [done| |];
    rewrite ?filter_cons; destruct (decide (P x)); simpl; lia.
Qed.

(** X14. For a function that starts on line one or later, the function
    length is at most the number of lines from its first line to its last
    line that exist in the file, and at most the number of code lines of
    the whole file. *)
Theorem function_length_bounds (func_node : node) (lns : list string) :
  (1 <= lineno func_node)%N ->
  let span := match end_lineno func_node with
              | Some e => Nat.min (N.to_nat e) (length lns)
              | None => length lns
              end - (N.to_nat (lineno func_node) - 1) in
  (0 <= _calculate_function_length func_node lns <= Z.of_nat span)%Z
  /\ (_calculate_function_length func_node lns
      <= Z.of_nat (length (filter (fun line => is_code_line line = true) lns)))%Z.
Proof.
  intros Hl span. unfold _calculate_function_length.
  set (start := N.to_nat (lineno func_node - 1)).
  set (stop := match end_lineno func_node with
               | Some e => N.to_nat e | None => length lns end).
  assert (Nat.min stop (length lns) - start = span) as Hspan.
  { subst span stop start. destruct (end_lineno func_node); lia. }
  rewrite Hspan. split.
  - pose proof (length_filter (fun i => is_code_line (nth i lns "") = true)
                              (seq start span)) as Hle.
    rewrite length_seq in Hle. lia.
  - destruct (decide (span = 0)) as [->|Hne]; [simpl; lia|].
    pose proof (filter_seq_nth (fun line => is_code_line line = true)
                               "" lns start span ltac:(lia)) as Hf.
    cbv beta in Hf. rewrite Hf.
    apply inj_le, length_filter_sublist.
    etransitivity; [apply sublist_take|apply sublist_drop].
Qed.

Lemma function_length_bounds_witness :
  (0 <= _calculate_function_length (twin 1 []) ["def f():"; "    # body"; ""]
   <= 2)%Z.
Proof.
  apply (proj1 (function_length_bounds (twin 1 [])
                  ["def f():"; "    # body"; ""] ltac:(vm_compute; discriminate))).
Defined.

End ComplexityMetricsFacts.

(** ** Merging of configuration dictionaries and lists *)

Section ConfigMergeFacts.
Import ConfigMerge.




Lemma unique_keys_dict d :
  unique_keys (VDict d)
  <-> NoDup (map fst d) /\ Forall (fun p => unique_keys (snd p)) d.
Proof.
  cbn [unique_keys]. apply and_iff_compat_l.
  induction d as [|[k v] d IH]; [split; [constructor|done]|].
  rewrite Forall_cons, <- IH. reflexivity.
Qed.

Lemma dict_get_elem {V} (d : list (string * V)) k v :
  Py.dict_get d k = Some v -> (k, v) ∈ d.
Proof.
  induction d as [|[k' v'] d IH]; simpl; [discriminate|].
  destruct (String.eqb_spec k' k) as [->|Hne].
  - intros [= ->]. left.
  - intros H. right. auto.
Qed.

Lemma dict_get_None_keys {V} (d : list (string * V)) k :
  Py.dict_get d k = None -> k ∉ map fst d.
Proof.
  induction d as [|[k' v'] d IH]; simpl; [intros _; apply not_elem_of_nil|].
  destruct (String.eqb_spec k' k) as [->|Hne]; [discriminate|].
  intros H. apply not_elem_of_cons. split; [congruence|auto].
Qed.

Lemma elem_dict_get {V} (d : list (string * V)) k v :
  NoDup (map fst d) -> (k, v) ∈ d -> Py.dict_get d k = Some v.
Proof.
  induction d as [|[k' v'] d IH]; simpl; intros Hnd Hin.
  - by apply elem_of_nil in Hin.
  - apply NoDup_cons in Hnd as [Hk' Hnd].
    apply elem_of_cons in Hin as [[= -> ->]|Hin].
    + by rewrite String.eqb_refl.
    + destruct (String.eqb_spec k' k) as [->|Hne]; [|auto].
      exfalso. apply Hk'. apply list_elem_of_fmap. by exists (k, v).
Qed.

Lemma unique_keys_get d k v :
  unique_keys (VDict d) -> Py.dict_get d k = Some v -> unique_keys v.
Proof.
  intros [_ Hall]%unique_keys_dict Hget%dict_get_elem.
  rewrite Forall_forall in Hall. exact (Hall _ Hget).
Qed.

Lemma dict_set_same {V} (d : list (string * V)) k v :
  Py.dict_get d k = Some v -> Py.dict_set d k v = d.
Proof.
  induction d as [|[k' v'] d IH]; simpl; [discriminate|].
  destruct (String.eqb_spec k' k) as [->|Hne].
  - by intros [= ->].
  - intros H. by rewrite IH.
Qed.

Lemma dict_set_fresh {V} (d : list (string * V)) k v :
  k ∉ map fst d -> Py.dict_set d k v = d ++ [(k, v)].
Proof.
  induction d as [|[k' v'] d IH]; simpl; [done|].
  intros [Hne Hk]%not_elem_of_cons.
  destruct (String.eqb_spec k' k) as [->|_]; [done|]. by rewrite IH.
Qed.

Lemma deep_merge_keys base override :
  NoDup (map fst override) ->
  map fst (_deep_merge base override)
  = map fst base ++ filter (fun k => k ∉ map fst base) (map fst override).
Proof.
  revert base. induction override as [|[k v] override IH]; intros base Hnd.
  - simpl. by rewrite app_nil_r.
  - simpl in Hnd. apply NoDup_cons in Hnd as [Hk Hnd].
    rewrite deep_merge_cons, IH by done. rewrite dict_set_keys.
    cbn [map fst]. rewrite filter_cons.
    destruct (bool_decide (k ∈ map fst base)) eqn:E.
    + apply bool_decide_eq_true_1 in E. rewrite decide_False by tauto. done.
    + apply bool_decide_eq_false_1 in E. rewrite decide_True by done.
      rewrite <- app_assoc. simpl. do 2 f_equal.
      apply filter_ext_elem. intros x Hx. rewrite elem_of_app, list_elem_of_singleton.
      split; [tauto|]. intros H [?| ->]; done.
Qed.

(** X19. For an override with distinct keys, [_deep_merge] answers every
    key lookup from the two inputs: a key the override sets holds the
    override's value, merged recursively when both sides hold dictionaries,
    and any other key keeps the base's value. The result lists the base's
    keys in their order, then the override's new keys in theirs, and has
    distinct keys when the base has. *)
Theorem deep_merge_lookup (base override : dict) :
  NoDup (map fst override) ->
  (forall k,
      Py.dict_get (_deep_merge base override) k
      = match Py.dict_get override k with
        | Some v => Some (merge_value (Py.dict_get base k) v)
        | None => Py.dict_get base k
        end)
  /\ map fst (_deep_merge base override)
     = map fst base ++ filter (fun k => k ∉ map fst base) (map fst override)
  /\ (NoDup (map fst base) -> NoDup (map fst (_deep_merge base override))).
Proof.
  intros Hnd. split; [|split].
  - intros k. destruct (Py.dict_get override k) as [v|] eqn:E.
    + by apply deep_merge_child_wins.
    + apply deep_merge_untouched. by apply dict_get_None_keys.
  - by apply deep_merge_keys.
  - intros Hb. rewrite deep_merge_keys by done.
    apply NoDup_app. split; [done|]. split.
    + intros x Hx [Hn _]%list_elem_of_filter. done.
    + by apply NoDup_filter.
Qed.

Lemma deep_merge_lookup_witness :
  Py.dict_get (_deep_merge patterns_parent patterns_child) "max_issues_per_run"
  = Some (VInt 50)
  /\ map fst (_deep_merge patterns_parent patterns_child)
     = ["ignore_patterns"; "max_issues_per_run"].
Proof.
  assert (NoDup (map fst patterns_child)) as Hnd
    by (apply NoDup_cons; split; [apply not_elem_of_nil|apply NoDup_nil_2]).
  split.
  - exact (proj1 (deep_merge_lookup patterns_parent patterns_child Hnd)
                 "max_issues_per_run").
  - exact (proj1 (proj2 (deep_merge_lookup patterns_parent patterns_child Hnd))).
Defined.

Ltac unique_keys_by_computation :=
  apply unique_keys_dict; vm_compute;
  repeat first [ split | apply NoDup_cons_2 | apply NoDup_nil_2
               | apply Forall_cons_2 | apply Forall_nil_2
               | apply not_elem_of_nil | apply not_elem_of_cons
               | discriminate | exact I ].

Lemma lookup_path_cons d k path :
  lookup_path d (k :: path)
  = match path with
    | [] => Py.dict_get d k
    | _ => match Py.dict_get d k with
           | Some (VDict d') => lookup_path d' path
           | _ => None
           end
    end.
Proof. destruct path; reflexivity. Qed.

(** X20. A setting of the override that is not a dictionary wins at any
    depth: the merged configuration holds it under the same path, whatever
    the base holds there. *)
Theorem deep_merge_child_leaf_wins
    (base override : dict) (path : list string) (v : value) :
  unique_keys (VDict override) ->
  lookup_path override path = Some v ->
  (forall d, v <> VDict d) ->
  lookup_path (_deep_merge base override) path = Some v.
Proof.
  revert base override v.
  induction path as [|k path IH]; intros base override v Hu Hget Hleaf.
  - simpl in Hget. injection Hget as <-. by destruct (Hleaf override).
  - rewrite lookup_path_cons in *.
    pose proof (proj1 (proj1 (unique_keys_dict override) Hu)) as Hnd.
    destruct path as [|k' path].
    + rewrite (deep_merge_child_wins _ _ _ _ Hnd Hget). f_equal.
      apply merge_value_replace. intros b o _ ->. by destruct (Hleaf o).
    + destruct (Py.dict_get override k) as [[| | | | |d']|] eqn:E;
        try discriminate.
      rewrite (deep_merge_child_wins _ _ _ _ Hnd E).
      pose proof (unique_keys_get _ _ _ Hu E) as Hu'.
      destruct (Py.dict_get base k) as [[| | | | |b']|]; try done.
      rewrite merge_value_dicts. by apply IH.
Qed.

Lemma deep_merge_child_leaf_wins_witness :
  lookup_path (_deep_merge example_parent example_child)
              ["checkers"; "security"; "enabled"] = Some (VBool true).
Proof.
  apply deep_merge_child_leaf_wins.
  - unique_keys_by_computation.
  - reflexivity.
  - discriminate.
Defined.

Lemma silent_lookup_None path :
  forall override, silent_on override path -> lookup_path override path = None.
Proof.
  induction path as [|k path IH]; intros override Hs; [done|].
  rewrite lookup_path_cons. cbn [silent_on] in Hs.
  destruct (Py.dict_get override k) as [[| | | | |d']|] eqn:E; try done.
  - destruct path; [done|]. by apply IH.
  - by destruct path.
Qed.

(** X21. A path about which the override says nothing (it holds
    dictionaries on the way down until a key of the path is missing) reads
    the same in the merged configuration as in the base. *)
Theorem deep_merge_keeps_unmentioned
    (base override : dict) (path : list string) :
  unique_keys (VDict override) ->
  silent_on override path ->
  lookup_path (_deep_merge base override) path = lookup_path base path.
Proof.
  revert base override.
  induction path as [|k path IH]; intros base override Hu Hs; [done|].
  rewrite !lookup_path_cons. cbn [silent_on] in Hs.
  pose proof (proj1 (proj1 (unique_keys_dict override) Hu)) as Hnd.
  destruct (Py.dict_get override k) as [[| | | | |d']|] eqn:E; try done.
  - rewrite (deep_merge_child_wins _ _ _ _ Hnd E).
    pose proof (unique_keys_get _ _ _ Hu E) as Hu'.
    destruct path as [|k' path]; [done|].
    destruct (Py.dict_get base k) as [[| | | | |b']|];
      try (cbn [merge_value]; by apply silent_lookup_None).
    rewrite merge_value_dicts. by apply IH.
  - rewrite deep_merge_untouched by (by apply dict_get_None_keys). done.
Qed.

Lemma deep_merge_keeps_unmentioned_witness :
  lookup_path (_deep_merge example_parent example_child)
              ["checkers"; "security"; "rules"; "x"; "severity"]
  = Some (VStr "warning").
Proof.
  apply (deep_merge_keeps_unmentioned example_parent example_child
           ["checkers"; "security"; "rules"; "x"; "severity"]).
  - unique_keys_by_computation.
  - exact I.
Defined.

Lemma deep_merge_absorb base override :
  (forall k v, (k, v) ∈ override ->
               exists vb, Py.dict_get base k = Some vb
                          /\ merge_value (Some vb) v = vb) ->
  _deep_merge base override = base.
Proof.
  induction override as [|[k v] override IH]; intros H; [done|].
  rewrite deep_merge_cons.
  destruct (H k v ltac:(left)) as (vb & Hget & Hm).
  rewrite Hget, Hm, (dict_set_same _ _ _ Hget).
  apply IH. intros k' v' Hin. apply H. by right.
Qed.

Lemma merge_value_self v : unique_keys v -> merge_value (Some v) v = v.
Proof.
  induction v as [| | | |l _|d IH] using value_induction; try done.
  intros Hu. rewrite merge_value_dicts. f_equal.
  apply unique_keys_dict in Hu as [Hnd Hall].
  apply deep_merge_absorb. intros k v Hin. exists v. split.
  - by apply elem_dict_get.
  - rewrite Forall_forall in IH, Hall. apply (IH _ Hin), (Hall _ Hin).
Qed.

Lemma deep_merge_from_empty override acc :
  NoDup (map fst acc ++ map fst override) ->
  _deep_merge acc override = acc ++ override.
Proof.
  revert acc. induction override as [|[k v] override IH]; intros acc Hnd.
  - by rewrite app_nil_r.
  - rewrite deep_merge_cons. cbn [map fst] in Hnd.
    assert (k ∉ map fst acc) as Hk.
    { apply NoDup_app in Hnd as (_ & Hd & _). intros Hin.
      apply (Hd _ Hin). left. }
    rewrite dict_get_None by done. rewrite dict_set_fresh by done.
    assert (merge_value None v = v) as -> by (by destruct v).
    rewrite IH; [by rewrite <- app_assoc|].
    rewrite map_app. cbn [map fst]. rewrite <- app_assoc. exact Hnd.
Qed.

(** X22. The empty dictionary is neutral for [_deep_merge] on either
    side, and merging a dictionary with itself gives it back. *)
Theorem deep_merge_identities (d : dict) :
  unique_keys (VDict d) ->
  _deep_merge d [] = d /\ _deep_merge [] d = d /\ _deep_merge d d = d.
Proof.
  intros Hu. split; [done|]. split.
  - apply (deep_merge_from_empty d []).
    by apply unique_keys_dict in Hu as [Hnd _].
  - pose proof (merge_value_self _ Hu) as H.
    rewrite merge_value_dicts in H. by injection H.
Qed.

Lemma deep_merge_identities_witness :
  _deep_merge example_parent example_parent = example_parent.
Proof.
  apply (deep_merge_identities example_parent).
  unique_keys_by_computation.
Defined.




Lemma merge_lists_fold override :
  forall merged existing,
    existing = list_to_set merged ->
    exists rest,
      fst (foldl merge_lists_step (merged, existing) override) = merged ++ rest
      /\ NoDup rest /\ sublist rest override
      /\ forall x, x ∈ rest <-> x ∈ override /\ x ∉ merged.
Proof.
  induction override as [|item override IH]; intros merged existing ->.
  - exists []. rewrite app_nil_r.
    split; [done|]. split; [constructor|]. split; [constructor|].
    intros x. split; [by intros ?%elem_of_nil|by intros [?%elem_of_nil _]].
  - cbn [foldl merge_lists_step].
    destruct (bool_decide (item ∈ (list_to_set merged : gset string))) eqn:E.
    + apply bool_decide_eq_true_1, elem_of_list_to_set in E.
      destruct (IH merged _ eq_refl) as (rest & Hr & Hnd & Hsub & Hin).
      exists rest. split; [done|]. split; [done|].
      split; [by apply sublist_cons|].
      intros x. rewrite Hin, elem_of_cons. split; [tauto|].
      intros [[->|Hx] Hn]; [done|tauto].
    + apply bool_decide_eq_false_1 in E. rewrite elem_of_list_to_set in E.
      destruct (IH (merged ++ [item]) ({[item]} ∪ list_to_set merged))
        as (rest & Hr & Hnd & Hsub & Hin).
      { rewrite list_to_set_app_L. simpl. set_solver. }
      exists (item :: rest). rewrite Hr, <- app_assoc.
      split; [done|]. split; [|split; [by apply sublist_skip|]].
      * apply NoDup_cons. split; [|done]. intros Hi%Hin.
        destruct Hi as [_ Hi]. apply Hi, elem_of_app. right. left.
      * intros x. rewrite !elem_of_cons, Hin, elem_of_app,
          list_elem_of_singleton.
        destruct (decide (x = item)) as [->|Hne]; tauto.
Qed.

(** X23. [_merge_lists] returns the override unchanged, duplicates
    included, when the base is empty. Otherwise it returns the base
    followed by the override's items that the base lacks, each once and in
    the override's order. *)
Theorem merge_lists_spec (b : string) (base' override : list string) :
  _merge_lists [] override = override
  /\ exists rest,
      _merge_lists (b :: base') override = (b :: base') ++ rest
      /\ NoDup rest /\ sublist rest override
      /\ forall x, x ∈ rest <-> x ∈ override /\ x ∉ b :: base'.
Proof.
  split; [done|].
  assert (_merge_lists (b :: base') override
          = fst (foldl merge_lists_step (b :: base', list_to_set (b :: base'))
                       override)) as ->
    by (destruct override; reflexivity).
  by apply merge_lists_fold.
Qed.

Lemma merge_dicts_value_dicts b base o override :
  merge_dicts_value (Some (VDict (b :: base))) (VDict (o :: override))
  = VDict (foldl (fun merged p =>
                    Py.dict_set merged (fst p)
                      (merge_dicts_value (Py.dict_get merged (fst p)) (snd p)))
                 (b :: base) (o :: override)).
Proof.
  destruct o as [k v]. cbn [merge_dicts_value foldl fst snd]. f_equal.
  generalize (Py.dict_set (b :: base) k
                (merge_dicts_value (Py.dict_get (b :: base) k) v)) as merged.
  clear. induction override as [|[k v] items IH]; intros merged; [done|].
  apply IH.
Qed.

Lemma deep_merge_foldl base override :
  _deep_merge base override
  = foldl (fun merged p =>
             Py.dict_set merged (fst p)
               (merge_value (Py.dict_get merged (fst p)) (snd p)))
          base override.
Proof.
  revert base. induction override as [|[k v] l IH]; intros base; [done|].
  rewrite deep_merge_cons. apply IH.
Qed.

Lemma merge_dicts_value_agrees v :
  unique_keys v ->
  forall existing, merge_dicts_value existing v = merge_value existing v.
Proof.
  induction v as [| | | |l _|override IH] using value_induction; try done.
  intros Hu existing.
  destruct existing as [[| | | | |base]|]; try done.
  rewrite merge_value_dicts.
  apply unique_keys_dict in Hu as [Hnd Hall].
  destruct base as [|b base].
  - cbn [merge_dicts_value]. f_equal. symmetry.
    by apply (deep_merge_from_empty override []).
  - destruct override as [|o override]; [done|].
    rewrite merge_dicts_value_dicts, deep_merge_foldl. f_equal.
    generalize (b :: base) as merged. revert IH Hall.
    generalize (o :: override) as items. clear.
    induction items as [|[k v] items IHl]; intros IH Hall merged; [done|].
    apply Forall_cons in IH as [Hv IH]. apply Forall_cons in Hall as [Hu Hall].
    cbn [foldl fst snd]. simpl in Hv, Hu. rewrite (Hv Hu). by apply IHl.
Qed.

(** X24. On dictionaries with distinct keys, [_merge_dicts] of
    [config/validation.py], with its shortcuts for an empty side, computes
    the same result as [_deep_merge] of [config/config_parser.py]. *)
Theorem merge_dicts_agrees_with_deep_merge (base override : dict) :
  unique_keys (VDict override) ->
  _merge_dicts base override = _deep_merge base override.
Proof.
  intros Hu. unfold _merge_dicts, _deep_merge.
  by rewrite (merge_dicts_value_agrees _ Hu).
Qed.

Lemma merge_dicts_agrees_witness :
  _merge_dicts example_parent example_child
  = _deep_merge example_parent example_child.
Proof.
  apply merge_dicts_agrees_with_deep_merge. unique_keys_by_computation.
Defined.

End ConfigMergeFacts.

(** ** Rule firing and the build verdict *)

Section RuleEngineMoreFacts.
Import RuleEngine.

Lemma should_fail_build_exists config results :
  should_fail_build config results = true
  <-> exists r, r ∈ results
                /\ (severity_order (fail_on_severity config)
                    <= severity_order (r_severity r))%N.
Proof.
  unfold should_fail_build. rewrite existsb_exists. split.
  - intros (r & Hin & Hle). exists r. split; [by apply list_elem_of_In|].
    by apply N.leb_le.
  - intros (r & Hin & Hle). exists r. split; [by apply list_elem_of_In|].
    by apply N.leb_le.
Qed.

(** X26. The build fails exactly when some result is at or above
    [fail_on_severity]; when the severity threshold is not above
    [fail_on_severity], filtering the results by severity first does not
    change that verdict. *)
Theorem fail_build_survives_filter
    (config : ConfigSchema) (results : list RuleResult) :
  (severity_order (severity_threshold config)
   <= severity_order (fail_on_severity config))%N ->
  should_fail_build config (filter_results_by_severity config results)
  = should_fail_build config results
  /\ (should_fail_build config results = true
      <-> exists r, r ∈ results
                    /\ (severity_order (fail_on_severity config)
                        <= severity_order (r_severity r))%N).
Proof.
  intros Hle. split; [|apply should_fail_build_exists].
  apply eq_true_iff_eq. rewrite !should_fail_build_exists.
  split; intros (r & Hin & Hr); exists r; (split; [|done]).
  - by apply filter_results_elem in Hin as [Hin _].
  - apply filter_results_elem. split; [done|lia].
Qed.

Lemma fail_build_survives_filter_witness :
  should_fail_build (with_threshold WARNING)
    (filter_results_by_severity (with_threshold WARNING) sample_results)
  = should_fail_build (with_threshold WARNING) sample_results.
Proof.
  exact (proj1 (fail_build_survives_filter (with_threshold WARNING)
                  sample_results ltac:(vm_compute; discriminate))).
Defined.

Variable fnmatch : string -> string -> bool.
Variable regex_search : string -> string -> bool.

(** X25. The conditions of rule firing are sufficient: a rule of an
    enabled checker fires when, in case the configuration mentions it, it
    is not disabled, the file's type (if known) is in its non-empty
    allow-list (if any), and none of its ignore patterns matches the file
    path. *)
Theorem rule_fires_if
    (config : ConfigSchema) (checker rule : string) (context : RuleContext) :
  is_checker_enabled config checker = true ->
  (forall cc rc,
      checkers config !! checker = Some cc ->
      rules cc !! rule = Some rc ->
      enabled rc = true
      /\ (forall t ts ft,
            file_types rc = Some (t :: ts) ->
            file_type context = Some ft -> ft ∈ t :: ts)
      /\ (forall p, p ∈ ignore_patterns rc ->
                    fnmatch (file_path context) p = false)) ->
  is_rule_enabled fnmatch regex_search config checker rule context = true.
Proof.
  intros Hen Hrule. unfold is_rule_enabled. rewrite Hen. cbn [negb].
  destruct (checkers config !! checker) as [cc|] eqn:Hc; [|done].
  destruct (rules cc !! rule) as [rc|] eqn:Hr; [|done].
  destruct (Hrule cc rc eq_refl Hr) as (He & Hft & Hig).
  rewrite He. cbn [negb].
  assert (existsb (fun pattern =>
            _matches_pattern fnmatch regex_search (file_path context)
                             pattern "glob") (ignore_patterns rc) = false)
    as ->.
  { apply not_true_is_false. intros (p & Hp & Hm)%existsb_exists.
    apply list_elem_of_In in Hp. unfold _matches_pattern in Hm. simpl in Hm.
    rewrite (Hig p Hp) in Hm. discriminate. }
  destruct (file_types rc) as [[|t ts]|]; [done| |done].
  destruct (file_type context) as [ft|]; [|done].
  by rewrite (bool_decide_eq_true_2 _ (Hft t ts ft eq_refl eq_refl)).
Qed.

End RuleEngineMoreFacts.

Lemma rule_fires_if_witness :
  RuleEngine.is_rule_enabled RuleEngine.literal_match RuleEngine.no_regex
    RuleEngine.sample_config "style" "line_too_long"
    RuleEngine.python_context = true.
Proof.
  apply rule_fires_if; [reflexivity|].
  intros cc rc Hcc Hrc. vm_compute in Hcc. injection Hcc as <-.
  vm_compute in Hrc. injection Hrc as <-.
  split; [reflexivity|]. split.
  - intros t ts ft [= <- <-] [= <-]. left.
  - intros p Hp. cbn in Hp. apply list_elem_of_singleton in Hp as ->.
    reflexivity.
Defined.

(** ** Sections and hunks of a diff *)

Section SectionCountFacts.
Import DiffParser.


Lemma starting_mono prefix lns i j :
  i <= j -> starting prefix lns j <= starting prefix lns i.
Proof.
  intros Hij. unfold starting. apply length_filter_sublist.
  replace j with (i + (j - i)) by lia. rewrite <- drop_drop.
  apply sublist_drop.
Qed.

Lemma starting_hit prefix lns i line :
  nth_error lns i = Some line -> Py.startswith line prefix = true ->
  starting prefix lns i = S (starting prefix lns (S i)).
Proof.
  intros Hl Hp. unfold starting.
  assert (drop i lns = line :: drop (S i) lns) as ->.
  { clear Hp. revert i Hl. induction lns as [|x lns IH]; intros [|i] Hl;
      try discriminate.
    - injection Hl as ->. done.
    - simpl. by apply IH. }
  by rewrite filter_cons, decide_True.
Qed.

Lemma hunks_loop_count lns :
  forall fuel i hs hs' i',
    hunks_loop fuel lns i hs = Ok (hs', i') ->
    i <= i' /\ length hs' + starting "@@" lns i'
               <= length hs + starting "@@" lns i.
Proof.
  induction fuel as [|fuel IH]; intros i hs hs' i'; [done|].
  simpl. destruct (Nat.ltb_spec i (length lns)) as [Hlt|Hge].
  2:{ intros [= <- <-]. lia. }
  destruct (nth_error lns i) as [line|] eqn:Hline;
    [|apply nth_error_None in Hline; lia].
  rewrite (getitem_nth _ _ _ Hline). unbind.
  destruct (Py.startswith line "@@") eqn:Hat.
  2:{ intros [= <- <-]. lia. }
  pose proof (_parse_hunk_outcome lns i) as Hh.
  destruct (_parse_hunk lns i) as [[h j]|e]; [|done].
  simpl in Hh. destruct Hh as (Hj1 & Hj2 & Hj3).
  specialize (Hj3 line Hline Hat).
  intros Hloop. apply IH in Hloop as [Hle Hcount].
  pose proof (starting_hit "@@" lns i line Hline Hat) as Hhit.
  pose proof (starting_mono "@@" lns (S i) j ltac:(lia)) as Hmono.
  split; [lia|]. destruct h as [h|]; [rewrite length_app in Hcount; simpl in Hcount|]; lia.
Qed.

Lemma header_loop_le lns :
  forall fuel i st st' i',
    header_loop fuel lns i st = Ok (st', i') -> i <= i'.
Proof.
  induction fuel as [|fuel IH]; intros i st st' i'; [done|].
  simpl. destruct (i <? length lns)%nat; [|intros [= <- <-]; lia].
  destruct (Py.getitem lns i) as [line|]; [|done]. unbind.
  destruct (negb (Py.startswith line "@@")
            && negb (Py.startswith line "diff --git")).
  - intros H%IH. lia.
  - intros [= <- <-]. lia.
Qed.

Lemma parse_file_diff_count lns i fd i' :
  _parse_file_diff lns i = Ok (fd, i') ->
  i <= i'
  /\ match fd with Some f => length (hunks f) | None => 0 end
     + starting "@@" lns i' <= starting "@@" lns i.
Proof.
  unfold _parse_file_diff.
  destruct (git_header_ok lns i) as (st0 & j & -> & Hj1 & _). unbind.
  destruct (header_loop _ lns j st0) as [[st k]|] eqn:Hh; [|done].
  apply header_loop_le in Hh.
  destruct (hunks_loop _ lns k []) as [[hs m]|] eqn:Hhs; [|done].
  apply hunks_loop_count in Hhs as [Hkm Hc]. simpl in Hc.
  pose proof (starting_mono "@@" lns i k ltac:(lia)) as Hmono.
  intros [= <- <-]. split; [lia|].
  unfold finish_file_diff.
  destruct (falsy_path (hs_old_path st) || falsy_path (hs_new_path st));
    simpl; lia.
Qed.


Lemma files_loop_count lns :
  forall fuel i fs fs',
    files_loop fuel lns i fs = Ok fs' ->
    length fs' <= length fs + starting "diff --git" lns i
    /\ hunk_total fs' <= hunk_total fs + starting "@@" lns i.
Proof.
  induction fuel as [|fuel IH]; intros i fs fs'; [done|].
  simpl. destruct (Nat.ltb_spec i (length lns)) as [Hlt|Hge].
  2:{ intros [= <-]. lia. }
  destruct (nth_error lns i) as [line|] eqn:Hline;
    [|apply nth_error_None in Hline; lia].
  rewrite (getitem_nth _ _ _ Hline). unbind.
  destruct (Py.startswith line "diff --git") eqn:Hd.
  - destruct (_parse_file_diff lns i) as [[fd j]|] eqn:Hf; [|done].
    pose proof (_parse_file_diff_outcome lns i ltac:(lia)) as Hprog.
    rewrite Hf in Hprog. simpl in Hprog. destruct Hprog as (_ & Hprog & _).
    specialize (Hprog line Hline Hd).
    apply parse_file_diff_count in Hf as [_ Hc].
    pose proof (starting_hit "diff --git" lns i line Hline Hd) as Hhit.
    pose proof (starting_mono "diff --git" lns (S i) j ltac:(lia)) as Hmono.
    intros [H1 H2]%IH. unfold hunk_total in *.
    destruct fd as [f|];
      [rewrite length_app in H1; rewrite flat_map_app, length_app in H2;
       simpl in H1, H2; rewrite app_nil_r in H2|]; lia.
  - intros [H1 H2]%IH.
    pose proof (starting_mono "diff --git" lns i (i + 1) ltac:(lia)).
    pose proof (starting_mono "@@" lns i (i + 1) ltac:(lia)). lia.
Qed.

(** X27. A result of [parse_diff] holds at most one [FileDiff] for every
    line that starts with ['diff --git'], and the files together hold at
    most one hunk for every line that starts with ['@@']. *)
Theorem parsed_sections_bounded (diff_text : string) (r : GitDiffResult) :
  parse_diff diff_text = Ok r ->
  length (files r)
  <= length (filter (fun l => Py.startswith l "diff --git" = true)
                    (Py.split_newline diff_text))
  /\ length (flat_map hunks (files r))
     <= length (filter (fun l => Py.startswith l "@@" = true)
                       (Py.split_newline diff_text)).
Proof.
  intros Hr. unfold parse_diff in Hr.
  destruct (files_loop _ _ 0 []) as [fs|] eqn:Hfs; [|done]. unbind.
  injection Hr as <-. cbn [files].
  apply files_loop_count in Hfs as [H1 H2].
  unfold hunk_total, starting in *. rewrite !drop_0 in *. simpl in *. lia.
Qed.

Lemma parsed_sections_bounded_witness :
  exists r,
    parse_diff unresolved_then_good_text = Ok r
    /\ length (files r) = 1
    /\ length (filter (fun l => Py.startswith l "diff --git" = true)
                      (Py.split_newline unresolved_then_good_text)) = 2
    /\ length (files r)
       <= length (filter (fun l => Py.startswith l "diff --git" = true)
                         (Py.split_newline unresolved_then_good_text)).
Proof.
  eexists. split; [vm_compute; reflexivity|].
  split; [reflexivity|]. split; [vm_compute; reflexivity|].
  exact (proj1 (parsed_sections_bounded unresolved_then_good_text _
                  ltac:(vm_compute; reflexivity))).
Defined.

End SectionCountFacts.

(** ** Focused content *)


Section FocusedContentFacts.
Import FocusedContent FocusedReviewExtra.






















End FocusedContentFacts.

(** ** Merged configurations and the rule engine *)


Section ConfigMergerFacts.
Import RuleEngine ConfigMerger.

Lemma merge_fold_lookup {V} (combine : V -> V -> V)
    (base override : gmap string V) (k : string) :
  map_fold (fun name o merged =>
              match merged !! name with
              | Some b => <[name := combine b o]> merged
              | None => <[name := o]> merged
              end) base override !! k
  = match override !! k with
    | Some o => Some (match base !! k with
                      | Some b => combine b o
                      | None => o
                      end)
    | None => base !! k
    end.
Proof.
  revert k.
  apply (map_fold_weak_ind
           (fun r m => forall k,
                r !! k = match m !! k with
                         | Some o => Some (match base !! k with
                                           | Some b => combine b o
                                           | None => o
                                           end)
                         | None => base !! k
                         end)).
  - intros k. by rewrite lookup_empty.
  - intros i x m r Hi IH k.
    pose proof (IH i) as Hri. rewrite Hi in Hri. rewrite Hri.
    destruct (decide (i = k)) as [->|Hne].
    + rewrite lookup_insert_eq. destruct (base !! k); by rewrite lookup_insert_eq.
    + rewrite (lookup_insert_ne m) by done. rewrite <- IH.
      destruct (base !! i); by rewrite lookup_insert_ne.
Qed.

Lemma merge_lists_elem base override x :
  x ∈ ConfigMerge._merge_lists base override <-> x ∈ base \/ x ∈ override.
Proof.
  destruct base as [|b base'].
  - simpl. split; [by right|]. by intros [?%elem_of_nil|?].
  - assert (ConfigMerge._merge_lists (b :: base') override
            = fst (foldl ConfigMerge.merge_lists_step
                         (b :: base', list_to_set (b :: base')) override))
      as -> by (destruct override; reflexivity).
    destruct (merge_lists_fold override (b :: base') _ eq_refl)
      as (rest & -> & _ & _ & Hin).
    rewrite elem_of_app, Hin.
    destruct (decide (x ∈ b :: base')); tauto.
Qed.

Lemma is_rule_enabled_iff fnmatch regex_search config checker rule context
    cc rc :
  checkers config !! checker = Some cc ->
  rules cc !! rule = Some rc ->
  is_rule_enabled fnmatch regex_search config checker rule context = true
  <-> c_enabled cc = true /\ enabled rc = true
      /\ (forall t ts ft, file_types rc = Some (t :: ts) ->
            file_type context = Some ft -> ft ∈ t :: ts)
      /\ (forall p, p ∈ ignore_patterns rc ->
                    fnmatch (file_path context) p = false).
Proof.
  intros Hc Hr. split; [by apply is_rule_enabled_true|].
  intros (Hce & He & Hft & Hig).
  unfold is_rule_enabled, is_checker_enabled. rewrite Hc, Hr, Hce, He.
  cbn [negb].
  assert (existsb (fun pattern =>
            _matches_pattern fnmatch regex_search (file_path context)
                             pattern "glob") (ignore_patterns rc) = false)
    as ->.
  { apply not_true_is_false. intros (p & Hp & Hm)%existsb_exists.
    apply list_elem_of_In in Hp. unfold _matches_pattern in Hm. simpl in Hm.
    rewrite (Hig p Hp) in Hm. discriminate. }
  destruct (file_types rc) as [[|t ts]|]; [done| |done].
  destruct (file_type context) as [ft|]; [|done].
  by rewrite (bool_decide_eq_true_2 _ (Hft t ts ft eq_refl eq_refl)).
Qed.

(** X29. On a configuration whose checkers come from [_merge_checkers],
    a rule that both sides configure fires exactly when the override's
    checker and the override's rule are enabled, whatever the base says,
    the file's type passes the override's allow-list (the base's when the
    override has none or an empty one), and no ignore pattern of either
    side matches the file path. Its severity is the override's checker
    [severity_override], else the base's, else the severity of the
    override's rule. *)
Theorem merged_rule_fires_iff
    (fnmatch regex_search : string -> string -> bool)
    (config : ConfigSchema) (base override : gmap string CheckerConfig)
    (checker rule : string) (context : RuleContext)
    (bc oc : CheckerConfig) (br or_ : RuleConfig) :
  checkers config = _merge_checkers base override ->
  base !! checker = Some bc -> override !! checker = Some oc ->
  rules bc !! rule = Some br -> rules oc !! rule = Some or_ ->
  (is_rule_enabled fnmatch regex_search config checker rule context = true
   <-> c_enabled oc = true /\ enabled or_ = true
       /\ (forall t ts ft,
             file_types (merge_rule br or_) = Some (t :: ts) ->
             file_type context = Some ft -> ft ∈ t :: ts)
       /\ (forall p, p ∈ ignore_patterns br \/ p ∈ ignore_patterns or_ ->
                     fnmatch (file_path context) p = false))
  /\ (forall dflt,
        get_effective_severity config checker rule dflt
        = match severity_override oc, severity_override bc with
          | Some s, _ => s
          | None, Some s => s
          | None, None => severity or_
          end).
Proof.
  intros Hcfg Hbc Hoc Hbr Hor.
  assert (checkers config !! checker = Some (merge_checker bc oc)) as Hc.
  { rewrite Hcfg. unfold _merge_checkers.
    by rewrite (merge_fold_lookup merge_checker), Hoc, Hbc. }
  assert (rules (merge_checker bc oc) !! rule = Some (merge_rule br or_))
    as Hr.
  { cbn [merge_checker rules]. unfold _merge_rules.
    by rewrite (merge_fold_lookup merge_rule), Hor, Hbr. }
  split.
  - rewrite (is_rule_enabled_iff _ _ _ _ _ _ _ _ Hc Hr).
    cbn [merge_checker c_enabled]. cbn [merge_rule enabled ignore_patterns].
    do 3 apply and_iff_compat_l.
    split; intros H p Hp; apply H; by apply merge_lists_elem.
  - intros dflt. unfold get_effective_severity. rewrite Hc, Hr.
    cbn [merge_checker severity_override].
    by destruct (severity_override oc), (severity_override bc).
Qed.

Lemma merged_rule_fires_witness :
  is_rule_enabled literal_match no_regex
    (mkConfigSchema (_merge_checkers parent_checkers child_checkers)
                    INFO ERROR 100)
    "style" "line_too_long" python_context = true.
Proof.
  apply (proj1 (merged_rule_fires_iff literal_match no_regex
                  (mkConfigSchema
                     (_merge_checkers parent_checkers child_checkers)
                     INFO ERROR 100)
                  parent_checkers child_checkers "style" "line_too_long"
                  python_context
                  (mkCheckerConfig true
                     {[ "line_too_long" :=
                          mkRuleConfig false WARNING None ["vendor.py"] ]}
                     (Some INFO))
                  (mkCheckerConfig true
                     {[ "line_too_long" := python_only_rule ]} None)
                  (mkRuleConfig false WARNING None ["vendor.py"])
                  python_only_rule
                  eq_refl eq_refl eq_refl eq_refl eq_refl)).
  split; [reflexivity|]. split; [reflexivity|]. split.
  - intros t ts ft [= <- <-] [= <-]. left.
  - intros p [Hp|Hp]; cbn in Hp;
      apply list_elem_of_singleton in Hp as ->; reflexivity.
Defined.

End ConfigMergerFacts.
